(** * Spaced-repetition flash cards: the review scheduler and the review session

    A shallow embedding of the [FlashCardManager] component (state, the
    handlers [startReview], [handleReviewResult], [handleGenerate], the
    derived [stats] object and the quit / flip callbacks), followed by the
    properties of the scheduler, the due queue, the deck statistics and the
    session state machine.

    Conventions.
    - JavaScript numbers that hold integers (box levels, millisecond
      timestamps, array lengths) are [Z]; array positions that only count
      upwards from 0 ([currentCardIndex]) are [nat].
    - [Date.now()] is a read of a clock.  A handler receives a [Clock]: the
      function giving the value of its k-th call of [Date.now()], counted
      from 0 in evaluation order.
    - React state is a record; a handler is a function from the state of the
      render it was created in to the state of the next render.
    - [localStorage.setItem('uk_life_flashcards', ...)] appends the written
      collection to a log kept in the state, newest first. *)

From Stdlib Require Import ZArith List String Bool Lia Permutation Sorted.
From Stdlib Require Import Ascii DecimalString.
Import ListNotations.
Open Scope Z_scope.

(** ** types.ts *)

Record FlashCard : Type := mkFlashCard {
  id : string;
  front : string;
  back : string;
  box : Z;
  nextReview : Z;
  createdAt : Z;
  topic : string
}.

Record FlashCardDeckStats : Type := mkStats {
  totalCards : Z;
  dueCards : Z;
  masteredCards : Z
}.

(** ** JavaScript primitives used by the component *)

(** The k-th call of [Date.now()] made by one handler invocation. *)
Definition Clock : Type := nat -> Z.

(** A clock that does not advance while the handler runs. *)
Definition constClock (now : Z) : Clock := fun _ => now.

(** [a[i]]: [undefined] (here [None]) outside of [0 .. a.length - 1]. *)
Definition array_get {A : Type} (a : list A) (i : Z) : option A :=
  if i <? 0 then None else nth_error a (Z.to_nat i).

(** [v || d] on a possibly undefined number: [undefined] and [0] are falsy. *)
Definition or_else (v : option Z) (d : Z) : Z :=
  match v with
  | Some n => if n =? 0 then d else n
  | None => d
  end.

(** [a.length]. *)
Definition len {A : Type} (a : list A) : Z := Z.of_nat (List.length a).

(** [a.filter(cb)] where the callback may read the clock: the callback of the
    element at position [k + j] of the traversal is given the index [k + j]. *)
Fixpoint filter_from {A : Type} (p : nat -> A -> bool) (k : nat) (a : list A)
  : list A :=
  match a with
  | [] => []
  | x :: rest =>
      if p k x then x :: filter_from p (S k) rest else filter_from p (S k) rest
  end.

(** [a.sort(cmp)]: the sort of the language is stable, so its result is the
    one of a stable insertion sort: an element is placed after every element
    that does not compare greater than it. *)
Fixpoint sort_insert {A : Type} (cmp : A -> A -> Z) (x : A) (sorted : list A)
  : list A :=
  match sorted with
  | [] => [x]
  | y :: rest =>
      if cmp x y <? 0 then x :: y :: rest else y :: sort_insert cmp x rest
  end.

Definition array_sort {A : Type} (cmp : A -> A -> Z) (a : list A) : list A :=
  fold_left (fun acc x => sort_insert cmp x acc) a [].

(** ** The scheduler: lines 86-118 of [handleReviewResult] *)

Definition intervals : list Z := [1; 3; 7; 14; 30; 90].

(** [intervals[newBox - 1] || 1] *)
Definition daysToAdd (newBox : Z) : Z :=
  or_else (array_get intervals (newBox - 1)) 1.

(** The pair [(newBox, nextReview)] held by the two local variables when the
    [if (success)] statement has run.  The first clock read initialises
    [nextReview]; both branches overwrite it from a second read. *)
Definition scheduler (clk : Clock) (currentBox : Z) (success : bool) : Z * Z :=
  let newBox := currentBox in
  let nextReview := clk 0%nat in
  if success then
    let newBox := Z.min (currentBox + 1) (len intervals) in
    let nextReview := clk 1%nat + daysToAdd newBox * 24 * 60 * 60 * 1000 in
    (newBox, nextReview)
  else
    let newBox := 0 in
    let nextReview := clk 1%nat + 24 * 60 * 60 * 1000 in
    (newBox, nextReview).

(** Successive reviews of one card that all succeed, one clock per review:
    the results of the scheduler, each fed the box of the previous one. *)
Fixpoint success_chain (clks : list Clock) (currentBox : Z) : list (Z * Z) :=
  match clks with
  | [] => []
  | clk :: rest =>
      let r := scheduler clk currentBox true in
      r :: success_chain rest (fst r)
  end.

(** ** The component state ([useState] hooks) and the stored copy *)

Record State : Type := mkState {
  cards : list FlashCard;
  isReviewing : bool;
  isGenerating : bool;
  showGenerateModal : bool;
  topicInput : string;
  reviewQueue : list FlashCard;
  currentCardIndex : nat;
  isFlipped : bool;
  (** every [localStorage.setItem('uk_life_flashcards', ...)], newest first *)
  stored : list (list FlashCard)
}.

Definition setCards (v : list FlashCard) (s : State) : State :=
  mkState v (isReviewing s) (isGenerating s) (showGenerateModal s)
    (topicInput s) (reviewQueue s) (currentCardIndex s) (isFlipped s) (stored s).
Definition setIsReviewing (v : bool) (s : State) : State :=
  mkState (cards s) v (isGenerating s) (showGenerateModal s)
    (topicInput s) (reviewQueue s) (currentCardIndex s) (isFlipped s) (stored s).
Definition setIsGenerating (v : bool) (s : State) : State :=
  mkState (cards s) (isReviewing s) v (showGenerateModal s)
    (topicInput s) (reviewQueue s) (currentCardIndex s) (isFlipped s) (stored s).
Definition setShowGenerateModal (v : bool) (s : State) : State :=
  mkState (cards s) (isReviewing s) (isGenerating s) v
    (topicInput s) (reviewQueue s) (currentCardIndex s) (isFlipped s) (stored s).
Definition setTopicInput (v : string) (s : State) : State :=
  mkState (cards s) (isReviewing s) (isGenerating s) (showGenerateModal s)
    v (reviewQueue s) (currentCardIndex s) (isFlipped s) (stored s).
Definition setReviewQueue (v : list FlashCard) (s : State) : State :=
  mkState (cards s) (isReviewing s) (isGenerating s) (showGenerateModal s)
    (topicInput s) v (currentCardIndex s) (isFlipped s) (stored s).
Definition setCurrentCardIndex (v : nat) (s : State) : State :=
  mkState (cards s) (isReviewing s) (isGenerating s) (showGenerateModal s)
    (topicInput s) (reviewQueue s) v (isFlipped s) (stored s).
Definition setIsFlipped (v : bool) (s : State) : State :=
  mkState (cards s) (isReviewing s) (isGenerating s) (showGenerateModal s)
    (topicInput s) (reviewQueue s) (currentCardIndex s) v (stored s).
Definition localStorage_setItem (v : list FlashCard) (s : State) : State :=
  mkState (cards s) (isReviewing s) (isGenerating s) (showGenerateModal s)
    (topicInput s) (reviewQueue s) (currentCardIndex s) (isFlipped s)
    (v :: stored s).

(** The state of the first render. *)
Definition initialState : State :=
  mkState [] false false false EmptyString [] 0%nat false [].

(** The seed deck of the mount effect; its four clock reads in order. *)
Definition seed (clk : Clock) : list FlashCard :=
  [ mkFlashCard "1"%string "What constitutes the UK?"%string
      "England, Scotland, Wales, and Northern Ireland."%string
      0 (clk 0%nat) (clk 1%nat) "Geography"%string;
    mkFlashCard "2"%string "Who built the Tower of London?"%string
      "William the Conqueror"%string
      0 (clk 2%nat) (clk 3%nat) "History"%string ].

(** [localStorage.getItem('uk_life_flashcards')], parsed: the collection
    written last, [None] when nothing was ever written. *)
Definition localStorage_getItem (s : State) : option (list FlashCard) :=
  hd_error (stored s).

(** The first render of a later run of the component over the same storage. *)
Definition reload (s : State) : State :=
  mkState [] false false false EmptyString [] 0%nat false (stored s).

(** The mount effect. *)
Definition mount (clk : Clock) (s : State) : State :=
  match localStorage_getItem s with
  | Some savedCards => setCards savedCards s
  | None => localStorage_setItem (seed clk) (setCards (seed clk) s)
  end.

Definition saveCards (newCards : list FlashCard) (s : State) : State :=
  localStorage_setItem newCards (setCards newCards s).

(** [c => c.nextReview <= Date.now()] at the k-th call of the callback. *)
Definition isDue (clk : Clock) (k : nat) (c : FlashCard) : bool :=
  nextReview c <=? clk k.

Definition stats (clk : Clock) (s : State) : FlashCardDeckStats :=
  {| totalCards := len (cards s);
     dueCards := len (filter_from (isDue clk) 0 (cards s));
     masteredCards := len (filter (fun c => box c >=? 4) (cards s)) |}.

(** What the content provider returns for one card. *)
Record CardData : Type := mkCardData {
  data_front : string;
  data_back : string;
  data_topic : string
}.

(** [newCardsData.map(c => ({...c, id: ..., box: 0, nextReview: Date.now(),
    createdAt: Date.now()}))], from position [k]: [rand j] is the identifier
    drawn for the j-th card, and the j-th callback reads the clock twice. *)
Fixpoint newCards_from (clk : Clock) (rand : nat -> string) (k : nat)
  (newCardsData : list CardData) : list FlashCard :=
  match newCardsData with
  | [] => []
  | c :: rest =>
      mkFlashCard (rand k) (data_front c) (data_back c)
        0 (clk (2 * k)%nat) (clk (2 * k + 1)%nat) (data_topic c)
      :: newCards_from clk rand (S k) rest
  end.

(** [handleGenerate], from the click to the end of its [finally] block.
    [trim] is the string method; [response] is the awaited result of the
    provider, [None] when it throws. *)
Definition handleGenerate (trim : string -> string) (clk : Clock)
  (rand : nat -> string) (response : option (list CardData)) (s : State)
  : State :=
  if String.eqb (trim (topicInput s)) EmptyString then s
  else
    match response with
    | Some newCardsData =>
        let newCards := newCards_from clk rand 0 newCardsData in
        setIsGenerating false
          (setShowGenerateModal false
             (setTopicInput EmptyString
                (saveCards (cards s ++ newCards) (setIsGenerating true s))))
    | None => setIsGenerating false (setIsGenerating true s)
    end.

Definition startReview (clk : Clock) (s : State) : State :=
  let due :=
    array_sort (fun a b => nextReview a - nextReview b)
      (filter_from (isDue clk) 0 (cards s)) in
  setIsReviewing true
    (setIsFlipped false (setCurrentCardIndex 0%nat (setReviewQueue due s))).

(** [{ ...c, box: newBox, nextReview: nextReview }] *)
Definition withReview (c : FlashCard) (newBox nextReview : Z) : FlashCard :=
  mkFlashCard (id c) (front c) (back c) newBox nextReview (createdAt c)
    (topic c).

(** Lines 120-124: the collection with the scheduler's result written to the
    cards whose identifier is the one of the current card. *)
Definition updatedCards (currentCard : FlashCard) (newBox nextReview : Z)
  (cs : list FlashCard) : list FlashCard :=
  map (fun c =>
         if String.eqb (id c) (id currentCard)
         then withReview c newBox nextReview
         else c) cs.

(** [handleReviewResult]; [None] when [reviewQueue[currentCardIndex]] is
    undefined, where reading its [box] throws. *)
Definition handleReviewResult (clk : Clock) (success : bool) (s : State)
  : option State :=
  match nth_error (reviewQueue s) (currentCardIndex s) with
  | None => None
  | Some currentCard =>
      let '(newBox, nextReview) := scheduler clk (box currentCard) success in
      let s1 := saveCards (updatedCards currentCard newBox nextReview (cards s)) s in
      if Z.of_nat (currentCardIndex s) <? len (reviewQueue s) - 1
      then Some (setCurrentCardIndex (S (currentCardIndex s))
                   (setIsFlipped false s1))
      else Some (setIsReviewing false s1)
  end.

(** The Quit button of the review view. *)
Definition quit (s : State) : State := setIsReviewing false s.

(** [onFlip] of the card shown in the review view. *)
Definition flip (s : State) : State := setIsFlipped (negb (isFlipped s)) s.

(** What the component renders (lines 136-141): the loading screen while a
    generation is awaited, the review view when
    [isReviewing && reviewQueue.length > 0], the dashboard otherwise.  The
    review view is the session being active at a cursor, with the answer
    revealed or not; the dashboard is the session not started, or ended. *)
Inductive View : Type :=
| Loading
| Review (cursor : nat) (revealed : bool)
| Dashboard.

Definition view (s : State) : View :=
  if isGenerating s then Loading
  else if isReviewing s && (len (reviewQueue s) >? 0)
       then Review (currentCardIndex s) (isFlipped s)
       else Dashboard.

(** The card on screen: [reviewQueue[currentCardIndex]]. *)
Definition currentCard (s : State) : option FlashCard :=
  nth_error (reviewQueue s) (currentCardIndex s).

(** What the user does in the review view. *)
Inductive Action : Type :=
| Reveal
| Outcome (clk : Clock) (success : bool)
| Quit.

(** One action; the controls exist in the review view only. [None] when the
    view is another one, or when the handler throws. *)
Definition act (a : Action) (s : State) : option State :=
  match view s with
  | Review _ _ =>
      match a with
      | Reveal => Some (flip s)
      | Outcome clk success => handleReviewResult clk success s
      | Quit => Some (quit s)
      end
  | _ => None
  end.

(** A sequence of actions, each on the state the previous one rendered. *)
Fixpoint run (actions : list Action) (s : State) : option State :=
  match actions with
  | [] => Some s
  | a :: rest =>
      match act a s with
      | Some s' => run rest s'
      | None => None
      end
  end.

(** The cards on screen at the outcomes of a run, in order. *)
Fixpoint reviewed (actions : list Action) (s : State) : list FlashCard :=
  match actions with
  | [] => []
  | a :: rest =>
      match act a s with
      | Some s' =>
          match a, currentCard s with
          | Outcome _ _, Some c => c :: reviewed rest s'
          | _, _ => reviewed rest s'
          end
      | None => []
      end
  end.

(** The specification's count of the elements of a collection that satisfy
    a condition. *)
Fixpoint number_of {A : Type} (p : A -> bool) (l : list A) : Z :=
  match l with
  | [] => 0
  | x :: rest => (if p x then 1 else 0) + number_of p rest
  end.

(** The identifiers of a deck are pairwise different (the data model's
    unique identity). *)
Definition uniqueIds (cs : list FlashCard) : Prop := NoDup (map id cs).

(** Every box level of a deck is one of 0 .. 6. *)
Definition boxesInRange (cs : list FlashCard) : Prop :=
  Forall (fun c => 0 <= box c <= 6) cs.

(** The number of outcomes among the actions, and the absence of a quit. *)
Fixpoint outcomes (actions : list Action) : nat :=
  match actions with
  | [] => 0%nat
  | Outcome _ _ :: rest => S (outcomes rest)
  | _ :: rest => outcomes rest
  end.

Fixpoint noQuit (actions : list Action) : bool :=
  match actions with
  | [] => true
  | Quit :: _ => false
  | _ :: rest => noQuit rest
  end.

(** A deck and a queue as the component keeps them: identifiers are unique
    in both, and the queue holds cards of the deck only. *)
Definition wellFormed (s : State) : Prop :=
  uniqueIds (cards s)
  /\ uniqueIds (reviewQueue s)
  /\ incl (map id (reviewQueue s)) (map id (cards s)).

(** The states the component can be in: the first render over an empty
    storage, the mount effect of a run over what earlier runs left in the
    storage, and every handler from there. *)
Inductive reachable : State -> Prop :=
| reach_initial : reachable initialState
| reach_mount (clk : Clock) (earlier : State) :
    reachable earlier ->
    reachable (mount clk (reload earlier))
| reach_generate (trim : string -> string) (clk : Clock)
    (rand : nat -> string) (response : option (list CardData)) (s : State) :
    reachable s ->
    reachable (handleGenerate trim clk rand response s)
| reach_startReview (clk : Clock) (s : State) :
    reachable s -> reachable (startReview clk s)
| reach_flip (s : State) :
    reachable s -> reachable (flip s)
| reach_quit (s : State) :
    reachable s -> reachable (quit s)
| reach_outcome (clk : Clock) (success : bool) (s s' : State) :
    reachable s ->
    handleReviewResult clk success s = Some s' ->
    reachable s'.

(** The box invariant on everything a state holds. *)
Definition boxInvariant (s : State) : Prop :=
  boxesInRange (cards s)
  /\ boxesInRange (reviewQueue s)
  /\ Forall boxesInRange (stored s).

(** ** Writes of a session, as the storage sees them *)

(** The outcomes among the actions, in order: the clock and the answer of
    each. *)
Fixpoint outcomesOf (actions : list Action) : list (Clock * bool) :=
  match actions with
  | [] => []
  | Outcome clk success :: rest => (clk, success) :: outcomesOf rest
  | _ :: rest => outcomesOf rest
  end.

(** The deck [new] is the deck [old] with an upsert of the card identified
    by [target]: position by position, a card with the identifier of
    [target] holds the box [newBox] and the review time [next] in place of
    its own and keeps its other fields, and any other card is the same. *)
Definition upsertOf (target : FlashCard) (newBox next : Z)
  (old new : list FlashCard) : Prop :=
  Forall2
    (fun c c' =>
       (id c = id target ->
        c' = mkFlashCard (id c) (front c) (back c) newBox next (createdAt c)
               (topic c))
       /\ (id c <> id target -> c' = c))
    old new.

(** The decks [writes], oldest first, are written one per target: each is
    the deck before it (first [deck]) with an upsert of its target that
    carries the scheduler's result for the target's box and that outcome;
    [final] is the deck written last. *)
Fixpoint upsertChain (deck : list FlashCard) (targets : list FlashCard)
  (results : list (Clock * bool)) (writes : list (list FlashCard))
  (final : list FlashCard) : Prop :=
  match targets, results, writes with
  | [], [], [] => final = deck
  | target :: targets', (clk, success) :: results', written :: writes' =>
      upsertOf target (fst (scheduler clk (box target) success))
        (snd (scheduler clk (box target) success)) deck written
      /\ upsertChain written targets' results' writes' final
  | _, _, _ => False
  end.

(** ** constants.ts *)

Definition PASS_MARK_PERCENTAGE : Z := 75.
Definition TOTAL_QUESTIONS : Z := 25.
Definition MAX_TIME_SECONDS : Z := 45 * 60.

(** [Math.ceil(a / b)] for integers [a] and [b > 0]. *)
Definition Math_ceil_div (a b : Z) : Z := - ((- a) / b).

(** [Math.ceil((PASS_MARK_PERCENTAGE / 100) * TOTAL_QUESTIONS)]: the
    quotient 0.75 and the product 18.75 are exact in binary floating point,
    so the value is the ceiling of the exact fraction. *)
Definition PASS_MARK_COUNT : Z :=
  Math_ceil_div (PASS_MARK_PERCENTAGE * TOTAL_QUESTIONS) 100.

(** ** types.ts: the quiz *)

Inductive QuizMode : Type := TIMED | UNTIMED | PRACTICE | STREAK.

Module Quiz.

Record Question : Type := mkQuestion {
  id : Z;
  text : string;
  options : list string;
  correctIndex : Z;
  explanation : string;
  chapterReference : string
}.

(** [UserAnswers]: an object from question index to option index.  Its own
    keys are integer-like, so the language enumerates them in ascending
    order: the object is the list of its entries in that order. *)
Definition UserAnswers : Type := list (Z * Z).

(** [answers[k]], [None] for [undefined]. *)
Fixpoint get (answers : UserAnswers) (k : Z) : option Z :=
  match answers with
  | [] => None
  | (k', v) :: rest => if k' =? k then Some v else get rest k
  end.

(** [{ ...answers, [k]: v }] *)
Fixpoint set (answers : UserAnswers) (k v : Z) : UserAnswers :=
  match answers with
  | [] => [(k, v)]
  | (k', v') :: rest =>
      if k <? k' then (k, v) :: (k', v') :: rest
      else if k =? k' then (k, v) :: rest
      else (k', v') :: set rest k v
  end.

(** [const next = { ...answers }; delete next[k]] *)
Definition delete (answers : UserAnswers) (k : Z) : UserAnswers :=
  filter (fun entry => negb (fst entry =? k)) answers.

(** [Object.keys(answers)], as numbers. *)
Definition keys (answers : UserAnswers) : list Z := map fst answers.

(** A [Set<number>], as the list of its elements in insertion order. *)
Definition has (set : list Z) (k : Z) : bool := existsb (Z.eqb k) set.

Definition add (set : list Z) (k : Z) : list Z :=
  if has set k then set else set ++ [k].

Definition remove (set : list Z) (k : Z) : list Z :=
  filter (fun x => negb (x =? k)) set.

(** services/geminiService.ts, [generateQuizQuestions]: the parsed records
    get the identifiers 1, 2, ... in order ([{ ...q, id: index + 1 }]); the
    records from position [index] on. *)
Fixpoint withIds (index : Z) (rawData : list Question) : list Question :=
  match rawData with
  | [] => []
  | q :: rest =>
      mkQuestion (index + 1) (text q) (options q) (correctIndex q)
        (explanation q) (chapterReference q)
      :: withIds (index + 1) rest
  end.

(** The questions that [generateQuizQuestions] returns for the parsed
    response [rawData]. *)
Definition generateQuizQuestions (rawData : list Question) : list Question :=
  withIds 0 rawData.

End Quiz.

(** ** Timer *)

Module Timer.

(** [n.toString()] for an integer. *)
Definition toString (n : Z) : string := NilZero.string_of_int (Z.to_int n).

(** [s.padStart(targetLength, c)] for a one-character pad string. *)
Definition padStart (targetLength : nat) (c : Ascii.ascii) (s : string)
  : string :=
  String.append
    (string_of_list_ascii (repeat c (targetLength - String.length s))) s.

Definition formatTime (totalSeconds : Z) : string :=
  let minutes := totalSeconds / 60 in
  let seconds := Z.rem totalSeconds 60 in
  String.append (padStart 2 "0" (toString minutes))
    (String.append ":" (padStart 2 "0" (toString seconds))).

Definition isLowTime (secondsLeft : Z) : bool := secondsLeft <? 300.

(** What the effect does for the [secondsLeft] of a render: it calls
    [onTimeUp], or it starts an interval whose callback takes one second
    off. *)
Inductive Effect : Type :=
| CallOnTimeUp
| Interval.

Definition effect (secondsLeft : Z) : Effect :=
  if secondsLeft <=? 0 then CallOnTimeUp else Interval.

End Timer.

(** ** QuizRunner *)

Module QuizRunner.

(** When a call of [onComplete] happens: in the handler itself, or in a
    [setTimeout] callback after that many milliseconds. *)
Inductive When : Type :=
| Directly
| After (ms : Z).

(** A call of [onComplete(answers, timeTaken, bookmarks)]. *)
Record Completion : Type := mkCompletion {
  when : When;
  reportedAnswers : Quiz.UserAnswers;
  reportedTime : Z;
  reportedBookmarks : list Z
}.

Record State : Type := mkState {
  currentQuestionIndex : Z;
  answers : Quiz.UserAnswers;
  bookmarks : list Z;
  secondsLeft : Z;
  isSubmitting : bool;
  showQuitConfirm : bool;
  showUnansweredConfirm : bool;
  (** the calls of [onComplete] made or scheduled so far, newest first *)
  completions : list Completion
}.

Definition setCurrentQuestionIndex (v : Z) (s : State) : State :=
  mkState v (answers s) (bookmarks s) (secondsLeft s) (isSubmitting s)
    (showQuitConfirm s) (showUnansweredConfirm s) (completions s).
Definition setAnswers (v : Quiz.UserAnswers) (s : State) : State :=
  mkState (currentQuestionIndex s) v (bookmarks s) (secondsLeft s)
    (isSubmitting s) (showQuitConfirm s) (showUnansweredConfirm s)
    (completions s).
Definition setBookmarks (v : list Z) (s : State) : State :=
  mkState (currentQuestionIndex s) (answers s) v (secondsLeft s)
    (isSubmitting s) (showQuitConfirm s) (showUnansweredConfirm s)
    (completions s).
Definition setSecondsLeft (v : Z) (s : State) : State :=
  mkState (currentQuestionIndex s) (answers s) (bookmarks s) v
    (isSubmitting s) (showQuitConfirm s) (showUnansweredConfirm s)
    (completions s).
Definition setIsSubmitting (v : bool) (s : State) : State :=
  mkState (currentQuestionIndex s) (answers s) (bookmarks s) (secondsLeft s)
    v (showQuitConfirm s) (showUnansweredConfirm s) (completions s).
Definition setShowQuitConfirm (v : bool) (s : State) : State :=
  mkState (currentQuestionIndex s) (answers s) (bookmarks s) (secondsLeft s)
    (isSubmitting s) v (showUnansweredConfirm s) (completions s).
Definition setShowUnansweredConfirm (v : bool) (s : State) : State :=
  mkState (currentQuestionIndex s) (answers s) (bookmarks s) (secondsLeft s)
    (isSubmitting s) (showQuitConfirm s) v (completions s).
Definition onComplete (c : Completion) (s : State) : State :=
  mkState (currentQuestionIndex s) (answers s) (bookmarks s) (secondsLeft s)
    (isSubmitting s) (showQuitConfirm s) (showUnansweredConfirm s)
    (c :: completions s).

(** The state of the first render. *)
Definition initialState : State :=
  mkState 0 [] [] MAX_TIME_SECONDS false false false [].

Section Props.

Variable questions : list Quiz.Question.
Variable mode : QuizMode.

Definition currentQuestion (s : State) : option Quiz.Question :=
  array_get questions (currentQuestionIndex s).

Definition isExamMode : bool :=
  match mode with TIMED | UNTIMED => true | _ => false end.

Definition isPracticeOrStreak : bool :=
  match mode with PRACTICE | STREAK => true | _ => false end.

Definition isAnswered (s : State) : bool :=
  match Quiz.get (answers s) (currentQuestionIndex s) with
  | Some _ => true
  | None => false
  end.

Definition answeredCount (s : State) : Z := len (Quiz.keys (answers s)).

(** [None] where reading [correctIndex] of an undefined current question
    throws. *)
Definition handleOptionSelect (optionIndex : Z) (s : State) : option State :=
  if isSubmitting s then Some s
  else if isPracticeOrStreak && isAnswered s then Some s
  else
    let s1 :=
      setAnswers (Quiz.set (answers s) (currentQuestionIndex s) optionIndex) s in
    match mode with
    | STREAK =>
        match currentQuestion s with
        | None => None
        | Some q =>
            let isCorrect := optionIndex =? Quiz.correctIndex q in
            if negb isCorrect
            then Some (onComplete
                         (mkCompletion (After 1500)
                            (Quiz.set (answers s) (currentQuestionIndex s)
                               optionIndex)
                            0 (bookmarks s))
                         (setIsSubmitting true s1))
            else Some s1
        end
    | _ => Some s1
    end.

Definition toggleBookmark (s : State) : State :=
  setBookmarks
    (if Quiz.has (bookmarks s) (currentQuestionIndex s)
     then Quiz.remove (bookmarks s) (currentQuestionIndex s)
     else (bookmarks s) ++ [currentQuestionIndex s])
    s.

Definition handleSubmit (s : State) : State :=
  let timeTaken :=
    match mode with
    | TIMED => MAX_TIME_SECONDS - secondsLeft s
    | _ => 0
    end in
  onComplete (mkCompletion (After 800) (answers s) timeTaken (bookmarks s))
    (setIsSubmitting true (setShowUnansweredConfirm false s)).

Definition handleNext (s : State) : State :=
  if isSubmitting s then s
  else if currentQuestionIndex s <? len questions - 1
  then setCurrentQuestionIndex (currentQuestionIndex s + 1) s
  else match mode with
       | PRACTICE | STREAK => handleSubmit s
       | _ => s
       end.

Definition handleSkip (s : State) : State :=
  if isSubmitting s then s
  else
    let s1 := setAnswers (Quiz.delete (answers s) (currentQuestionIndex s)) s in
    let s2 :=
      if negb (Quiz.has (bookmarks s) (currentQuestionIndex s))
      then setBookmarks (Quiz.add (bookmarks s) (currentQuestionIndex s)) s1
      else s1 in
    if currentQuestionIndex s <? len questions - 1
    then setCurrentQuestionIndex (currentQuestionIndex s + 1) s2
    else s2.

Definition handlePrev (s : State) : State :=
  if isSubmitting s then s
  else if currentQuestionIndex s >? 0
  then setCurrentQuestionIndex (currentQuestionIndex s - 1) s
  else s.

Definition handleFinishClick (s : State) : State :=
  if isExamMode && (answeredCount s <? len questions)
  then setShowUnansweredConfirm true s
  else handleSubmit s.

Definition handleTimeUp (s : State) : State :=
  match mode with
  | TIMED =>
      onComplete
        (mkCompletion Directly (answers s) MAX_TIME_SECONDS (bookmarks s)) s
  | _ => s
  end.

(** One run of the effect of the timer, which is rendered in timed mode
    only: the call of [onTimeUp], or one firing of the interval. *)
Definition timer (s : State) : State :=
  match mode with
  | TIMED =>
      match Timer.effect (secondsLeft s) with
      | Timer.CallOnTimeUp => handleTimeUp s
      | Timer.Interval => setSecondsLeft (secondsLeft s - 1) s
      end
  | _ => s
  end.

(** What can happen to the component. *)
Inductive Action : Type :=
| SelectOption (optionIndex : Z)
| ToggleBookmark
| Next
| Skip
| Prev
| FinishClick
| SubmitAnyway
| Review
| OpenQuit
| CancelQuit
| TimerRuns.

(** The handler of an action, whether or not its control is on screen. *)
Definition handle (a : Action) (s : State) : option State :=
  match a with
  | SelectOption optionIndex => handleOptionSelect optionIndex s
  | ToggleBookmark => Some (toggleBookmark s)
  | Next => Some (handleNext s)
  | Skip => Some (handleSkip s)
  | Prev => Some (handlePrev s)
  | FinishClick => Some (handleFinishClick s)
  | SubmitAnyway => Some (handleSubmit s)
  | Review => Some (setShowUnansweredConfirm false s)
  | OpenQuit => Some (setShowQuitConfirm true s)
  | CancelQuit => Some (setShowQuitConfirm false s)
  | TimerRuns => Some (timer s)
  end.

(** The parent stops rendering the component when [onComplete] is called:
    a direct call ends it. *)
Definition mounted (s : State) : bool :=
  forallb (fun c => match when c with Directly => false | After _ => true end)
    (completions s).

(** Whether the control of an action is rendered and not disabled (the
    [disabled] attributes and the conditions of the render). *)
Definition enabled (a : Action) (s : State) : bool :=
  match a with
  | SelectOption optionIndex =>
      match currentQuestion s with
      | Some q =>
          (0 <=? optionIndex) && (optionIndex <? len (Quiz.options q))
          && negb (isSubmitting s || (isPracticeOrStreak && isAnswered s))
      | None => false
      end
  | ToggleBookmark => true
  | Next =>
      (currentQuestionIndex s <? len questions - 1)
      && negb (isSubmitting s || (isPracticeOrStreak && negb (isAnswered s)))
  | Skip =>
      isExamMode && (currentQuestionIndex s <? len questions - 1)
      && negb (isSubmitting s)
  | Prev =>
      negb isPracticeOrStreak
      && negb ((currentQuestionIndex s =? 0) || isSubmitting s)
  | FinishClick =>
      (isExamMode && negb (isSubmitting s))
      || (negb (currentQuestionIndex s <? len questions - 1)
          && negb (isSubmitting s || (isPracticeOrStreak && negb (isAnswered s))))
  | SubmitAnyway => showUnansweredConfirm s
  | Review => showUnansweredConfirm s
  | OpenQuit => true
  | CancelQuit => showQuitConfirm s
  | TimerRuns => match mode with TIMED => true | _ => false end
  end.

(** A sequence of actions by their handlers alone. *)
Fixpoint run (actions : list Action) (s : State) : option State :=
  match actions with
  | [] => Some s
  | a :: rest =>
      if mounted s
      then match handle a s with
           | Some s' => run rest s'
           | None => None
           end
      else None
  end.

(** A sequence of actions that the user interface allows. *)
Fixpoint allowed (actions : list Action) (s : State) : bool :=
  match actions with
  | [] => true
  | a :: rest =>
      mounted s && enabled a s
      && match handle a s with
         | Some s' => allowed rest s'
         | None => false
         end
  end.

End Props.

End QuizRunner.

(** ** ResultsView *)

Module ResultsView.

Record Tally : Type := mkTally {
  correctCount : Z;
  incorrectQuestions : list Quiz.Question;
  skippedQuestions : list Quiz.Question
}.

Inductive Tab : Type := incorrect | skipped | bookmarked | all.

Section Props.

Variable questions : list Quiz.Question.
Variable userAnswers : Quiz.UserAnswers.
Variable mode : QuizMode.
Variable bookmarks : list Z.

Definition questionsAnsweredCount : Z := len (Quiz.keys userAnswers).

(** [questions.slice(0, questionsAnsweredCount)] in streak mode; the count
    is a length, hence not negative. *)
Definition effectiveQuestions : list Quiz.Question :=
  match mode with
  | STREAK => firstn (Z.to_nat questionsAnsweredCount) questions
  | _ => questions
  end.

(** The body of the [forEach] callback. *)
Definition classify (t : Tally) (q : Quiz.Question) : Tally :=
  let ans := Quiz.get userAnswers (Quiz.id q - 1) in
  match ans with
  | Some a =>
      if a =? Quiz.correctIndex q
      then mkTally (correctCount t + 1) (incorrectQuestions t)
             (skippedQuestions t)
      else mkTally (correctCount t) (incorrectQuestions t ++ [q])
             (skippedQuestions t)
  | None =>
      mkTally (correctCount t) (incorrectQuestions t)
        (skippedQuestions t ++ [q])
  end.

Definition tally : Tally :=
  fold_left classify effectiveQuestions (mkTally 0 [] []).

Definition hasPassed : bool :=
  match mode with
  | STREAK => correctCount tally >? 10
  | _ => correctCount tally >=? PASS_MARK_COUNT
  end.

(** The tab after the mount effect. *)
Definition initialTab : Tab :=
  if len (incorrectQuestions tally) =? 0
  then if len (skippedQuestions tally) >? 0 then skipped
       else if len bookmarks >? 0 then bookmarked
       else all
  else incorrect.

(** [a.filter((_, index) => bookmarks.includes(index))], from position
    [index]. *)
Fixpoint filterBookmarked (index : Z) (a : list Quiz.Question)
  : list Quiz.Question :=
  match a with
  | [] => []
  | q :: rest =>
      if Quiz.has bookmarks index
      then q :: filterBookmarked (index + 1) rest
      else filterBookmarked (index + 1) rest
  end.

Definition displayedQuestions (activeTab : Tab) : list Quiz.Question :=
  match activeTab with
  | incorrect => incorrectQuestions tally
  | skipped => skippedQuestions tally
  | bookmarked => filterBookmarked 0 effectiveQuestions
  | all => effectiveQuestions
  end.

End Props.

End ResultsView.

(** ** What the quiz runner keeps *)

(** The number of runs of the timer among the actions. *)
Fixpoint timerRuns (actions : list QuizRunner.Action) : Z :=
  match actions with
  | [] => 0
  | QuizRunner.TimerRuns :: rest => 1 + timerRuns rest
  | _ :: rest => timerRuns rest
  end.

(** The keys of the answers ascend strictly and are positions of
    questions. *)
Definition answersInRange (questions : list Quiz.Question)
  (answers : Quiz.UserAnswers) : Prop :=
  StronglySorted Z.lt (Quiz.keys answers)
  /\ Forall (fun k => 0 <= k < len questions) (Quiz.keys answers).

(** The cursor is a position of a question, the answers and the bookmarks
    are for positions of questions, no bookmark is held twice, and the time
    left is between nothing and the whole time. *)
Definition quizInvariant (questions : list Quiz.Question)
  (s : QuizRunner.State) : Prop :=
  0 <= QuizRunner.currentQuestionIndex s < len questions
  /\ answersInRange questions (QuizRunner.answers s)
  /\ NoDup (QuizRunner.bookmarks s)
  /\ Forall (fun k => 0 <= k < len questions) (QuizRunner.bookmarks s)
  /\ 0 <= QuizRunner.secondsLeft s <= MAX_TIME_SECONDS.

(** Every completion reports the answers that the state holds, and once a
    completion is pending the quiz is submitting or ended by the timer. *)
Definition reportsAnswers (s : QuizRunner.State) : Prop :=
  Forall (fun c => QuizRunner.reportedAnswers c = QuizRunner.answers s)
    (QuizRunner.completions s)
  /\ (QuizRunner.completions s <> [] ->
      QuizRunner.isSubmitting s = true \/ QuizRunner.mounted s = false).

(** What a streak keeps: answers are at the cursor or before it; every
    answer before the cursor is the correct option of its question; and an
    answer at the cursor that is not the correct option means that the
    runner is submitting. *)
Definition streakInvariant (questions : list Quiz.Question)
  (s : QuizRunner.State) : Prop :=
  let i := QuizRunner.currentQuestionIndex s in
  (forall k v, Quiz.get (QuizRunner.answers s) k = Some v -> 0 <= k <= i)
  /\ (forall k, 0 <= k < i ->
                exists q, array_get questions k = Some q
                          /\ Quiz.get (QuizRunner.answers s) k
                             = Some (Quiz.correctIndex q))
  /\ (QuizRunner.isSubmitting s = false ->
      forall v q, Quiz.get (QuizRunner.answers s) i = Some v ->
                  array_get questions i = Some q ->
                  v = Quiz.correctIndex q).

(** The decimal digit [d], as a character. *)
Definition digit (d : Z) : ascii := ascii_of_nat (48 + Z.to_nat d).

(** ** Sample inputs *)

(** Three parsed records of the service, with identifiers of their own. *)
Definition sampleRawData : list Quiz.Question :=
  [ Quiz.mkQuestion 0 "Who is the head of state?"%string
      [ "The Prime Minister"%string; "The monarch"%string;
        "The Speaker"%string; "The Lord Chancellor"%string ]
      1 "The monarch is head of state."%string "The UK Government"%string;
    Quiz.mkQuestion 0 "How many nations form the UK?"%string
      [ "One"%string; "Two"%string; "Three"%string; "Four"%string ]
      3 "England, Scotland, Wales and Northern Ireland."%string
      "The Values and Principles of the UK"%string;
    Quiz.mkQuestion 7 "Which flower is the emblem of England?"%string
      [ "The rose"%string; "The thistle"%string;
        "The daffodil"%string; "The shamrock"%string ]
      0 "The rose is the national flower."%string
      "A Modern, Thriving Society"%string ].

Definition sampleQuestions : list Quiz.Question :=
  Quiz.generateQuizQuestions sampleRawData.

(** The seed deck at time 0 with a topic typed into the modal, and two
    records of the content provider. *)
Definition sampleDeck : State :=
  setTopicInput "The Tudors"%string (mount (constClock 0) initialState).

Definition sampleCardData : list CardData :=
  [ mkCardData "Henry VIII" "King from 1509 to 1547" "The Tudors";
    mkCardData "Elizabeth I" "Queen from 1558 to 1603" "The Tudors" ]%string.

(** The identifiers "a", "b", ... drawn in order. *)
Definition sampleRand (k : nat) : string :=
  String (ascii_of_nat (97 + k)) EmptyString.

(** ** Further parts of the flash card manager *)

(** The number of days printed on the Good button of the review view
    (lines 183-188), computed by the render from the card on screen. *)
Definition goodButtonDays (currentCard : FlashCard) : Z :=
  let nextBox := Z.min (box currentCard + 1) (len intervals) in
  let days := or_else (array_get intervals (nextBox - 1)) 1 in
  days.

(** The clock of every outcome among the actions reads [now] or later when
    the scheduler's branch reads it. *)
Definition outcomesFrom (now : Z) (actions : list Action) : Prop :=
  Forall (fun a => match a with
                   | Outcome clk _ => now <= clk 1%nat
                   | _ => True
                   end) actions.

(** The cursor is inside the queue whenever the queue holds a card. *)
Definition cursorInQueue (s : State) : Prop :=
  reviewQueue s = [] \/ (currentCardIndex s < List.length (reviewQueue s))%nat.

(** The storage holds the deck: nothing was ever written and the deck is
    empty, or the collection written last is the deck. *)
Definition storageInSync (s : State) : Prop :=
  (cards s = [] /\ stored s = []) \/ localStorage_getItem s = Some (cards s).

(** While a session is under way every card of the deck that is due at [now]
    still has its identifier ahead in the queue; once it is over no card of
    the deck is due at [now]. *)
Definition dueAhead (now : Z) (s : State) : Prop :=
  forall c, In c (cards s) -> nextReview c <= now ->
            isReviewing s = true
            /\ In (id c) (map id (skipn (currentCardIndex s) (reviewQueue s))).

(** * The scheduler *)

Section Scheduler.

Variable clk : Clock.

(** The reading of the clock that the result is computed from: the second
    call of [Date.now()], made by the branch taken. *)
Let now : Z := clk 1%nat.

Example success_chain_from_new :
  map fst (success_chain (repeat (constClock 0) 7) 0) = [1; 2; 3; 4; 5; 6; 6].
Proof. vm_compute. reflexivity. Qed.

Example daysToAdd_outside_table : daysToAdd 0 = 1 /\ daysToAdd 7 = 1.
Proof. split; vm_compute; reflexivity. Qed.

Lemma scheduler_failure_eq (currentBox : Z) :
  scheduler clk currentBox false = (0, now + 86400000).
Proof. reflexivity. Qed.

Lemma scheduler_success_eq (currentBox : Z) :
  scheduler clk currentBox true =
  (Z.min (currentBox + 1) 6,
   now + daysToAdd (Z.min (currentBox + 1) 6) * 86400000).
Proof.
  unfold scheduler, len, now.
  change (Z.of_nat (List.length intervals)) with 6.
  cbv zeta. f_equal. lia.
Qed.

(** Inside the table the lookup is defined and the fallback is not taken. *)
Lemma daysToAdd_in_table (newBox : Z) :
  1 <= newBox <= 6 ->
  exists d, nth_error intervals (Z.to_nat (newBox - 1)) = Some d
            /\ array_get intervals (newBox - 1) = Some d
            /\ daysToAdd newBox = d /\ 1 <= d <= 90.
Proof.
  intros H.
  assert (E : newBox = 1 \/ newBox = 2 \/ newBox = 3 \/ newBox = 4
              \/ newBox = 5 \/ newBox = 6) by lia.
  destruct E as [E | [E | [E | [E | [E | E]]]]]; subst newBox;
    eexists; (repeat split); try reflexivity; lia.
Qed.

(** Whatever the index, the number of days is positive. *)
Lemma daysToAdd_positive (newBox : Z) : 1 <= daysToAdd newBox.
Proof.
  unfold daysToAdd, array_get.
  destruct (newBox - 1 <? 0) eqn:Hneg; simpl; [lia |].
  apply Z.ltb_ge in Hneg.
  destruct (Z.to_nat (newBox - 1)) as [| [| [| [| [| [| n]]]]]]; simpl; try lia.
  destruct n; simpl; lia.
Qed.

Lemma scheduler_box_in_range (currentBox : Z) (success : bool) :
  0 <= currentBox <= 6 ->
  0 <= fst (scheduler clk currentBox success) <= 6.
Proof.
  intros H. destruct success.
  - rewrite scheduler_success_eq. simpl. lia.
  - rewrite scheduler_failure_eq. simpl. lia.
Qed.

Lemma scheduler_next_day (currentBox : Z) (success : bool) :
  now + 86400000 <= snd (scheduler clk currentBox success).
Proof.
  destruct success.
  - rewrite scheduler_success_eq. simpl.
    pose proof (daysToAdd_positive (Z.min (currentBox + 1) 6)). lia.
  - rewrite scheduler_failure_eq. simpl. lia.
Qed.

(** C1. A failed review sends the card to box 0 and schedules it exactly one
    day (86,400,000 ms) after the clock reading [now] of the branch, whatever
    box the card was in; in particular for every box of 0 .. 6. *)
Theorem scheduler_failure (currentBox : Z) :
  scheduler clk currentBox false = (0, now + 86400000).
Proof. apply scheduler_failure_eq. Qed.

(** C2. For a box in 0 .. 6 a successful review gives the box
    [min (currentBox + 1) 6] and schedules the card [table[newBox - 1]] days
    after the clock reading [now], the table being 1, 3, 7, 14, 30, 90 with
    box 1 at position 0 and box 6 at position 5; from box 0 the card is due
    one day later. *)
Theorem scheduler_success (currentBox : Z) :
  0 <= currentBox <= 6 ->
  let table := [1; 3; 7; 14; 30; 90] in
  let newBox := Z.min (currentBox + 1) 6 in
  (exists intervalDays,
      nth_error table (Z.to_nat (newBox - 1)) = Some intervalDays
      /\ scheduler clk currentBox true
         = (newBox, now + intervalDays * 86400000))
  /\ nth_error table 0 = Some 1
  /\ nth_error table 5 = Some 90
  /\ scheduler clk 0 true = (1, now + 86400000)
  /\ scheduler clk 5 true = (6, now + 90 * 86400000).
Proof.
  intros H table newBox. split; [| repeat split].
  destruct (daysToAdd_in_table newBox) as (d & Hn & _ & Hd & _);
    [subst newBox; lia |].
  exists d. split; [exact Hn |].
  rewrite scheduler_success_eq. fold newBox. now rewrite Hd.
Qed.

(** C3. Box 6 is the top: a success at box 6 stays at box 6 and schedules the
    card 90 days after the clock reading of that review; this holds for each
    review of any run of successes from box 6, and a second success does not
    change the box reached by the first. *)
Theorem scheduler_saturates (clks : list Clock) :
  scheduler clk 6 true = (6, now + 90 * 86400000)
  /\ Forall2 (fun (c : Clock) r => r = (6, c 1%nat + 90 * 86400000))
       clks (success_chain clks 6)
  /\ (forall clk', fst (scheduler clk' (fst (scheduler clk 6 true)) true)
                   = fst (scheduler clk 6 true)).
Proof.
  split; [reflexivity | split].
  - induction clks as [| c rest IH]; simpl; constructor.
    + reflexivity.
    + exact IH.
  - intros clk'. reflexivity.
Qed.

(** C10. For a box in 0 .. 6 and either outcome the number of days comes
    from the table (the fallback is not needed) and is at least 1, so the new
    review time is at least one day after the clock reading [now] and the
    card is not due at that reading. *)
Theorem scheduler_at_least_one_day (currentBox : Z) (success : bool) :
  0 <= currentBox <= 6 ->
  let newBox := fst (scheduler clk currentBox true) in
  let nextReview := snd (scheduler clk currentBox success) in
  (exists d, array_get intervals (newBox - 1) = Some d
             /\ daysToAdd newBox = d /\ 1 <= d)
  /\ now + 86400000 <= nextReview
  /\ (nextReview <=? now) = false.
Proof.
  intros H newBox nextReview.
  assert (Hn : now + 86400000 <= nextReview)
    by (subst nextReview; apply scheduler_next_day).
  split; [| split; [exact Hn | apply Z.leb_gt; lia]].
  destruct (daysToAdd_in_table newBox) as (d & _ & Ha & Hd & Hr).
  - subst newBox. rewrite scheduler_success_eq. simpl. lia.
  - exists d. repeat split; [exact Ha | exact Hd | lia].
Qed.

End Scheduler.

Lemma scheduler_success_witness :
  0 <= 3 <= 6
  /\ scheduler (constClock 1000) 3 true = (4, 1000 + 14 * 86400000).
Proof.
  split; [lia |].
  destruct (scheduler_success (constClock 1000) 3) as [[d [Hd Hs]] _]; [lia |].
  simpl in Hd. injection Hd as <-. exact Hs.
Defined.

Lemma scheduler_at_least_one_day_witness :
  0 <= 6 <= 6
  /\ 1000 + 86400000 <= snd (scheduler (constClock 1000) 6 false).
Proof.
  split; [lia |].
  apply (scheduler_at_least_one_day (constClock 1000) 6 false). lia.
Defined.

(** * Arrays: filtering and sorting *)

Lemma filter_from_filter {A : Type} (p : nat -> A -> bool) (q : A -> bool)
  (l : list A) :
  (forall k x, p k x = q x) -> forall k, filter_from p k l = filter q l.
Proof.
  intros Hpq. induction l as [| x rest IH]; intros k; simpl.
  - reflexivity.
  - now rewrite Hpq, IH.
Qed.

Lemma len_filter_number_of {A : Type} (p : A -> bool) (l : list A) :
  len (filter p l) = number_of p l.
Proof.
  unfold len. induction l as [| x rest IH]; simpl.
  - reflexivity.
  - destruct (p x); simpl List.length; lia.
Qed.

Section SortByKey.

Context {A : Type}.
Variable key : A -> Z.

Let cmp (a b : A) : Z := key a - key b.
Let ascending (a b : A) : Prop := key a <= key b.

Lemma sort_insert_permutation (x : A) (l : list A) :
  Permutation (sort_insert cmp x l) (x :: l).
Proof.
  induction l as [| y rest IH]; simpl.
  - apply Permutation_refl.
  - destruct (cmp x y <? 0).
    + apply Permutation_refl.
    + eapply perm_trans; [apply perm_skip, IH | apply perm_swap].
Qed.

Lemma sort_insert_sorted (x : A) (l : list A) :
  StronglySorted ascending l -> StronglySorted ascending (sort_insert cmp x l).
Proof.
  induction l as [| y rest IH]; intros Hs; simpl.
  - constructor; constructor.
  - inversion Hs as [| ? ? Hrest Hall]; subst.
    destruct (cmp x y <? 0) eqn:Hc.
    + apply Z.ltb_lt in Hc. unfold cmp in Hc.
      constructor; [exact Hs |].
      constructor; [unfold ascending; lia |].
      eapply Forall_impl; [| exact Hall].
      unfold ascending; intros z Hz; lia.
    + apply Z.ltb_ge in Hc. unfold cmp in Hc.
      constructor; [apply IH, Hrest |].
      eapply Permutation_Forall;
        [apply Permutation_sym, sort_insert_permutation |].
      constructor; [unfold ascending; lia | exact Hall].
Qed.

Lemma fold_insert_permutation (l acc : list A) :
  Permutation (fold_left (fun acc x => sort_insert cmp x acc) l acc) (acc ++ l).
Proof.
  revert acc. induction l as [| x rest IH]; intros acc; simpl.
  - rewrite app_nil_r. apply Permutation_refl.
  - eapply perm_trans; [apply IH |].
    eapply perm_trans;
      [apply Permutation_app_tail, sort_insert_permutation |].
    simpl. apply Permutation_cons_app. apply Permutation_refl.
Qed.

Lemma fold_insert_sorted (l acc : list A) :
  StronglySorted ascending acc ->
  StronglySorted ascending (fold_left (fun acc x => sort_insert cmp x acc) l acc).
Proof.
  revert acc. induction l as [| x rest IH]; intros acc Hs; simpl.
  - exact Hs.
  - apply IH, sort_insert_sorted, Hs.
Qed.

Lemma array_sort_permutation (l : list A) :
  Permutation (array_sort (fun a b => key a - key b) l) l.
Proof. apply (fold_insert_permutation l []). Qed.

Lemma array_sort_sorted (l : list A) :
  StronglySorted (fun a b => key a <= key b)
    (array_sort (fun a b => key a - key b) l).
Proof. apply (fold_insert_sorted l []). constructor. Qed.

End SortByKey.

(** * The due queue *)

Lemma due_constClock (now : Z) (cs : list FlashCard) :
  filter_from (isDue (constClock now)) 0 cs
  = filter (fun c => nextReview c <=? now) cs.
Proof. apply filter_from_filter. reflexivity. Qed.

Lemma startReview_queue (clk : Clock) (s : State) :
  reviewQueue (startReview clk s)
  = array_sort (fun a b => nextReview a - nextReview b)
      (filter_from (isDue clk) 0 (cards s)).
Proof. reflexivity. Qed.

Lemma startReview_queue_permutation (now : Z) (s : State) :
  Permutation (reviewQueue (startReview (constClock now) s))
    (filter (fun c => nextReview c <=? now) (cards s)).
Proof.
  rewrite startReview_queue, due_constClock.
  apply (array_sort_permutation nextReview).
Qed.

Lemma handleReviewResult_queue (clk : Clock) (success : bool) (s s' : State) :
  handleReviewResult clk success s = Some s' ->
  reviewQueue s' = reviewQueue s.
Proof.
  unfold handleReviewResult.
  destruct (nth_error (reviewQueue s) (currentCardIndex s)) as [cur |];
    [| discriminate].
  destruct (scheduler clk (box cur) success) as [newBox next].
  destruct (_ <? _); intros [= <-]; reflexivity.
Qed.

Lemma act_queue (a : Action) (s s' : State) :
  act a s = Some s' -> reviewQueue s' = reviewQueue s.
Proof.
  unfold act. destruct (view s); try discriminate.
  destruct a as [| clk success |].
  - intros [= <-]; reflexivity.
  - apply handleReviewResult_queue.
  - intros [= <-]; reflexivity.
Qed.

Lemma run_queue (actions : list Action) :
  forall s s', run actions s = Some s' -> reviewQueue s' = reviewQueue s.
Proof.
  induction actions as [| a rest IH]; simpl; intros s s' H.
  - now injection H as <-.
  - destruct (act a s) as [s1 |] eqn:Ha; [| discriminate].
    rewrite (IH _ _ H). eapply act_queue, Ha.
Qed.

(** When the clock advances while the filter runs, between a first reading
    [lo] and a last reading [hi]: the queue holds every card due at [lo] and
    only cards due at [hi]. *)
Lemma filter_from_advancing (clk : Clock) (lo hi : Z) (cs : list FlashCard) :
  (forall k, lo <= clk k <= hi) ->
  forall k c,
    (In c (filter_from (isDue clk) k cs) -> In c cs /\ nextReview c <= hi)
    /\ (In c cs -> nextReview c <= lo -> In c (filter_from (isDue clk) k cs)).
Proof.
  intros Hclk. induction cs as [| x rest IH]; intros k c; simpl.
  - split; [contradiction | intros H _; exact H].
  - destruct (IH (S k) c) as [IH1 IH2].
    change (isDue clk k x) with (nextReview x <=? clk k).
    specialize (Hclk k).
    destruct (nextReview x <=? clk k) eqn:Hx;
      [apply Z.leb_le in Hx | apply Z.leb_gt in Hx]; simpl; split.
    + intros [E | Hin].
      * subst c. split; [now left | lia].
      * destruct (IH1 Hin). split; [now right | assumption].
    + intros [E | Hin] Hlo; [now left | right; now apply IH2].
    + intros Hin. destruct (IH1 Hin). split; [now right | assumption].
    + intros [E | Hin] Hlo; [subst c; lia | now apply IH2].
Qed.

Lemma startReview_advancing_clock (clk : Clock) (lo hi : Z) (s : State) :
  (forall k, lo <= clk k <= hi) ->
  forall c,
    (In c (reviewQueue (startReview clk s)) ->
     In c (cards s) /\ nextReview c <= hi)
    /\ (In c (cards s) -> nextReview c <= lo ->
        In c (reviewQueue (startReview clk s))).
Proof.
  intros Hclk c. rewrite startReview_queue.
  pose proof (array_sort_permutation nextReview
                (filter_from (isDue clk) 0 (cards s))) as Hperm.
  destruct (filter_from_advancing clk lo hi (cards s) Hclk 0%nat c) as [H1 H2].
  split.
  - intros Hin. apply H1. eapply Permutation_in; [exact Hperm | exact Hin].
  - intros Hin Hlo.
    eapply Permutation_in; [apply Permutation_sym, Hperm | now apply H2].
Qed.

(** C4. At a clock reading [now] the queue of a started session holds exactly
    the cards of the deck with [nextReview <= now], each as often as the deck
    does, in ascending order of [nextReview]; no outcome (nor any reveal or
    quit) of the session changes the queue.  With review times [now - 1000],
    [now + 1000], [now - 5000] the queue is the third card, then the first. *)
Theorem due_queue (now : Z) (s : State) :
  let queue := reviewQueue (startReview (constClock now) s) in
  Permutation queue (filter (fun c => nextReview c <=? now) (cards s))
  /\ (forall c, In c queue <-> In c (cards s) /\ nextReview c <= now)
  /\ StronglySorted (fun a b => nextReview a <= nextReview b) queue
  /\ (forall clk success s1 s2,
         handleReviewResult clk success s1 = Some s2 ->
         reviewQueue s2 = reviewQueue s1)
  /\ (forall actions s2,
         run actions (startReview (constClock now) s) = Some s2 ->
         reviewQueue s2 = queue)
  /\ (forall a b c,
         reviewQueue
           (startReview (constClock now)
              (setCards [withReview a (box a) (now - 1000);
                         withReview b (box b) (now + 1000);
                         withReview c (box c) (now - 5000)] s))
         = [withReview c (box c) (now - 5000);
            withReview a (box a) (now - 1000)]).
Proof.
  intros queue.
  pose proof (startReview_queue_permutation now s) as Hperm. fold queue in Hperm.
  split; [exact Hperm | split; [| split; [| split; [| split]]]].
  - intros c. split.
    + intros Hin. apply (Permutation_in _ Hperm) in Hin.
      apply filter_In in Hin. destruct Hin as [Hin Hle].
      split; [exact Hin | now apply Z.leb_le].
    + intros [Hin Hle]. apply (Permutation_in _ (Permutation_sym Hperm)).
      apply filter_In. split; [exact Hin | now apply Z.leb_le].
  - subst queue. rewrite startReview_queue.
    apply (array_sort_sorted nextReview).
  - apply handleReviewResult_queue.
  - intros actions s2 H. apply run_queue in H. exact H.
  - intros a b c. rewrite startReview_queue, due_constClock. simpl.
    assert (E1 : (now - 1000 <=? now) = true) by (apply Z.leb_le; lia).
    assert (E2 : (now + 1000 <=? now) = false) by (apply Z.leb_gt; lia).
    assert (E3 : (now - 5000 <=? now) = true) by (apply Z.leb_le; lia).
    rewrite E1, E2, E3. unfold array_sort. simpl.
    assert (E4 : (now - 5000 - (now - 1000) <? 0) = true)
      by (apply Z.ltb_lt; lia).
    now rewrite E4.
Qed.

(** * Deck statistics *)

(** C5. At a clock reading [now] the statistics are the number of cards of
    the deck, the number of its cards with [nextReview <= now] and the number
    of its cards with [box >= 4]; a deck with boxes 0, 2, 4, 5 has two
    mastered cards. *)
Theorem stats_counts (now : Z) (s : State) :
  totalCards (stats (constClock now) s) = Z.of_nat (List.length (cards s))
  /\ dueCards (stats (constClock now) s)
     = number_of (fun c => nextReview c <=? now) (cards s)
  /\ masteredCards (stats (constClock now) s)
     = number_of (fun c => 4 <=? box c) (cards s)
  /\ (forall clk cs,
         map box cs = [0; 2; 4; 5] ->
         masteredCards (stats clk (setCards cs s)) = 2).
Proof.
  split; [reflexivity | split; [| split]].
  - unfold stats; simpl. rewrite due_constClock. apply len_filter_number_of.
  - unfold stats; simpl. rewrite len_filter_number_of.
    induction (cards s) as [| c rest IH]; simpl; [reflexivity |].
    rewrite IH. now rewrite Z.geb_leb.
  - intros clk cs Hb.
    destruct cs as [| c0 [| c1 [| c2 [| c3 [| c4 rest]]]]]; try discriminate.
    simpl in Hb. injection Hb as H0 H1 H2 H3.
    unfold stats; simpl. now rewrite H0, H1, H2, H3.
Qed.

(** * Outcome transitions *)

Lemma withReview_fields (c : FlashCard) (newBox next : Z) :
  box (withReview c newBox next) = newBox
  /\ nextReview (withReview c newBox next) = next
  /\ id (withReview c newBox next) = id c
  /\ front (withReview c newBox next) = front c
  /\ back (withReview c newBox next) = back c
  /\ createdAt (withReview c newBox next) = createdAt c
  /\ topic (withReview c newBox next) = topic c.
Proof. repeat split. Qed.

Lemma updatedCards_ids (cur : FlashCard) (newBox next : Z) (cs : list FlashCard) :
  map id (updatedCards cur newBox next cs) = map id cs.
Proof.
  unfold updatedCards. rewrite map_map. apply map_ext.
  intros c. now destruct (String.eqb (id c) (id cur)).
Qed.

Lemma updatedCards_absent (cur : FlashCard) (newBox next : Z) (cs : list FlashCard) :
  ~ In (id cur) (map id cs) -> updatedCards cur newBox next cs = cs.
Proof.
  induction cs as [| c rest IH]; simpl; intros Hn; [reflexivity |].
  destruct (String.eqb_spec (id c) (id cur)) as [E | _].
  - exfalso. apply Hn. now left.
  - f_equal. apply IH. intros Hin. apply Hn. now right.
Qed.

Lemma updatedCards_app (cur : FlashCard) (newBox next : Z) (l1 l2 : list FlashCard) :
  updatedCards cur newBox next (l1 ++ l2)
  = updatedCards cur newBox next l1 ++ updatedCards cur newBox next l2.
Proof. apply map_app. Qed.

(** With unique identifiers the update touches one position. *)
Lemma updatedCards_split (cur : FlashCard) (newBox next : Z) (cs : list FlashCard) :
  uniqueIds cs ->
  In (id cur) (map id cs) ->
  exists before c after,
    cs = before ++ c :: after
    /\ id c = id cur
    /\ ~ In (id cur) (map id (before ++ after))
    /\ updatedCards cur newBox next cs
       = before ++ withReview c newBox next :: after.
Proof.
  unfold uniqueIds. intros Hu Hin.
  apply in_map_iff in Hin. destruct Hin as (c & Hc & Hin).
  apply in_split in Hin. destruct Hin as (before & after & ->).
  rewrite map_app in Hu. simpl in Hu.
  pose proof (NoDup_remove_2 _ _ _ Hu) as Hno. rewrite Hc, <- map_app in Hno.
  exists before, c, after. repeat split; try assumption.
  rewrite updatedCards_app. simpl.
  rewrite Hc, String.eqb_refl.
  rewrite map_app in Hno.
  rewrite !updatedCards_absent; [reflexivity | |];
    intros H; apply Hno, in_or_app; [now right | now left].
Qed.

Lemma handleReviewResult_eq (clk : Clock) (success : bool) (s : State)
  (cur : FlashCard) :
  currentCard s = Some cur ->
  handleReviewResult clk success s
  = let r := scheduler clk (box cur) success in
    let s1 := saveCards (updatedCards cur (fst r) (snd r) (cards s)) s in
    if Z.of_nat (currentCardIndex s) <? len (reviewQueue s) - 1
    then Some (setCurrentCardIndex (S (currentCardIndex s))
                 (setIsFlipped false s1))
    else Some (setIsReviewing false s1).
Proof.
  unfold currentCard, handleReviewResult. intros ->.
  now destruct (scheduler clk (box cur) success).
Qed.

(** What an outcome leaves in the deck and in the storage. *)
Lemma handleReviewResult_cards (clk : Clock) (success : bool) (s : State)
  (cur : FlashCard) :
  currentCard s = Some cur ->
  exists s',
    handleReviewResult clk success s = Some s'
    /\ cards s'
       = updatedCards cur (fst (scheduler clk (box cur) success))
           (snd (scheduler clk (box cur) success)) (cards s)
    /\ stored s' = cards s' :: stored s
    /\ reviewQueue s' = reviewQueue s
    /\ isGenerating s' = isGenerating s.
Proof.
  intros Hc. rewrite (handleReviewResult_eq _ _ _ _ Hc). cbv zeta.
  destruct (_ <? _); eexists; repeat split.
Qed.

Lemma currentCard_in_deck (s : State) (cur : FlashCard) :
  wellFormed s -> currentCard s = Some cur -> In (id cur) (map id (cards s)).
Proof.
  intros (_ & _ & Hincl) Hc. apply Hincl, in_map.
  eapply nth_error_In, Hc.
Qed.

(** C8. With unique identifiers, an outcome rewrites one card of the deck,
    the one with the identifier of the card on screen: its box and review
    time become the scheduler's result for the box on screen, its other
    fields stay; the cards before and after it stay, none of them has that
    identifier, and the deck keeps its length. *)
Theorem outcome_mutates_one_card (clk : Clock) (success : bool) (s : State)
  (cur : FlashCard) :
  wellFormed s ->
  currentCard s = Some cur ->
  let newBox := fst (scheduler clk (box cur) success) in
  let next := snd (scheduler clk (box cur) success) in
  exists s' before c after,
    handleReviewResult clk success s = Some s'
    /\ cards s = before ++ c :: after
    /\ id c = id cur
    /\ ~ In (id cur) (map id (before ++ after))
    /\ cards s' = before ++ withReview c newBox next :: after
    /\ (box (withReview c newBox next) = newBox
        /\ nextReview (withReview c newBox next) = next
        /\ id (withReview c newBox next) = id c
        /\ front (withReview c newBox next) = front c
        /\ back (withReview c newBox next) = back c
        /\ createdAt (withReview c newBox next) = createdAt c
        /\ topic (withReview c newBox next) = topic c)
    /\ List.length (cards s') = List.length (cards s)
    /\ map id (cards s') = map id (cards s).
Proof.
  intros Hwf Hc newBox next.
  destruct (handleReviewResult_cards clk success s cur Hc)
    as (s' & Hs' & Hcards & _).
  destruct (updatedCards_split cur newBox next (cards s))
    as (before & c & after & Hsplit & Hid & Hno & Hupd);
    [apply Hwf | now apply currentCard_in_deck |].
  fold newBox next in Hcards.
  exists s', before, c, after.
  split; [exact Hs' |]. split; [exact Hsplit |]. split; [exact Hid |].
  split; [exact Hno |]. split; [now rewrite Hcards |].
  split; [apply withReview_fields |].
  rewrite Hcards. split.
  - unfold updatedCards. apply length_map.
  - apply updatedCards_ids.
Qed.

(** * The session *)

Lemma view_review (s : State) (i : nat) (r : bool) :
  view s = Review i r <->
  isGenerating s = false /\ isReviewing s = true
  /\ (0 < List.length (reviewQueue s))%nat
  /\ currentCardIndex s = i /\ isFlipped s = r.
Proof.
  unfold view, len.
  destruct (isGenerating s), (isReviewing s); simpl;
    try (split; [discriminate | intros (? & ? & _); discriminate]).
  destruct (Z.of_nat (List.length (reviewQueue s)) >? 0) eqn:Hq.
  - apply Z.gtb_lt in Hq. split.
    + intros [= <- <-]. repeat split. lia.
    + intros (_ & _ & _ & <- & <-). reflexivity.
  - split; [discriminate |]. intros (_ & _ & Hpos & _).
    rewrite Z.gtb_ltb in Hq. apply Z.ltb_ge in Hq. lia.
Qed.

Lemma view_not_reviewing (s : State) :
  isGenerating s = false -> isReviewing s = false -> view s = Dashboard.
Proof. unfold view. now intros -> ->. Qed.

Lemma flip_view (s : State) (i : nat) (r : bool) :
  view s = Review i r -> view (flip s) = Review i (negb r).
Proof.
  intros Hv. apply view_review in Hv. apply view_review.
  destruct Hv as (Hg & Hr & Hpos & Hidx & Hf).
  repeat split; try assumption. simpl. now rewrite Hf.
Qed.

Lemma filter_from_In {A : Type} (p : nat -> A -> bool) (l : list A) :
  forall k x, In x (filter_from p k l) -> In x l.
Proof.
  induction l as [| y rest IH]; simpl; intros k x H; [exact H |].
  destruct (p k y).
  - destruct H as [-> | H]; [now left | right; eapply IH, H].
  - right; eapply IH, H.
Qed.

Lemma filter_from_NoDup {A B : Type} (f : A -> B) (p : nat -> A -> bool)
  (l : list A) :
  NoDup (map f l) -> forall k, NoDup (map f (filter_from p k l)).
Proof.
  induction l as [| y rest IH]; simpl; intros Hn k; [constructor |].
  inversion Hn as [| ? ? Hnotin Hrest]; subst.
  destruct (p k y); simpl; [| now apply IH].
  constructor; [| now apply IH].
  intros Hin. apply Hnotin.
  apply in_map_iff in Hin. destruct Hin as (x & Hx & Hin).
  apply in_map_iff. exists x. split; [exact Hx |].
  eapply filter_from_In, Hin.
Qed.

Lemma startReview_wellFormed (clk : Clock) (s : State) :
  uniqueIds (cards s) -> wellFormed (startReview clk s).
Proof.
  intros Hu.
  pose proof (array_sort_permutation nextReview
                (filter_from (isDue clk) 0 (cards s))) as Hperm.
  unfold wellFormed. rewrite startReview_queue.
  change (cards (startReview clk s)) with (cards s).
  split; [exact Hu | split].
  - unfold uniqueIds.
    eapply Permutation_NoDup;
      [apply Permutation_sym, Permutation_map, Hperm |].
    now apply filter_from_NoDup.
  - intros i Hin. apply in_map_iff in Hin. destruct Hin as (c & <- & Hin).
    apply in_map. eapply filter_from_In.
    eapply Permutation_in; [exact Hperm | exact Hin].
Qed.

Lemma skipn_nth_error {A : Type} (l : list A) :
  forall i x, nth_error l i = Some x -> skipn i l = x :: skipn (S i) l.
Proof.
  induction l as [| y rest IH]; intros [| i] x H; simpl in *;
    try discriminate.
  - now injection H as ->.
  - now apply IH.
Qed.

Lemma run_app (a1 a2 : list Action) :
  forall s, run (a1 ++ a2) s
            = match run a1 s with Some s' => run a2 s' | None => None end.
Proof.
  induction a1 as [| a rest IH]; simpl; intros s; [reflexivity |].
  destruct (act a s); [apply IH | reflexivity].
Qed.

Lemma reviewed_app (a1 a2 : list Action) :
  forall s s', run a1 s = Some s' ->
               reviewed (a1 ++ a2) s = reviewed a1 s ++ reviewed a2 s'.
Proof.
  induction a1 as [| a rest IH]; simpl; intros s s' H.
  - now injection H as ->.
  - destruct (act a s) as [s1 |]; [| discriminate].
    rewrite (IH _ _ H).
    destruct a; try reflexivity. now destruct (currentCard s).
Qed.

(** One outcome in the review view, the cursor being inside the queue. *)
Lemma outcome_step (clk : Clock) (success : bool) (s : State) (i : nat)
  (r : bool) :
  view s = Review i r ->
  (i < List.length (reviewQueue s))%nat ->
  exists s' cur,
    currentCard s = Some cur
    /\ act (Outcome clk success) s = Some s'
    /\ handleReviewResult clk success s = Some s'
    /\ cards s'
       = updatedCards cur (fst (scheduler clk (box cur) success))
           (snd (scheduler clk (box cur) success)) (cards s)
    /\ stored s' = cards s' :: stored s
    /\ reviewQueue s' = reviewQueue s
    /\ ((S i < List.length (reviewQueue s))%nat -> view s' = Review (S i) false)
    /\ (S i = List.length (reviewQueue s) ->
        view s' = Dashboard /\ isReviewing s' = false).
Proof.
  intros Hv Hi. pose proof Hv as Hview.
  apply view_review in Hv. destruct Hv as (Hg & Hr & Hpos & Hidx & Hf).
  destruct (nth_error (reviewQueue s) i) as [cur |] eqn:Hcur;
    [| apply nth_error_None in Hcur; lia].
  assert (Hc : currentCard s = Some cur)
    by (unfold currentCard; now rewrite Hidx).
  unfold act. rewrite Hview.
  rewrite (handleReviewResult_eq clk success s cur Hc). cbv zeta.
  unfold len. rewrite Hidx.
  destruct (Z.of_nat i <? Z.of_nat (List.length (reviewQueue s)) - 1) eqn:Hlt;
    [apply Z.ltb_lt in Hlt | apply Z.ltb_ge in Hlt];
    eexists; exists cur;
    (split; [exact Hc |]); do 5 (split; [reflexivity |]); split.
  - intros _. apply view_review. repeat split; assumption.
  - intros E. lia.
  - intros E. lia.
  - intros _. split; [| reflexivity].
    apply view_not_reviewing; [exact Hg | reflexivity].
Qed.

Lemma run_outcomes (actions : list Action) :
  forall s i r,
    view s = Review i r ->
    noQuit actions = true ->
    (i + outcomes actions < List.length (reviewQueue s))%nat ->
    exists s' r',
      run actions s = Some s'
      /\ view s' = Review (i + outcomes actions) r'
      /\ reviewQueue s' = reviewQueue s
      /\ List.length (stored s')
         = (List.length (stored s) + outcomes actions)%nat
      /\ reviewed actions s
         = firstn (outcomes actions) (skipn i (reviewQueue s)).
Proof.
  induction actions as [| a rest IH]; intros s i r Hv Hq Hlen.
  - exists s, r. simpl. rewrite !Nat.add_0_r. repeat split. exact Hv.
  - destruct a as [| clk success |]; simpl in Hq, Hlen; [| | discriminate].
    + pose proof (flip_view s i r Hv) as Hflip.
      destruct (IH (flip s) i (negb r) Hflip Hq Hlen)
        as (s' & r' & Hrun & Hv' & Hqu & Hst & Hrev).
      exists s', r'. simpl. unfold act. rewrite Hv. simpl.
      repeat split; assumption.
    + destruct (outcome_step clk success s i r Hv)
        as (s1 & cur & Hc & Hact & _ & _ & Hst1 & Hq1 & Hnext & _); [lia |].
      assert (Hv1 : view s1 = Review (S i) false) by (apply Hnext; lia).
      destruct (IH s1 (S i) false Hv1 Hq) as (s' & r' & Hrun & Hv' & Hqu & Hst & Hrev);
        [rewrite Hq1; lia |].
      exists s', r'. simpl. rewrite Hact, Hc.
      split; [exact Hrun |].
      split; [now rewrite Nat.add_succ_r |].
      split; [now rewrite Hqu |].
      split; [rewrite Hst, Hst1; simpl; lia |].
      rewrite Hrev, Hq1.
      apply view_review in Hv. destruct Hv as (_ & _ & _ & Hidx & _).
      unfold currentCard in Hc. rewrite Hidx in Hc.
      now rewrite (skipn_nth_error _ _ _ Hc).
Qed.

Lemma startReview_view (clk : Clock) (s : State) :
  view s = Dashboard ->
  (1 <= List.length (reviewQueue (startReview clk s)))%nat ->
  view (startReview clk s) = Review 0 false.
Proof.
  intros Hd Hn. apply view_review. repeat split; try assumption.
  change (isGenerating (startReview clk s)) with (isGenerating s).
  unfold view in Hd. destruct (isGenerating s); [discriminate | reflexivity].
Qed.

Lemma queue_last {A : Type} (q : list A) (k : nat) (x : A) :
  S k = List.length q -> nth_error q k = Some x -> firstn k q ++ [x] = q.
Proof.
  intros Hk Hx.
  rewrite <- (firstn_skipn k q) at 2. f_equal.
  rewrite (skipn_nth_error _ _ _ Hx), skipn_all2; [reflexivity | lia].
Qed.

Lemma updatedCards_upsertOf (cur : FlashCard) (newBox next : Z)
  (cs : list FlashCard) :
  upsertOf cur newBox next cs (updatedCards cur newBox next cs).
Proof.
  unfold upsertOf, updatedCards.
  induction cs as [| c rest IH]; simpl; constructor; [| exact IH].
  destruct (String.eqb_spec (id c) (id cur)) as [E | E]; split;
    intros H; try reflexivity; contradiction.
Qed.

Lemma outcomesOf_app (a1 a2 : list Action) :
  outcomesOf (a1 ++ a2) = outcomesOf a1 ++ outcomesOf a2.
Proof.
  induction a1 as [| a rest IH]; simpl; [reflexivity |].
  destruct a; simpl; now rewrite IH.
Qed.

Lemma upsertChain_length (targets : list FlashCard) :
  forall deck results writes final,
    upsertChain deck targets results writes final ->
    List.length writes = List.length targets
    /\ List.length results = List.length targets.
Proof.
  induction targets as [| t ts IH]; intros deck results writes final H;
    destruct results as [| [clk ok] results], writes as [| w writes];
    simpl in H; try contradiction.
  - now split.
  - destruct H as [_ H]. destruct (IH _ _ _ _ H) as [E1 E2].
    simpl. now rewrite E1, E2.
Qed.

Lemma upsertChain_app (t1 : list FlashCard) :
  forall deck r1 w1 middle t2 r2 w2 final,
    upsertChain deck t1 r1 w1 middle ->
    upsertChain middle t2 r2 w2 final ->
    upsertChain deck (t1 ++ t2) (r1 ++ r2) (w1 ++ w2) final.
Proof.
  induction t1 as [| t ts IH]; intros deck r1 w1 middle t2 r2 w2 final H1 H2;
    destruct r1 as [| [clk ok] r1], w1 as [| w w1];
    simpl in H1; try contradiction.
  - subst middle. exact H2.
  - destruct H1 as [Hup H1]. simpl. split; [exact Hup |].
    eapply IH; eassumption.
Qed.

(** The writes of a run inside a session: one per outcome, each the upsert
    of the card then on screen. *)
Lemma run_upserts (actions : list Action) :
  forall s i r,
    view s = Review i r ->
    noQuit actions = true ->
    (i + outcomes actions < List.length (reviewQueue s))%nat ->
    exists s' writes,
      run actions s = Some s'
      /\ stored s' = rev writes ++ stored s
      /\ upsertChain (cards s)
           (firstn (outcomes actions) (skipn i (reviewQueue s)))
           (outcomesOf actions) writes (cards s').
Proof.
  induction actions as [| a rest IH]; intros s i r Hv Hq Hlen.
  - exists s, []. simpl. repeat split.
  - destruct a as [| clk success |]; simpl in Hq, Hlen; [| | discriminate].
    + pose proof (flip_view s i r Hv) as Hflip.
      destruct (IH (flip s) i (negb r) Hflip Hq Hlen)
        as (s' & writes & Hrun & Hst & Hchain).
      exists s', writes. simpl. unfold act. rewrite Hv.
      repeat split; assumption.
    + destruct (outcome_step clk success s i r Hv)
        as (s1 & cur & Hc & Hact & _ & Hcards & Hst1 & Hq1 & Hnext & _);
        [lia |].
      assert (Hv1 : view s1 = Review (S i) false) by (apply Hnext; lia).
      destruct (IH s1 (S i) false Hv1 Hq)
        as (s' & writes & Hrun & Hst & Hchain); [rewrite Hq1; lia |].
      exists s', (cards s1 :: writes). simpl run. rewrite Hact.
      split; [exact Hrun |]. split.
      * rewrite Hst, Hst1. simpl rev. now rewrite <- app_assoc.
      * apply view_review in Hv. destruct Hv as (_ & _ & _ & Hidx & _).
        unfold currentCard in Hc. rewrite Hidx in Hc.
        cbn [outcomes outcomesOf].
        rewrite (skipn_nth_error _ _ _ Hc). cbn [firstn upsertChain].
        split; [rewrite Hcards; apply updatedCards_upsertOf |].
        now rewrite Hq1 in Hchain.
Qed.

(** C6. In the review view with the cursor at [i] inside a queue of [n]
    cards, an outcome writes the deck once, the deck written being the deck
    before with an upsert of the card on screen that carries the scheduler's
    result, and either moves to the cursor [i + 1] with the answer hidden
    (when [i + 1 < n]) or, at the last card, ends the session.  A session
    started from the dashboard on a deck with unique identifiers and
    [n >= 1] due cards is still in the review view after fewer than [n]
    outcomes and is ended by the n-th; the storage receives one write per
    outcome ([n] in all), the k-th write being the upsert of the k-th card
    of the queue with the scheduler's result for the k-th outcome, and the
    identifiers of the cards of the queue are pairwise different. *)
Theorem session_outcomes (clk0 : Clock) (s0 : State) :
  uniqueIds (cards s0) ->
  view s0 = Dashboard ->
  let s := startReview clk0 s0 in
  let queue := reviewQueue s in
  let n := List.length queue in
  (1 <= n)%nat ->
  (forall st i r clk success,
      view st = Review i r ->
      (i < List.length (reviewQueue st))%nat ->
      exists st' cur,
        currentCard st = Some cur
        /\ act (Outcome clk success) st = Some st'
        /\ stored st'
           = updatedCards cur (fst (scheduler clk (box cur) success))
               (snd (scheduler clk (box cur) success)) (cards st)
             :: stored st
        /\ ((S i < List.length (reviewQueue st))%nat ->
            view st' = Review (S i) false)
        /\ (S i = List.length (reviewQueue st) -> view st' = Dashboard)
        /\ stored st' = cards st' :: stored st
        /\ upsertOf cur (fst (scheduler clk (box cur) success))
             (snd (scheduler clk (box cur) success)) (cards st) (cards st'))
  /\ view s = Review 0 false
  /\ (forall actions,
         noQuit actions = true ->
         (outcomes actions < n)%nat ->
         exists s' r,
           run actions s = Some s'
           /\ view s' = Review (outcomes actions) r
           /\ List.length (stored s')
              = (List.length (stored s0) + outcomes actions)%nat
           /\ reviewed actions s = firstn (outcomes actions) queue
           /\ exists writes,
                stored s' = rev writes ++ stored s0
                /\ List.length writes = outcomes actions
                /\ upsertChain (cards s0) (firstn (outcomes actions) queue)
                     (outcomesOf actions) writes (cards s'))
  /\ (forall actions clk success,
         noQuit actions = true ->
         S (outcomes actions) = n ->
         exists s',
           run (actions ++ [Outcome clk success]) s = Some s'
           /\ view s' = Dashboard
           /\ isReviewing s' = false
           /\ List.length (stored s') = (List.length (stored s0) + n)%nat
           /\ reviewed (actions ++ [Outcome clk success]) s = queue
           /\ exists writes,
                stored s' = rev writes ++ stored s0
                /\ List.length writes = n
                /\ upsertChain (cards s0) queue
                     (outcomesOf (actions ++ [Outcome clk success]))
                     writes (cards s'))
  /\ NoDup (map id queue).
Proof.
  intros Hu Hd s queue n Hn.
  assert (Hv : view s = Review 0 false) by (now apply startReview_view).
  split; [| split; [exact Hv | split; [| split]]].
  - intros st i r clk success Hst Hi.
    destruct (outcome_step clk success st i r Hst Hi)
      as (st' & cur & Hc & Hact & _ & Hcards & Hstored & _ & Hnext & Hlast).
    exists st', cur.
    split; [exact Hc |]. split; [exact Hact |].
    split; [now rewrite Hstored, Hcards |].
    split; [exact Hnext |].
    split; [intros E; now apply Hlast |].
    split; [exact Hstored |].
    rewrite Hcards. apply updatedCards_upsertOf.
  - intros actions Hq Hk.
    destruct (run_outcomes actions s 0 false Hv Hq Hk)
      as (s' & r & Hrun & Hv' & _ & Hst & Hrev).
    destruct (run_upserts actions s 0 false Hv Hq Hk)
      as (s2 & writes & Hrun2 & Hst2 & Hchain).
    rewrite Hrun in Hrun2. injection Hrun2 as <-.
    exists s', r.
    split; [exact Hrun |]. split; [exact Hv' |]. split; [exact Hst |].
    split; [exact Hrev |].
    exists writes. split; [exact Hst2 |].
    split; [| exact Hchain].
    destruct (upsertChain_length _ _ _ _ _ Hchain) as [E _].
    rewrite E, length_firstn.
    change (skipn 0 (reviewQueue s)) with (reviewQueue s).
    unfold n, queue in Hk. lia.
  - intros actions clk success Hq Hk.
    destruct (run_outcomes actions s 0 false Hv Hq) as
      (s1 & r & Hrun & Hv1 & Hq1 & Hst1 & Hrev1); [fold queue n; lia |].
    destruct (run_upserts actions s 0 false Hv Hq)
      as (s2 & writes & Hrun2 & Hst2 & Hchain); [fold queue n; lia |].
    rewrite Hrun in Hrun2. injection Hrun2 as <-.
    simpl in Hv1.
    destruct (outcome_step clk success s1 (outcomes actions) r Hv1)
      as (s' & cur & Hc & Hact & _ & Hcards & Hst & _ & _ & Hlast);
      [rewrite Hq1; fold queue n; lia |].
    destruct Hlast as [Hdash Hrev]; [rewrite Hq1; exact Hk |].
    assert (Hcur : nth_error queue (outcomes actions) = Some cur).
    { apply view_review in Hv1. destruct Hv1 as (_ & _ & _ & Hidx & _).
      unfold currentCard in Hc. now rewrite Hidx, Hq1 in Hc. }
    assert (Hqueue : firstn (outcomes actions) queue ++ [cur] = queue)
      by (now apply queue_last).
    exists s'. rewrite run_app, Hrun. simpl. rewrite Hact.
    split; [reflexivity |]. split; [exact Hdash |]. split; [exact Hrev |].
    split; [| split].
    + rewrite Hst. simpl. rewrite Hst1.
      change (stored s) with (stored s0). lia.
    + rewrite (reviewed_app _ _ _ _ Hrun), Hrev1. simpl.
      rewrite Hact, Hc. exact Hqueue.
    + assert (Hall : upsertChain (cards s0) queue
                       (outcomesOf (actions ++ [Outcome clk success]))
                       (writes ++ [cards s']) (cards s')).
      { rewrite outcomesOf_app, <- Hqueue.
        apply (upsertChain_app _ _ _ _ (cards s1)); [exact Hchain |].
        simpl. split; [| reflexivity].
        rewrite Hcards. apply updatedCards_upsertOf. }
      exists (writes ++ [cards s']).
      split; [| split; [| exact Hall]].
      * rewrite rev_app_distr. simpl. now rewrite Hst, Hst2.
      * now destruct (upsertChain_length _ _ _ _ _ Hall) as [E _].
  - apply (startReview_wellFormed clk0 s0 Hu).
Qed.

Lemma act_no_outcome (a : Action) (s s' : State) :
  outcomes [a] = 0%nat -> act a s = Some s' ->
  cards s' = cards s /\ stored s' = stored s.
Proof.
  unfold act. destruct (view s); try discriminate.
  destruct a; simpl; try discriminate; intros _ [= <-]; now split.
Qed.

Lemma run_no_outcome (actions : list Action) :
  forall s s', outcomes actions = 0%nat -> run actions s = Some s' ->
               cards s' = cards s /\ stored s' = stored s.
Proof.
  induction actions as [| a rest IH]; simpl; intros s s' Hk Hrun.
  - injection Hrun as <-. now split.
  - destruct (act a s) as [s1 |] eqn:Ha; [| discriminate].
    assert (Ha0 : outcomes [a] = 0%nat) by (destruct a; simpl; [reflexivity | discriminate | reflexivity]).
    assert (Hr0 : outcomes rest = 0%nat) by (destruct a; [exact Hk | discriminate | exact Hk]).
    destruct (act_no_outcome a s s1 Ha0 Ha) as [E1 E2].
    destruct (IH s1 s' Hr0 Hrun) as [E3 E4].
    split; congruence.
Qed.

Lemma uniqueIds_same_card (cs : list FlashCard) (a b : FlashCard) :
  uniqueIds cs -> In a cs -> In b cs -> id a = id b -> a = b.
Proof.
  unfold uniqueIds. induction cs as [| c rest IH]; simpl; [contradiction |].
  intros Hu Ha Hb E. inversion Hu as [| ? ? Hnotin Hrest]; subst.
  destruct Ha as [-> | Ha], Hb as [-> | Hb].
  - reflexivity.
  - exfalso. apply Hnotin. rewrite E. now apply in_map.
  - exfalso. apply Hnotin. rewrite <- E. now apply in_map.
  - now apply IH.
Qed.

Lemma updatedCards_other (cur c2 : FlashCard) (newBox next : Z)
  (cs : list FlashCard) :
  uniqueIds cs -> In c2 cs -> id c2 <> id cur ->
  In c2 (updatedCards cur newBox next cs)
  /\ (forall c, In c (updatedCards cur newBox next cs) ->
                id c = id c2 -> c = c2).
Proof.
  intros Hu Hin Hne. unfold updatedCards. split.
  - apply in_map_iff. exists c2. split; [| exact Hin].
    destruct (String.eqb_spec (id c2) (id cur)); [contradiction | reflexivity].
  - intros c Hc E. apply in_map_iff in Hc. destruct Hc as (c' & Hc' & Hin').
    destruct (String.eqb_spec (id c') (id cur)) as [E' | _].
    + subst c. simpl in E. congruence.
    + subst c'. now apply (uniqueIds_same_card cs).
Qed.

Lemma startReview_queue_in_deck (clk : Clock) (s : State) (c : FlashCard) :
  In c (reviewQueue (startReview clk s)) -> In c (cards s).
Proof.
  rewrite startReview_queue. intros Hin.
  eapply filter_from_In, Permutation_in;
    [apply (array_sort_permutation nextReview) | exact Hin].
Qed.

(** C7. In the review view a quit ends the session and a reveal turns the
    card over, and neither changes the deck nor writes to the storage.  In a
    session over two due cards of a deck with unique identifiers, an outcome
    for the first card followed (after any reveals) by a quit leaves the
    session ended with one write to the storage, and the deck still holds the
    second card as it was: the only card with its identifier, unchanged. *)
Theorem quit_persists_nothing (clk0 clk : Clock) (success : bool)
  (s0 : State) (c1 c2 : FlashCard) :
  uniqueIds (cards s0) ->
  view s0 = Dashboard ->
  reviewQueue (startReview clk0 s0) = [c1; c2] ->
  (forall s i r,
      view s = Review i r ->
      act Quit s = Some (quit s)
      /\ view (quit s) = Dashboard
      /\ isReviewing (quit s) = false
      /\ cards (quit s) = cards s
      /\ stored (quit s) = stored s)
  /\ (forall s i r,
         view s = Review i r ->
         act Reveal s = Some (flip s)
         /\ view (flip s) = Review i (negb r)
         /\ cards (flip s) = cards s
         /\ stored (flip s) = stored s)
  /\ (forall reveals,
         noQuit reveals = true ->
         outcomes reveals = 0%nat ->
         exists s',
           run ([Reveal; Outcome clk success] ++ reveals ++ [Quit])
             (startReview clk0 s0) = Some s'
           /\ view s' = Dashboard
           /\ isReviewing s' = false
           /\ List.length (stored s') = S (List.length (stored s0))
           /\ In c2 (cards s')
           /\ (forall c, In c (cards s') -> id c = id c2 ->
                         c = c2 /\ box c = box c2
                         /\ nextReview c = nextReview c2)).
Proof.
  intros Hu Hd Hqueue.
  assert (Hquit : forall s i r,
             view s = Review i r ->
             act Quit s = Some (quit s)
             /\ view (quit s) = Dashboard
             /\ isReviewing (quit s) = false
             /\ cards (quit s) = cards s
             /\ stored (quit s) = stored s).
  { intros s i r Hv. unfold act. rewrite Hv.
    apply view_review in Hv. destruct Hv as (Hg & _).
    repeat split. now apply view_not_reviewing. }
  split; [exact Hquit | split].
  - intros s i r Hv. unfold act. rewrite Hv.
    repeat split. now apply flip_view.
  - intros reveals Hnq H0.
    set (s := startReview clk0 s0).
    assert (Hv : view s = Review 0 false).
    { apply startReview_view; [exact Hd |]. rewrite Hqueue. simpl. lia. }
    (* the reveal and the outcome of the first card *)
    pose proof (flip_view s 0 false Hv) as Hvf. simpl negb in Hvf.
    destruct (outcome_step clk success (flip s) 0 true Hvf)
      as (s1 & cur & Hc & Hact & _ & Hcards & Hst & Hq1 & Hnext & _).
    { change (reviewQueue (flip s)) with (reviewQueue s).
      unfold s. rewrite Hqueue. simpl. lia. }
    assert (Hcur : cur = c1).
    { change (currentCard (flip s))
        with (nth_error (reviewQueue (startReview clk0 s0)) 0) in Hc.
      rewrite Hqueue in Hc. simpl in Hc. congruence. }
    subst cur.
    assert (Hv1 : view s1 = Review 1 false).
    { apply Hnext. change (reviewQueue (flip s)) with (reviewQueue s).
      unfold s. rewrite Hqueue. simpl. lia. }
    (* the reveals that follow *)
    destruct (run_outcomes reveals s1 1 false Hv1 Hnq)
      as (s2 & r2 & Hrun2 & Hv2 & _ & _ & _).
    { rewrite H0, Hq1. change (reviewQueue (flip s)) with (reviewQueue s).
      unfold s. rewrite Hqueue. simpl. lia. }
    destruct (run_no_outcome reveals s1 s2 H0 Hrun2) as [Hc2 Hs2].
    destruct (Hquit s2 _ _ Hv2) as (Hq & Hvq & Hrq & Hcq & Hsq).
    exists (quit s2).
    split.
    { change ([Reveal; Outcome clk success] ++ reveals ++ [Quit])
        with (Reveal :: Outcome clk success :: (reveals ++ [Quit])).
      simpl. unfold act at 1. fold s. rewrite Hv.
      rewrite Hact, run_app, Hrun2. simpl. now rewrite Hq. }
    split; [exact Hvq |]. split; [exact Hrq |].
    split; [rewrite Hsq, Hs2, Hst; reflexivity |].
    rewrite Hcq, Hc2, Hcards.
    change (cards (flip s)) with (cards s0).
    assert (Hwf : wellFormed s) by (apply startReview_wellFormed, Hu).
    destruct Hwf as (_ & Huq & _). unfold s, uniqueIds in Huq.
    rewrite Hqueue in Huq. simpl in Huq.
    assert (Hne : id c2 <> id c1).
    { inversion Huq as [| ? ? Hnotin _]; subst.
      intros E. apply Hnotin. left. now symmetry. }
    assert (Hin2 : In c2 (cards s0)).
    { apply (startReview_queue_in_deck clk0). rewrite Hqueue. right. now left. }
    destruct (updatedCards_other c1 c2
                (fst (scheduler clk (box c1) success))
                (snd (scheduler clk (box c1) success))
                (cards s0) Hu Hin2 Hne) as [Hin Honly].
    split; [exact Hin |].
    intros c Hcin E. rewrite (Honly c Hcin E). repeat split.
Qed.

(** * The box invariant *)

Lemma seed_boxes (clk : Clock) : Forall (fun c => box c = 0) (seed clk).
Proof. repeat constructor. Qed.

Lemma newCards_from_boxes (clk : Clock) (rand : nat -> string)
  (newCardsData : list CardData) :
  forall k, Forall (fun c => box c = 0) (newCards_from clk rand k newCardsData).
Proof.
  induction newCardsData as [| d rest IH]; intros k; simpl; constructor.
  - reflexivity.
  - apply IH.
Qed.

Lemma boxes_zero_in_range (cs : list FlashCard) :
  Forall (fun c => box c = 0) cs -> boxesInRange cs.
Proof.
  unfold boxesInRange. apply Forall_impl. intros c ->. lia.
Qed.

Lemma updatedCards_boxes (cur : FlashCard) (newBox next : Z)
  (cs : list FlashCard) :
  0 <= newBox <= 6 -> boxesInRange cs ->
  boxesInRange (updatedCards cur newBox next cs).
Proof.
  unfold boxesInRange, updatedCards. intros Hb Hcs.
  apply Forall_map. eapply Forall_impl; [| exact Hcs].
  intros c Hc. now destruct (String.eqb (id c) (id cur)).
Qed.

Lemma handleReviewResult_defined (clk : Clock) (success : bool) (s s' : State) :
  handleReviewResult clk success s = Some s' ->
  exists cur, currentCard s = Some cur.
Proof.
  unfold handleReviewResult, currentCard.
  destruct (nth_error (reviewQueue s) (currentCardIndex s)) as [cur |];
    [now exists cur | discriminate].
Qed.

Lemma reachable_boxInvariant (s : State) : reachable s -> boxInvariant s.
Proof.
  unfold boxInvariant.
  induction 1 as [| clk earlier _ IH | trim clk rand response s _ IH
                  | clk s _ IH | s _ IH | s _ IH | clk success s s' _ IH Hs'].
  - repeat split; constructor.
  - destruct IH as (_ & _ & Hst). unfold mount, localStorage_getItem.
    simpl. destruct (stored earlier) as [| saved older] eqn:E; simpl;
      rewrite ?E.
    + pose proof (boxes_zero_in_range _ (seed_boxes clk)) as Hseed.
      split; [exact Hseed | split; [constructor |]].
      constructor; [exact Hseed | constructor].
    + inversion Hst; subst.
      split; [assumption | split; [constructor | assumption]].
  - destruct IH as (Hc & Hq & Hst). unfold handleGenerate.
    destruct (String.eqb _ _); [now repeat split |].
    destruct response as [newCardsData |]; simpl; [| now repeat split].
    assert (Hnew : boxesInRange
                     (cards s ++ newCards_from clk rand 0 newCardsData)).
    { apply Forall_app. split; [exact Hc |].
      apply boxes_zero_in_range, newCards_from_boxes. }
    repeat split; try assumption. now constructor.
  - destruct IH as (Hc & Hq & Hst).
    split; [exact Hc | split; [| exact Hst]].
    rewrite startReview_queue. unfold boxesInRange in *.
    apply Forall_forall. intros c Hin.
    apply (proj1 (Forall_forall _ _) Hc).
    eapply filter_from_In, Permutation_in;
      [apply (array_sort_permutation nextReview) | exact Hin].
  - exact IH.
  - exact IH.
  - destruct IH as (Hc & Hq & Hst).
    destruct (handleReviewResult_defined _ _ _ _ Hs') as [cur Hcur].
    destruct (handleReviewResult_cards clk success s cur Hcur)
      as (s2 & Hs2 & Hcards & Hstored & Hqueue & _).
    rewrite Hs' in Hs2. injection Hs2 as <-.
    assert (Hin : 0 <= box cur <= 6).
    { unfold boxesInRange in Hq.
      apply (proj1 (Forall_forall _ _) Hq). eapply nth_error_In, Hcur. }
    assert (Hupd : boxesInRange (cards s')).
    { rewrite Hcards. apply updatedCards_boxes; [| exact Hc].
      now apply scheduler_box_in_range. }
    rewrite Hstored, Hqueue.
    repeat split; try assumption. now constructor.
Qed.

(** C9. Seeded and generated cards start at box 0; for a box in 0 .. 6 the
    scheduler returns a box in 0 .. 6 (0 on failure, [min (box + 1) 6] on
    success); and in every state the component can reach, every card of the
    deck, of the queue and of the stored copies has its box in 0 .. 6. *)
Theorem box_always_in_range :
  (forall clk, Forall (fun c => box c = 0) (seed clk))
  /\ (forall clk rand k newCardsData,
         Forall (fun c => box c = 0) (newCards_from clk rand k newCardsData))
  /\ (forall clk currentBox success,
         0 <= currentBox <= 6 ->
         0 <= fst (scheduler clk currentBox success) <= 6
         /\ fst (scheduler clk currentBox false) = 0
         /\ fst (scheduler clk currentBox true) = Z.min (currentBox + 1) 6)
  /\ (forall s, reachable s ->
                boxesInRange (cards s)
                /\ boxesInRange (reviewQueue s)
                /\ Forall boxesInRange (stored s)).
Proof.
  split; [apply seed_boxes | split; [| split]].
  - intros clk rand k newCardsData. apply newCards_from_boxes.
  - intros clk currentBox success H.
    split; [now apply scheduler_box_in_range |].
    split; [reflexivity |].
    now rewrite scheduler_success_eq.
  - apply reachable_boxInvariant.
Qed.

(** * The theorems at a concrete deck: the seed deck, mounted at time 0 *)

Lemma seed_deck_unique :
  uniqueIds (cards (mount (constClock 0) initialState)).
Proof.
  unfold uniqueIds. simpl.
  repeat constructor; simpl; intuition discriminate.
Qed.

Lemma outcome_mutates_one_card_witness :
  let s := startReview (constClock 5) (mount (constClock 0) initialState) in
  wellFormed s
  /\ currentCard s = nth_error (seed (constClock 0)) 0
  /\ exists s', handleReviewResult (constClock 10) true s = Some s'
                /\ map id (cards s') = map id (cards s).
Proof.
  assert (Hwf : wellFormed
                  (startReview (constClock 5) (mount (constClock 0) initialState)))
    by (apply startReview_wellFormed, seed_deck_unique).
  split; [exact Hwf | split; [reflexivity |]].
  destruct (outcome_mutates_one_card (constClock 10) true _ _ Hwf eq_refl)
    as (s' & _ & _ & _ & Hs' & _ & _ & _ & _ & _ & _ & Hids).
  exists s'. split; [exact Hs' | exact Hids].
Defined.

Lemma session_outcomes_witness :
  let s0 := mount (constClock 0) initialState in
  let s := startReview (constClock 5) s0 in
  uniqueIds (cards s0)
  /\ view s0 = Dashboard
  /\ (1 <= List.length (reviewQueue s))%nat
  /\ exists s',
       run [Reveal; Outcome (constClock 10) true;
            Reveal; Outcome (constClock 20) false] s = Some s'
       /\ view s' = Dashboard
       /\ List.length (stored s') = 3%nat.
Proof.
  split; [exact seed_deck_unique | split; [reflexivity | split]].
  - vm_compute. lia.
  - assert (Hn : (1 <= List.length
                         (reviewQueue
                            (startReview (constClock 5)
                               (mount (constClock 0) initialState))))%nat)
      by (vm_compute; lia).
    destruct (session_outcomes (constClock 5)
                (mount (constClock 0) initialState)
                seed_deck_unique eq_refl Hn) as (_ & _ & _ & Hend & _).
    destruct (Hend [Reveal; Outcome (constClock 10) true; Reveal]
                (constClock 20) false eq_refl eq_refl)
      as (s' & Hrun & Hv & _ & Hlen & _).
    exists s'. split; [exact Hrun | split; [exact Hv | exact Hlen]].
Defined.

Lemma quit_persists_nothing_witness :
  let s0 := mount (constClock 0) initialState in
  let s := startReview (constClock 5) s0 in
  uniqueIds (cards s0)
  /\ view s0 = Dashboard
  /\ reviewQueue s = seed (constClock 0)
  /\ exists s',
       run [Reveal; Outcome (constClock 10) false; Quit] s = Some s'
       /\ List.length (stored s') = 2%nat.
Proof.
  split; [exact seed_deck_unique | split; [reflexivity | split; [reflexivity |]]].
  destruct (quit_persists_nothing (constClock 5) (constClock 10) false
              (mount (constClock 0) initialState) _ _
              seed_deck_unique eq_refl eq_refl) as (_ & _ & Hrun).
  destruct (Hrun [] eq_refl eq_refl) as (s' & Hs' & _ & _ & Hlen & _ & _).
  exists s'. split; [exact Hs' | exact Hlen].
Defined.

(** * Further properties of the flash card manager *)

(** ** Outcomes without the assumption of unique identifiers *)

(** X1. An outcome rewrites every card of the deck that carries the identifier
    of the card on screen, and no other card. *)
Theorem outcome_rewrites_by_id (clk : Clock) (success : bool) (s : State)
  (cur : FlashCard) :
  currentCard s = Some cur ->
  exists s',
    handleReviewResult clk success s = Some s'
    /\ Forall2
         (fun c c' =>
            (id c = id cur ->
             c' = withReview c (fst (scheduler clk (box cur) success))
                    (snd (scheduler clk (box cur) success)))
            /\ (id c <> id cur -> c' = c))
         (cards s) (cards s').
Proof.
  intros Hc.
  destruct (handleReviewResult_cards clk success s cur Hc)
    as (s' & Hs' & Hcards & _).
  exists s'. split; [exact Hs' |]. rewrite Hcards. unfold updatedCards.
  clear Hs' Hcards Hc.
  induction (cards s) as [| c rest IH]; simpl; [constructor |].
  constructor; [| exact IH].
  destruct (String.eqb_spec (id c) (id cur)) as [E | E]; split;
    intros H; try reflexivity; contradiction.
Qed.

(** ** The review view never reads outside the queue *)

Lemma reachable_cursorInQueue (s : State) : reachable s -> cursorInQueue s.
Proof.
  unfold cursorInQueue.
  induction 1 as [| clk earlier _ IH | trim clk rand response s _ IH
                  | clk s _ IH | s _ IH | s _ IH | clk success s s' _ IH Hs'].
  - now left.
  - left. unfold mount. now destruct (localStorage_getItem (reload earlier)).
  - unfold handleGenerate. destruct (String.eqb _ _); [exact IH |].
    destruct response; exact IH.
  - change (currentCardIndex (startReview clk s)) with 0%nat.
    destruct (reviewQueue (startReview clk s)); [now left | right; simpl; lia].
  - exact IH.
  - exact IH.
  - destruct (handleReviewResult_defined _ _ _ _ Hs') as [cur Hcur].
    rewrite (handleReviewResult_eq _ _ _ _ Hcur) in Hs'. cbv zeta in Hs'.
    assert (Hlt : (currentCardIndex s < List.length (reviewQueue s))%nat)
      by (apply nth_error_Some; unfold currentCard in Hcur; congruence).
    right. unfold len in Hs'.
    destruct (_ <? _) eqn:E; injection Hs' as <-; simpl;
      [apply Z.ltb_lt in E; lia | exact Hlt].
Qed.

(** X2. In every state the component can reach, if the review view is on screen
    then the card at the cursor exists, and either outcome is handled without
    an exception. *)
Theorem review_view_never_throws (clk : Clock) (success : bool) (s : State)
  (i : nat) (r : bool) :
  reachable s ->
  view s = Review i r ->
  exists cur s',
    currentCard s = Some cur
    /\ nth_error (reviewQueue s) i = Some cur
    /\ handleReviewResult clk success s = Some s'.
Proof.
  intros Hreach Hv.
  apply view_review in Hv. destruct Hv as (_ & _ & Hpos & Hidx & _).
  destruct (reachable_cursorInQueue s Hreach) as [Hnil | Hlt];
    [rewrite Hnil in Hpos; simpl in Hpos; lia |].
  destruct (nth_error (reviewQueue s) (currentCardIndex s)) as [cur |] eqn:Hc;
    [| apply nth_error_None in Hc; lia].
  destruct (handleReviewResult_cards clk success s cur Hc) as (s' & Hs' & _).
  exists cur, s'. split; [exact Hc | split; [now rewrite <- Hidx | exact Hs']].
Qed.

(** ** The storage and the deck *)

Lemma reachable_storageInSync (s : State) : reachable s -> storageInSync s.
Proof.
  unfold storageInSync, localStorage_getItem.
  induction 1 as [| clk earlier _ IH | trim clk rand response s _ IH
                  | clk s _ IH | s _ IH | s _ IH | clk success s s' _ IH Hs'].
  - left. now split.
  - right. unfold mount, localStorage_getItem. simpl.
    destruct (stored earlier) as [| saved older] eqn:E; simpl;
      rewrite ?E; reflexivity.
  - unfold handleGenerate. destruct (String.eqb _ _); [exact IH |].
    destruct response; [right; reflexivity | exact IH].
  - exact IH.
  - exact IH.
  - exact IH.
  - destruct (handleReviewResult_defined _ _ _ _ Hs') as [cur Hcur].
    destruct (handleReviewResult_cards clk success s cur Hcur)
      as (s2 & Hs2 & _ & Hstored & _).
    rewrite Hs' in Hs2. injection Hs2 as <-.
    right. now rewrite Hstored.
Qed.

(** X3. In every reachable state the storage holds the deck, so a later run of
    the component over a storage that was written gets the same deck back on
    mount, and mounting writes nothing. *)
Theorem reload_restores_deck (clk : Clock) (s : State) :
  reachable s ->
  stored s <> [] ->
  localStorage_getItem s = Some (cards s)
  /\ cards (mount clk (reload s)) = cards s
  /\ stored (mount clk (reload s)) = stored s.
Proof.
  intros Hreach Hne.
  destruct (reachable_storageInSync s Hreach) as [[_ Hnil] | Hsync];
    [contradiction |].
  split; [exact Hsync |].
  unfold mount.
  change (localStorage_getItem (reload s)) with (localStorage_getItem s).
  rewrite Hsync. split; reflexivity.
Qed.

(** ** The intervals grow with the box *)

Lemma daysToAdd_below_table (newBox : Z) : newBox <= 0 -> daysToAdd newBox = 1.
Proof.
  intros H. unfold daysToAdd, array_get.
  assert (E : (newBox - 1 <? 0) = true) by (apply Z.ltb_lt; lia).
  now rewrite E.
Qed.

Lemma daysToAdd_monotone (b1 b2 : Z) :
  b1 <= b2 <= 6 -> daysToAdd b1 <= daysToAdd b2.
Proof.
  intros H.
  destruct (Z_le_gt_dec b1 0) as [H1 | H1].
  - rewrite (daysToAdd_below_table b1 H1).
    apply (daysToAdd_positive (constClock 0)).
  - assert (E1 : b1 = 1 \/ b1 = 2 \/ b1 = 3 \/ b1 = 4 \/ b1 = 5 \/ b1 = 6)
      by lia.
    assert (E2 : b2 = 1 \/ b2 = 2 \/ b2 = 3 \/ b2 = 4 \/ b2 = 5 \/ b2 = 6)
      by lia.
    destruct E1 as [E1 | [E1 | [E1 | [E1 | [E1 | E1]]]]];
      destruct E2 as [E2 | [E2 | [E2 | [E2 | [E2 | E2]]]]];
      subst b1 b2; try lia; vm_compute; discriminate.
Qed.

(** X4. A success from a higher box never gives a lower box nor an earlier
    review than a success from a lower box at the same clock reading, for
    any two boxes (also outside 0 .. 6). *)
Theorem scheduler_monotone (clk : Clock) (box1 box2 : Z) :
  box1 <= box2 ->
  fst (scheduler clk box1 true) <= fst (scheduler clk box2 true)
  /\ snd (scheduler clk box1 true) <= snd (scheduler clk box2 true).
Proof.
  intros H. rewrite !scheduler_success_eq. simpl. split; [lia |].
  assert (daysToAdd (Z.min (box1 + 1) 6) <= daysToAdd (Z.min (box2 + 1) 6))
    by (apply daysToAdd_monotone; lia).
  lia.
Qed.

(** X5. The Good button prints the number of days that a success adds. *)
Theorem good_button_shows_interval (clk : Clock) (s : State) (cur : FlashCard) :
  currentCard s = Some cur ->
  exists s',
    handleReviewResult clk true s = Some s'
    /\ Forall (fun c => id c = id cur ->
                        nextReview c
                        = clk 1%nat + goodButtonDays cur * 86400000)
         (cards s').
Proof.
  intros Hc.
  destruct (handleReviewResult_cards clk true s cur Hc)
    as (s' & Hs' & Hcards & _).
  exists s'. split; [exact Hs' |]. rewrite Hcards.
  rewrite scheduler_success_eq. simpl.
  unfold updatedCards. apply Forall_map, Forall_forall. intros c _.
  destruct (String.eqb_spec (id c) (id cur)) as [E | E]; simpl.
  - intros _. reflexivity.
  - intros E'. contradiction.
Qed.

(** ** A finished session clears the due cards *)

Lemma act_dueAhead (now : Z) (a : Action) (s s' : State) :
  noQuit [a] = true ->
  outcomesFrom now [a] ->
  act a s = Some s' ->
  dueAhead now s -> dueAhead now s'.
Proof.
  intros Hq Hfrom Hact Hdue. unfold act in Hact.
  destruct (view s); try discriminate.
  destruct a as [| clk success |]; [| | discriminate].
  - injection Hact as <-. exact Hdue.
  - destruct (handleReviewResult_defined _ _ _ _ Hact) as [cur Hcur].
    assert (Hlt : (currentCardIndex s < List.length (reviewQueue s))%nat)
      by (apply nth_error_Some; unfold currentCard in Hcur; congruence).
    assert (Hnow : now <= clk 1%nat) by (now inversion Hfrom).
    assert (Hkeep : forall c',
               In c' (updatedCards cur
                        (fst (scheduler clk (box cur) success))
                        (snd (scheduler clk (box cur) success)) (cards s)) ->
               nextReview c' <= now ->
               isReviewing s = true
               /\ In (id c')
                    (map id (skipn (S (currentCardIndex s)) (reviewQueue s)))).
    { intros c' Hin Hle. unfold updatedCards in Hin.
      apply in_map_iff in Hin. destruct Hin as (c & Hc' & Hin).
      destruct (String.eqb_spec (id c) (id cur)) as [E | E]; subst c'.
      - exfalso. simpl in Hle.
        pose proof (scheduler_next_day clk (box cur) success). lia.
      - destruct (Hdue c Hin Hle) as [Hr Hahead]. split; [exact Hr |].
        unfold currentCard in Hcur.
        rewrite (skipn_nth_error _ _ _ Hcur) in Hahead. simpl in Hahead.
        destruct Hahead as [Hsame | Hahead]; [| exact Hahead].
        exfalso. apply E. now symmetry. }
    rewrite (handleReviewResult_eq _ _ _ _ Hcur) in Hact. cbv zeta in Hact.
    unfold len in Hact.
    destruct (_ <? _) eqn:E; injection Hact as <-; intros c' Hin Hle;
      simpl in Hin; destruct (Hkeep c' Hin Hle) as [Hr Hahead].
    + split; [exact Hr | exact Hahead].
    + exfalso. apply Z.ltb_ge in E.
      rewrite skipn_all2 in Hahead; [exact Hahead | lia].
Qed.

Lemma run_dueAhead (now : Z) (actions : list Action) :
  forall s s',
    noQuit actions = true ->
    outcomesFrom now actions ->
    run actions s = Some s' ->
    dueAhead now s -> dueAhead now s'.
Proof.
  induction actions as [| a rest IH]; simpl; intros s s' Hq Hfrom Hrun Hdue.
  - now injection Hrun as <-.
  - destruct (act a s) as [s1 |] eqn:Ha; [| discriminate].
    inversion Hfrom as [| ? ? Ha1 Hrest]; subst.
    apply (IH s1 s'); try assumption.
    + now destruct a.
    + apply (act_dueAhead now a s s1); try assumption.
      * now destruct a.
      * constructor; [exact Ha1 | constructor].
Qed.

Lemma filter_none {A : Type} (p : A -> bool) (l : list A) :
  (forall x, In x l -> p x = false) -> filter p l = [].
Proof.
  induction l as [| x rest IH]; simpl; intros H; [reflexivity |].
  rewrite (H x (or_introl eq_refl)). apply IH. intros y Hy. apply H. now right.
Qed.

(** X6. A session started at a clock reading [now] and carried through to its
    last card, with every outcome recorded at [now] or later, ends with no
    card of the deck due at [now]: the dashboard counts zero due cards and a
    new session started at [now] has an empty queue.  Identifiers need not be
    unique. *)
Theorem finished_session_leaves_nothing_due (now : Z) (s0 : State)
  (actions : list Action) (clk : Clock) (success : bool) :
  view s0 = Dashboard ->
  noQuit actions = true ->
  S (outcomes actions)
  = List.length (reviewQueue (startReview (constClock now) s0)) ->
  outcomesFrom now (actions ++ [Outcome clk success]) ->
  exists s',
    run (actions ++ [Outcome clk success]) (startReview (constClock now) s0)
    = Some s'
    /\ view s' = Dashboard
    /\ (forall c, In c (cards s') -> now < nextReview c)
    /\ dueCards (stats (constClock now) s') = 0
    /\ reviewQueue (startReview (constClock now) s') = [].
Proof.
  intros Hd Hq Hn Hfrom.
  set (s := startReview (constClock now) s0) in *.
  assert (Hv : view s = Review 0 false)
    by (apply startReview_view; [exact Hd | fold s; lia]).
  destruct (run_outcomes actions s 0 false Hv Hq) as
    (s1 & r & Hrun & Hv1 & Hq1 & _ & _); [lia |].
  simpl in Hv1.
  destruct (outcome_step clk success s1 (outcomes actions) r Hv1)
    as (s' & cur & _ & Hact & _ & _ & _ & _ & _ & Hlast);
    [rewrite Hq1; lia |].
  destruct Hlast as [Hdash Hrev]; [rewrite Hq1; exact Hn |].
  assert (Hrun' : run (actions ++ [Outcome clk success]) s = Some s')
    by (rewrite run_app, Hrun; simpl; now rewrite Hact).
  assert (Hstart : dueAhead now s).
  { intros c Hin Hle. split; [reflexivity |].
    change (currentCardIndex s) with 0%nat. simpl skipn. apply in_map.
    apply (Permutation_in _
             (Permutation_sym (startReview_queue_permutation now s0))).
    apply filter_In. split; [exact Hin | now apply Z.leb_le]. }
  assert (Hend : dueAhead now s').
  { apply (run_dueAhead now (actions ++ [Outcome clk success]) s s');
      try assumption.
    clear -Hq. induction actions as [| a rest IH]; [reflexivity |].
    destruct a; simpl in *; try discriminate; now apply IH. }
  assert (Hnone : forall c, In c (cards s') -> now < nextReview c).
  { intros c Hin. destruct (Z_lt_le_dec now (nextReview c)) as [H | H];
      [exact H |].
    destruct (Hend c Hin H) as [Hr _]. congruence. }
  assert (Hfilter : filter (fun c => nextReview c <=? now) (cards s') = []).
  { apply filter_none. intros c Hin. apply Z.leb_gt. now apply Hnone. }
  exists s'. split; [exact Hrun' | split; [exact Hdash | split; [exact Hnone |]]].
  split.
  - unfold stats. simpl. now rewrite due_constClock, Hfilter.
  - now rewrite startReview_queue, due_constClock, Hfilter.
Qed.

(** ** Generating cards *)

Lemma newCards_from_length (clk : Clock) (rand : nat -> string)
  (newCardsData : list CardData) :
  forall k, List.length (newCards_from clk rand k newCardsData)
            = List.length newCardsData.
Proof.
  induction newCardsData as [| d rest IH]; intros k; simpl;
    [reflexivity | now rewrite IH].
Qed.

Lemma newCards_from_ids (clk : Clock) (rand : nat -> string)
  (newCardsData : list CardData) :
  forall k, map id (newCards_from clk rand k newCardsData)
            = map rand (seq k (List.length newCardsData)).
Proof.
  induction newCardsData as [| d rest IH]; intros k; simpl;
    [reflexivity | now rewrite IH].
Qed.

Lemma newCards_from_data (clk : Clock) (rand : nat -> string)
  (newCardsData : list CardData) :
  forall k, map (fun c => mkCardData (front c) (back c) (topic c))
              (newCards_from clk rand k newCardsData)
            = newCardsData.
Proof.
  induction newCardsData as [| d rest IH]; intros k; simpl;
    [reflexivity |].
  rewrite IH. now destruct d.
Qed.

(** X7. A generation with an empty trimmed topic does nothing; one whose
    provider throws leaves the deck, the storage and the typed topic as they
    were; a successful one keeps every card of the deck in place, appends
    one card per record (its texts those of the record, at box 0) and writes
    the new deck to the storage once. *)
Theorem handleGenerate_extends_deck (trim : string -> string) (clk : Clock)
  (rand : nat -> string) (s : State) :
  (trim (topicInput s) = EmptyString ->
   forall response, handleGenerate trim clk rand response s = s)
  /\ (trim (topicInput s) <> EmptyString ->
      let failed := handleGenerate trim clk rand None s in
      cards failed = cards s
      /\ stored failed = stored s
      /\ topicInput failed = topicInput s
      /\ showGenerateModal failed = showGenerateModal s)
  /\ (trim (topicInput s) <> EmptyString ->
      forall newCardsData,
        let s' := handleGenerate trim clk rand (Some newCardsData) s in
        exists newCards,
          cards s' = cards s ++ newCards
          /\ map (fun c => mkCardData (front c) (back c) (topic c)) newCards
             = newCardsData
          /\ Forall (fun c => box c = 0) newCards
          /\ stored s' = (cards s ++ newCards) :: stored s
          /\ topicInput s' = EmptyString
          /\ showGenerateModal s' = false
          /\ reviewQueue s' = reviewQueue s).
Proof.
  unfold handleGenerate. split; [| split].
  - intros E response. now rewrite E.
  - intros E. apply String.eqb_neq in E. rewrite E. simpl. repeat split.
  - intros E newCardsData. apply String.eqb_neq in E. rewrite E. simpl.
    exists (newCards_from clk rand 0 newCardsData).
    split; [reflexivity |]. split; [apply newCards_from_data |].
    split; [apply newCards_from_boxes |]. repeat split.
Qed.

(** X8. When the identifiers drawn for the new cards are pairwise different and
    none of them is in the deck, a generation keeps the identifiers of the
    deck unique. *)
Theorem handleGenerate_keeps_ids_unique (trim : string -> string)
  (clk : Clock) (rand : nat -> string)
  (response : option (list CardData)) (s : State) :
  uniqueIds (cards s) ->
  (forall newCardsData, response = Some newCardsData ->
     NoDup (map rand (seq 0 (List.length newCardsData)))
     /\ forall k, (k < List.length newCardsData)%nat ->
                  ~ In (rand k) (map id (cards s))) ->
  uniqueIds (cards (handleGenerate trim clk rand response s)).
Proof.
  intros Hu Hfresh. unfold handleGenerate.
  destruct (String.eqb _ _); [exact Hu |].
  destruct response as [newCardsData |]; [| exact Hu].
  destruct (Hfresh newCardsData eq_refl) as [Hnd Hnew].
  unfold uniqueIds in *. simpl.
  rewrite map_app, newCards_from_ids.
  apply NoDup_app; [exact Hu | exact Hnd |].
  intros i Hin Hin'. apply in_map_iff in Hin'.
  destruct Hin' as (k & <- & Hk). apply in_seq in Hk.
  apply (Hnew k); [lia | exact Hin].
Qed.

Lemma newCards_from_due (clk : Clock) (rand : nat -> string) (now : Z)
  (newCardsData : list CardData) :
  (forall k, clk k <= now) ->
  forall k, Forall (fun c => nextReview c <= now)
              (newCards_from clk rand k newCardsData).
Proof.
  intros Hclk. induction newCardsData as [| d rest IH]; intros k; simpl;
    constructor; [apply Hclk | apply IH].
Qed.

(** X9. Generated cards are due at once: a session started at a clock reading
    not earlier than the readings of the generation has every new card in
    its queue. *)
Theorem generated_cards_are_due (trim : string -> string) (clk : Clock)
  (rand : nat -> string) (newCardsData : list CardData) (now : Z)
  (s : State) :
  trim (topicInput s) <> EmptyString ->
  (forall k, clk k <= now) ->
  let s' := handleGenerate trim clk rand (Some newCardsData) s in
  List.length (cards s')
  = (List.length (cards s) + List.length newCardsData)%nat
  /\ forall c, In c (skipn (List.length (cards s)) (cards s')) ->
               In c (reviewQueue (startReview (constClock now) s')).
Proof.
  intros E Hclk s'.
  assert (Hcards : cards s' = cards s ++ newCards_from clk rand 0 newCardsData).
  { unfold s', handleGenerate. apply String.eqb_neq in E. now rewrite E. }
  split; [now rewrite Hcards, length_app, newCards_from_length |].
  intros c Hin.
  rewrite Hcards, skipn_app, Nat.sub_diag, skipn_all in Hin. simpl in Hin.
  apply (Permutation_in _
           (Permutation_sym (startReview_queue_permutation now s'))).
  apply filter_In. split; [rewrite Hcards; apply in_or_app; now right |].
  apply Z.leb_le.
  apply (proj1 (Forall_forall _ _)
           (newCards_from_due clk rand now newCardsData Hclk 0%nat)), Hin.
Qed.

(** * The quiz: answers as an object *)

Lemma get_set_same (answers : Quiz.UserAnswers) (k v : Z) :
  Quiz.get (Quiz.set answers k v) k = Some v.
Proof.
  induction answers as [| [k' v'] rest IH]; simpl.
  - now rewrite Z.eqb_refl.
  - destruct (k <? k') eqn:Hlt; simpl; [now rewrite Z.eqb_refl |].
    destruct (k =? k') eqn:Heq; simpl; [now rewrite Z.eqb_refl |].
    rewrite Z.eqb_sym, Heq. exact IH.
Qed.

Lemma get_set_other (answers : Quiz.UserAnswers) (k v k2 : Z) :
  k2 <> k -> Quiz.get (Quiz.set answers k v) k2 = Quiz.get answers k2.
Proof.
  intros Hne. apply Z.eqb_neq in Hne. rewrite Z.eqb_sym in Hne.
  induction answers as [| [k' v'] rest IH]; simpl.
  - now rewrite Hne.
  - destruct (k <? k') eqn:Hlt; simpl; [now rewrite Hne |].
    destruct (k =? k') eqn:Heq; simpl.
    + apply Z.eqb_eq in Heq. subst k'. now rewrite Hne.
    + now rewrite IH.
Qed.

Lemma get_delete_same (answers : Quiz.UserAnswers) (k : Z) :
  Quiz.get (Quiz.delete answers k) k = None.
Proof.
  unfold Quiz.delete.
  induction answers as [| [k' v'] rest IH]; simpl; [reflexivity |].
  destruct (k' =? k) eqn:E; simpl; [exact IH | now rewrite E].
Qed.

Lemma get_delete_other (answers : Quiz.UserAnswers) (k k2 : Z) :
  k2 <> k -> Quiz.get (Quiz.delete answers k) k2 = Quiz.get answers k2.
Proof.
  intros Hne. unfold Quiz.delete.
  induction answers as [| [k' v'] rest IH]; simpl; [reflexivity |].
  destruct (k' =? k) eqn:E; simpl.
  - apply Z.eqb_eq in E. subst k'.
    assert (E2 : (k =? k2) = false) by (apply Z.eqb_neq; congruence).
    now rewrite E2.
  - now rewrite IH.
Qed.

Lemma get_Some_key (answers : Quiz.UserAnswers) (k : Z) :
  (exists v, Quiz.get answers k = Some v) <-> In k (Quiz.keys answers).
Proof.
  unfold Quiz.keys.
  induction answers as [| [k' v'] rest IH]; simpl.
  - split; [intros [v H]; discriminate | contradiction].
  - destruct (Z.eqb_spec k' k) as [E | E].
    + split; [now left | intros _; now exists v'].
    + rewrite IH. split; [now right | intros [H | H]; [contradiction | exact H]].
Qed.

Lemma keys_set (answers : Quiz.UserAnswers) (k v : Z) (n : Z) :
  StronglySorted Z.lt (Quiz.keys answers) ->
  StronglySorted Z.lt (Quiz.keys (Quiz.set answers k v))
  /\ (forall x, In x (Quiz.keys (Quiz.set answers k v))
                <-> x = k \/ In x (Quiz.keys answers)).
Proof.
  unfold Quiz.keys.
  induction answers as [| [k' v'] rest IH]; simpl; intros Hs.
  - split; [repeat constructor | intros x; intuition].
  - inversion Hs as [| ? ? Hrest Hall]; subst.
    destruct (k <? k') eqn:Hlt; simpl.
    + apply Z.ltb_lt in Hlt. split.
      * constructor; [exact Hs |]. constructor; [exact Hlt |].
        eapply Forall_impl; [| exact Hall]. intros x Hx. simpl in Hx. lia.
      * intros x. intuition.
    + apply Z.ltb_ge in Hlt. destruct (Z.eqb_spec k k') as [E | E]; simpl.
      * subst k'. split; [exact Hs | intros x; intuition].
      * destruct (IH Hrest) as [IHs IHin]. split.
        -- constructor; [exact IHs |].
           apply Forall_forall. intros x Hx. apply IHin in Hx.
           destruct Hx as [-> | Hx]; [lia |].
           apply (proj1 (Forall_forall _ _) Hall x Hx).
        -- intros x. rewrite IHin. intuition.
Qed.

Lemma keys_delete (answers : Quiz.UserAnswers) (k : Z) :
  StronglySorted Z.lt (Quiz.keys answers) ->
  StronglySorted Z.lt (Quiz.keys (Quiz.delete answers k))
  /\ (forall x, In x (Quiz.keys (Quiz.delete answers k)) ->
                In x (Quiz.keys answers)).
Proof.
  unfold Quiz.keys, Quiz.delete.
  induction answers as [| [k' v'] rest IH]; simpl; intros Hs.
  - split; [constructor | contradiction].
  - inversion Hs as [| ? ? Hrest Hall]; subst.
    destruct (IH Hrest) as [IHs IHin].
    destruct (k' =? k); simpl.
    + split; [exact IHs | intros x Hx; right; now apply IHin].
    + split.
      * constructor; [exact IHs |].
        apply Forall_forall. intros x Hx.
        apply (proj1 (Forall_forall _ _) Hall x (IHin x Hx)).
      * intros x [Hx | Hx]; [now left | right; now apply IHin].
Qed.

(** A strictly ascending list of integers of an interval is no longer than
    the interval, and fills it when it is as long. *)
Lemma ascending_in_interval (l : list Z) :
  forall lo hi,
    StronglySorted Z.lt l ->
    Forall (fun k => lo <= k < hi) l ->
    len l <= Z.max 0 (hi - lo)
    /\ (len l = hi - lo -> forall k, lo <= k < hi -> In k l).
Proof.
  unfold len. induction l as [| x rest IH]; intros lo hi Hs Hall; simpl List.length.
  - split; [lia |]. intros E k Hk. simpl in E. lia.
  - inversion Hs as [| ? ? Hrest Hgt]; subst.
    inversion Hall as [| ? ? Hx Hrange]; subst.
    assert (Hrange' : Forall (fun k => x + 1 <= k < hi) rest).
    { apply Forall_forall. intros k Hk.
      pose proof (proj1 (Forall_forall _ _) Hgt k Hk).
      pose proof (proj1 (Forall_forall _ _) Hrange k Hk). simpl in *. lia. }
    destruct (IH (x + 1) hi Hrest Hrange') as [IHlen IHfull].
    split; [lia |].
    intros E k Hk.
    assert (x = lo) by lia. subst x.
    destruct (Z.eq_dec k lo) as [-> | Hne]; [now left | right].
    apply IHfull; lia.
Qed.

Lemma has_In (set : list Z) (k : Z) : Quiz.has set k = true <-> In k set.
Proof.
  unfold Quiz.has. rewrite existsb_exists. split.
  - intros (x & Hin & E). apply Z.eqb_eq in E. now subst.
  - intros Hin. exists k. split; [exact Hin | apply Z.eqb_refl].
Qed.

Lemma remove_In (set : list Z) (k x : Z) :
  In x (Quiz.remove set k) <-> In x set /\ x <> k.
Proof.
  unfold Quiz.remove. rewrite filter_In, negb_true_iff, Z.eqb_neq.
  reflexivity.
Qed.

(** * The quiz runner *)

Section QuizRunnerFacts.

Variable questions : list Quiz.Question.
Variable mode : QuizMode.

Lemma quiz_run_app (l1 l2 : list QuizRunner.Action) :
  forall s, (QuizRunner.run questions mode) (l1 ++ l2) s
            = match (QuizRunner.run questions mode) l1 s with Some s1 => (QuizRunner.run questions mode) l2 s1 | None => None end.
Proof.
  induction l1 as [| a rest IH]; simpl; intros s; [reflexivity |].
  destruct (QuizRunner.mounted s); [| reflexivity].
  destruct ((QuizRunner.handle questions mode) a s); [apply IH | reflexivity].
Qed.

Lemma quiz_run_last (l : list QuizRunner.Action) (a : QuizRunner.Action)
  (s0 s : QuizRunner.State) :
  (QuizRunner.run questions mode) (l ++ [a]) s0 = Some s ->
  exists s1, (QuizRunner.run questions mode) l s0 = Some s1
             /\ QuizRunner.mounted s1 = true
             /\ (QuizRunner.handle questions mode) a s1 = Some s.
Proof.
  rewrite quiz_run_app. destruct ((QuizRunner.run questions mode) l s0) as [s1 |]; [| discriminate].
  simpl. destruct (QuizRunner.mounted s1) eqn:Hm; [| discriminate].
  destruct ((QuizRunner.handle questions mode) a s1) as [s2 |] eqn:Hh;
    [| discriminate].
  intros [= <-]. exists s1. repeat split; assumption.
Qed.

(** Induction over the runs from a state, one action at the end at a
    time. *)
Lemma quiz_run_ind (P : list QuizRunner.Action -> QuizRunner.State -> Prop)
  (s0 : QuizRunner.State) :
  P [] s0 ->
  (forall l s1 a s,
      (QuizRunner.run questions mode) l s0 = Some s1 -> P l s1 ->
      QuizRunner.mounted s1 = true -> (QuizRunner.handle questions mode) a s1 = Some s ->
      P (l ++ [a]) s) ->
  forall l s, (QuizRunner.run questions mode) l s0 = Some s -> P l s.
Proof.
  intros H0 Hstep l. induction l as [| a l IH] using rev_ind; intros s Hrun.
  - simpl in Hrun. now injection Hrun as <-.
  - destruct (quiz_run_last l a s0 s Hrun) as (s1 & Hrun1 & Hm & Hh).
    eapply Hstep; eauto.
Qed.

Lemma quiz_allowed_app (l1 l2 : list QuizRunner.Action) :
  forall s, (QuizRunner.allowed questions mode) (l1 ++ l2) s
            = match (QuizRunner.run questions mode) l1 s with
              | Some s1 => (QuizRunner.allowed questions mode) l1 s && (QuizRunner.allowed questions mode) l2 s1
              | None => false
              end.
Proof.
  induction l1 as [| a rest IH]; simpl; intros s; [reflexivity |].
  destruct (QuizRunner.mounted s); simpl; [| reflexivity].
  destruct ((QuizRunner.handle questions mode) a s) as [s1 |]; [| now rewrite andb_false_r].
  rewrite IH. destruct ((QuizRunner.run questions mode) rest s1); [| now rewrite andb_false_r].
  now rewrite andb_assoc.
Qed.

Lemma quiz_allowed_run (l : list QuizRunner.Action) :
  forall s, (QuizRunner.allowed questions mode) l s = true -> exists s', (QuizRunner.run questions mode) l s = Some s'.
Proof.
  induction l as [| a rest IH]; simpl; intros s H; [now exists s |].
  destruct (QuizRunner.mounted s); [| discriminate].
  destruct ((QuizRunner.handle questions mode) a s) as [s1 |]; [| now rewrite andb_false_r in H].
  apply IH. apply andb_true_iff in H. apply H.
Qed.

(** Induction over the runs that the user interface allows. *)
Lemma quiz_allowed_ind
  (P : list QuizRunner.Action -> QuizRunner.State -> Prop)
  (s0 : QuizRunner.State) :
  P [] s0 ->
  (forall l s1 a s,
      (QuizRunner.run questions mode) l s0 = Some s1 -> P l s1 ->
      QuizRunner.mounted s1 = true -> (QuizRunner.enabled questions mode) a s1 = true ->
      (QuizRunner.handle questions mode) a s1 = Some s ->
      P (l ++ [a]) s) ->
  forall l s, (QuizRunner.allowed questions mode) l s0 = true -> (QuizRunner.run questions mode) l s0 = Some s -> P l s.
Proof.
  intros H0 Hstep l. induction l as [| a l IH] using rev_ind;
    intros s Hall Hrun.
  - simpl in Hrun. now injection Hrun as <-.
  - destruct (quiz_run_last l a s0 s Hrun) as (s1 & Hrun1 & Hm & Hh).
    rewrite quiz_allowed_app, Hrun1 in Hall.
    apply andb_true_iff in Hall. destruct Hall as [Hl Ha].
    simpl in Ha. rewrite Hm in Ha. simpl in Ha.
    apply andb_true_iff in Ha. destruct Ha as [Hen _].
    eapply Hstep; eauto.
Qed.

Lemma handleSubmit_fields (s : QuizRunner.State) :
  let s' := QuizRunner.handleSubmit mode s in
  QuizRunner.currentQuestionIndex s' = QuizRunner.currentQuestionIndex s
  /\ QuizRunner.answers s' = QuizRunner.answers s
  /\ QuizRunner.bookmarks s' = QuizRunner.bookmarks s
  /\ QuizRunner.secondsLeft s' = QuizRunner.secondsLeft s
  /\ QuizRunner.isSubmitting s' = true.
Proof. repeat split. Qed.

Ltac inv_done :=
  repeat split; try assumption; try lia;
  try (simpl; assumption); try (simpl; lia).

Lemma handle_quizInvariant (a : QuizRunner.Action) (s s' : QuizRunner.State) :
  quizInvariant questions s -> (QuizRunner.handle questions mode) a s = Some s' ->
  quizInvariant questions s'.
Proof.
  intros (Hidx & (Hsorted & Hkeys) & Hnd & Hbm & Hsec) Hh.
  unfold quizInvariant, answersInRange.
  destruct a; simpl in Hh.
  - (* an option *)
    unfold QuizRunner.handleOptionSelect in Hh.
    destruct (QuizRunner.isSubmitting s);
      [injection Hh as <-; inv_done |].
    destruct (_ && _);
      [injection Hh as <-; inv_done |].
    destruct (keys_set (QuizRunner.answers s)
                (QuizRunner.currentQuestionIndex s) optionIndex 0 Hsorted)
      as [Hs' Hin'].
    assert (Hk' : Forall (fun k => 0 <= k < len questions)
                    (Quiz.keys (Quiz.set (QuizRunner.answers s)
                                  (QuizRunner.currentQuestionIndex s)
                                  optionIndex))).
    { apply Forall_forall. intros x Hx. apply Hin' in Hx.
      destruct Hx as [-> | Hx]; [exact Hidx |].
      apply (proj1 (Forall_forall _ _) Hkeys x Hx). }
    destruct mode;
      try (injection Hh as <-; simpl; inv_done).
    destruct (QuizRunner.currentQuestion questions s); [| discriminate].
    destruct (negb _); injection Hh as <-; simpl; inv_done.
  - (* the bookmark *)
    injection Hh as <-. unfold QuizRunner.toggleBookmark. simpl.
    destruct (Quiz.has _ _) eqn:Hhas.
    + repeat split; try assumption; try lia.
      * unfold Quiz.remove. now apply NoDup_filter.
      * apply Forall_forall. intros x Hx. apply remove_In in Hx.
        apply (proj1 (Forall_forall _ _) Hbm x (proj1 Hx)).
    + repeat split; try assumption; try lia.
      * apply NoDup_app; [exact Hnd | repeat constructor; intros [] |].
        intros x Hx [<- | []].
        apply has_In in Hx. congruence.
      * apply Forall_app. split; [exact Hbm | now repeat constructor].
  - (* next *)
    injection Hh as <-. unfold QuizRunner.handleNext.
    destruct (QuizRunner.isSubmitting s); [inv_done |].
    destruct (_ <? _) eqn:E.
    + apply Z.ltb_lt in E. simpl. inv_done.
    + destruct mode; inv_done.
  - (* skip *)
    injection Hh as <-. unfold QuizRunner.handleSkip.
    destruct (QuizRunner.isSubmitting s); [inv_done |].
    destruct (keys_delete (QuizRunner.answers s)
                (QuizRunner.currentQuestionIndex s) Hsorted) as [Hs' Hin'].
    assert (Hk' : Forall (fun k => 0 <= k < len questions)
                    (Quiz.keys (Quiz.delete (QuizRunner.answers s)
                                  (QuizRunner.currentQuestionIndex s)))).
    { apply Forall_forall. intros x Hx.
      apply (proj1 (Forall_forall _ _) Hkeys x (Hin' x Hx)). }
    assert (Hb' : NoDup (Quiz.add (QuizRunner.bookmarks s)
                           (QuizRunner.currentQuestionIndex s))
                  /\ Forall (fun k => 0 <= k < len questions)
                       (Quiz.add (QuizRunner.bookmarks s)
                          (QuizRunner.currentQuestionIndex s))).
    { unfold Quiz.add. destruct (Quiz.has _ _) eqn:Hhas; [now split |].
      split.
      - apply NoDup_app; [exact Hnd | repeat constructor; intros [] |].
        intros x Hx [<- | []]. apply has_In in Hx. congruence.
      - apply Forall_app. split; [exact Hbm | now repeat constructor]. }
    destruct Hb' as [Hnd' Hbm'].
    destruct (negb _); destruct (_ <? _) eqn:E; simpl;
      try apply Z.ltb_lt in E; inv_done.
  - (* previous *)
    injection Hh as <-. unfold QuizRunner.handlePrev.
    destruct (QuizRunner.isSubmitting s); [inv_done |].
    destruct (_ >? _) eqn:E; [| inv_done].
    apply Z.gtb_lt in E. simpl. inv_done.
  - (* finish *)
    injection Hh as <-. unfold QuizRunner.handleFinishClick.
    destruct (_ && _); inv_done.
  - injection Hh as <-. inv_done.
  - injection Hh as <-. inv_done.
  - injection Hh as <-. inv_done.
  - injection Hh as <-. inv_done.
  - (* the timer *)
    injection Hh as <-. unfold QuizRunner.timer, QuizRunner.handleTimeUp.
    destruct mode; try solve [inv_done].
    unfold Timer.effect. destruct (_ <=? _) eqn:E.
    + inv_done.
    + apply Z.leb_gt in E. simpl. inv_done.
Qed.

Lemma initial_quizInvariant :
  questions <> [] -> quizInvariant questions QuizRunner.initialState.
Proof.
  intros Hne. unfold quizInvariant, answersInRange, len. simpl.
  repeat split; try constructor; try (vm_compute; discriminate).
  destruct questions; [contradiction | simpl List.length; lia].
Qed.

Lemma run_quizInvariant (l : list QuizRunner.Action) (s : QuizRunner.State) :
  questions <> [] ->
  (QuizRunner.run questions mode) l QuizRunner.initialState = Some s -> quizInvariant questions s.
Proof.
  intros Hne.
  apply (quiz_run_ind (fun _ s => quizInvariant questions s)).
  - now apply initial_quizInvariant.
  - intros l' s1 a s2 _ Hinv _ Hh. eapply handle_quizInvariant; eauto.
Qed.

End QuizRunnerFacts.

(** X11. For a quiz with at least one question, after any sequence of handler
    calls from the first render the cursor is the position of a question
    (so the render finds its question), the answers and bookmarks are for
    positions of questions, and selecting an option does not throw. *)
Theorem quiz_cursor_on_a_question (questions : list Quiz.Question)
  (mode : QuizMode) (actions : list QuizRunner.Action)
  (s : QuizRunner.State) :
  questions <> [] ->
  QuizRunner.run questions mode actions QuizRunner.initialState = Some s ->
  quizInvariant questions s
  /\ (exists q,
         QuizRunner.currentQuestion questions s = Some q
         /\ nth_error questions
              (Z.to_nat (QuizRunner.currentQuestionIndex s)) = Some q)
  /\ (forall optionIndex,
         exists s',
           QuizRunner.handleOptionSelect questions mode optionIndex s
           = Some s').
Proof.
  intros Hne Hrun.
  pose proof (run_quizInvariant questions mode actions s Hne Hrun) as Hinv.
  split; [exact Hinv |].
  destruct Hinv as (Hidx & _).
  assert (Hq : exists q,
             QuizRunner.currentQuestion questions s = Some q
             /\ nth_error questions
                  (Z.to_nat (QuizRunner.currentQuestionIndex s)) = Some q).
  { unfold QuizRunner.currentQuestion, array_get.
    assert (E : (QuizRunner.currentQuestionIndex s <? 0) = false)
      by (apply Z.ltb_ge; lia).
    rewrite E.
    destruct (nth_error questions
                (Z.to_nat (QuizRunner.currentQuestionIndex s))) as [q |] eqn:Hn;
      [now exists q |].
    apply nth_error_None in Hn. unfold len in Hidx. lia. }
  split; [exact Hq |].
  destruct Hq as (q & Hq & _). intros optionIndex.
  unfold QuizRunner.handleOptionSelect. rewrite Hq.
  destruct (QuizRunner.isSubmitting s); [now eexists |].
  destruct (_ && _); [now eexists |].
  destruct mode; try (now eexists).
  destruct (negb _); now eexists.
Qed.

Lemma all_answered_iff (questions : list Quiz.Question)
  (answers : Quiz.UserAnswers) :
  answersInRange questions answers ->
  len (Quiz.keys answers) <= len questions
  /\ (len (Quiz.keys answers) = len questions <->
      forall k, 0 <= k < len questions ->
                exists v, Quiz.get answers k = Some v).
Proof.
  intros [Hsorted Hrange].
  destruct (ascending_in_interval (Quiz.keys answers) 0 (len questions)
              Hsorted Hrange) as [Hle Hfull].
  assert (Hpos : 0 <= len questions) by (unfold len; lia).
  split; [lia |]. split.
  - intros E k Hk. apply get_Some_key. apply Hfull; lia.
  - intros Hall.
    assert (Hincl : incl (map Z.of_nat (seq 0 (List.length questions)))
                      (Quiz.keys answers)).
    { intros k Hk. apply in_map_iff in Hk. destruct Hk as (n & <- & Hn).
      apply in_seq in Hn. apply get_Some_key, Hall. unfold len. lia. }
    assert (Hnd : NoDup (map Z.of_nat (seq 0 (List.length questions)))).
    { clear. generalize 0%nat.
      induction (List.length questions) as [| n IH]; intros k; simpl;
        constructor; [| apply IH].
      intros Hin. apply in_map_iff in Hin. destruct Hin as (m & E & Hm).
      apply in_seq in Hm. lia. }
    pose proof (NoDup_incl_length Hnd Hincl) as Hlen.
    rewrite length_map, length_seq in Hlen. unfold len in *. lia.
Qed.

(** X12. In the exam modes, after any sequence of handler calls on a quiz with
    at least one question, a click on Finish opens the confirmation (and
    completes nothing) exactly when some question has no answer; when every
    question has an answer it schedules the completion with the answers on
    screen. *)
Theorem finish_asks_when_unanswered (questions : list Quiz.Question)
  (mode : QuizMode) (actions : list QuizRunner.Action)
  (s : QuizRunner.State) :
  questions <> [] ->
  QuizRunner.isExamMode mode = true ->
  QuizRunner.run questions mode actions QuizRunner.initialState = Some s ->
  let s' := QuizRunner.handleFinishClick questions mode s in
  ((exists k, 0 <= k < len questions
              /\ Quiz.get (QuizRunner.answers s) k = None) ->
   QuizRunner.showUnansweredConfirm s' = true
   /\ QuizRunner.completions s' = QuizRunner.completions s
   /\ QuizRunner.isSubmitting s' = QuizRunner.isSubmitting s)
  /\ ((forall k, 0 <= k < len questions ->
                 exists v, Quiz.get (QuizRunner.answers s) k = Some v) ->
      QuizRunner.isSubmitting s' = true
      /\ exists timeTaken,
           QuizRunner.completions s'
           = QuizRunner.mkCompletion (QuizRunner.After 800)
               (QuizRunner.answers s) timeTaken (QuizRunner.bookmarks s)
             :: QuizRunner.completions s).
Proof.
  intros Hne Hexam Hrun s'.
  destruct (run_quizInvariant questions mode actions s Hne Hrun)
    as (_ & Hans & _).
  destruct (all_answered_iff questions (QuizRunner.answers s) Hans)
    as [Hle Hiff].
  subst s'. unfold QuizRunner.handleFinishClick, QuizRunner.answeredCount.
  rewrite Hexam. simpl andb. split.
  - intros (k & Hk & Hnone).
    assert (E : (len (Quiz.keys (QuizRunner.answers s)) <? len questions)
                = true).
    { apply Z.ltb_lt.
      destruct (Z.eq_dec (len (Quiz.keys (QuizRunner.answers s)))
                  (len questions)) as [E | E]; [| lia].
      destruct (proj1 Hiff E k Hk) as [v Hv]. congruence. }
    rewrite E. repeat split.
  - intros Hall.
    assert (E : (len (Quiz.keys (QuizRunner.answers s)) <? len questions)
                = false).
    { apply Z.ltb_ge. pose proof (proj2 Hiff Hall). lia. }
    rewrite E. split; [reflexivity |]. now eexists.
Qed.

#[local] Arguments Z.add : simpl never.
#[local] Arguments Z.sub : simpl never.
#[local] Arguments Z.opp : simpl never.
#[local] Arguments MAX_TIME_SECONDS : simpl never.

Lemma timerRuns_app (l1 l2 : list QuizRunner.Action) :
  timerRuns (l1 ++ l2) = timerRuns l1 + timerRuns l2.
Proof.
  induction l1 as [| a rest IH]; [reflexivity |].
  rewrite <- app_comm_cons. destruct a; cbn [timerRuns]; rewrite IH; lia.
Qed.

Lemma timerRuns_nonneg (l : list QuizRunner.Action) : 0 <= timerRuns l.
Proof.
  induction l as [| a rest IH]; [simpl; lia |].
  destruct a; cbn [timerRuns]; lia.
Qed.

(** What a handler does to the calls of [onComplete]: nothing, or one more
    call, scheduled, or made directly with the whole time and the answers and
    bookmarks of the state. *)
Lemma handle_completion_shape (questions : list Quiz.Question)
  (mode : QuizMode) (a : QuizRunner.Action) (s1 s : QuizRunner.State) :
  QuizRunner.handle questions mode a s1 = Some s ->
  QuizRunner.completions s = QuizRunner.completions s1
  \/ exists c,
       QuizRunner.completions s = c :: QuizRunner.completions s1
       /\ ((exists ms, QuizRunner.when c = QuizRunner.After ms)
           \/ (QuizRunner.when c = QuizRunner.Directly
               /\ QuizRunner.reportedTime c = MAX_TIME_SECONDS
               /\ QuizRunner.reportedAnswers c = QuizRunner.answers s
               /\ QuizRunner.reportedBookmarks c = QuizRunner.bookmarks s)).
Proof.
  intros Hh.
  assert (Hsub : forall s2,
             QuizRunner.completions s2 = QuizRunner.completions s1 ->
             exists c,
               QuizRunner.completions (QuizRunner.handleSubmit mode s2)
               = c :: QuizRunner.completions s1
               /\ ((exists ms, QuizRunner.when c = QuizRunner.After ms)
                   \/ (QuizRunner.when c = QuizRunner.Directly
                       /\ QuizRunner.reportedTime c = MAX_TIME_SECONDS
                       /\ QuizRunner.reportedAnswers c
                          = QuizRunner.answers (QuizRunner.handleSubmit mode s2)
                       /\ QuizRunner.reportedBookmarks c
                          = QuizRunner.bookmarks
                              (QuizRunner.handleSubmit mode s2)))).
  { intros s2 E. eexists. split; [simpl; rewrite E; reflexivity |].
    left. now eexists. }
  destruct a; simpl in Hh.
  - unfold QuizRunner.handleOptionSelect in Hh.
    destruct (QuizRunner.isSubmitting s1); [injection Hh as <-; now left |].
    destruct (_ && _); [injection Hh as <-; now left |].
    destruct mode; try (injection Hh as <-; now left).
    destruct (QuizRunner.currentQuestion questions s1); [| discriminate].
    destruct (negb _); injection Hh as <-; [| now left].
    right. eexists. split; [reflexivity |]. left. now eexists.
  - injection Hh as <-. now left.
  - injection Hh as <-. unfold QuizRunner.handleNext.
    destruct (QuizRunner.isSubmitting s1); [now left |].
    destruct (_ <? _); [now left |].
    destruct mode; first [now left | right; now apply Hsub].
  - injection Hh as <-. unfold QuizRunner.handleSkip.
    destruct (QuizRunner.isSubmitting s1); [now left |].
    destruct (negb _); destruct (_ <? _); now left.
  - injection Hh as <-. unfold QuizRunner.handlePrev.
    destruct (QuizRunner.isSubmitting s1); [now left |].
    destruct (_ >? _); now left.
  - injection Hh as <-. unfold QuizRunner.handleFinishClick.
    destruct (_ && _); [now left | right; now apply Hsub].
  - injection Hh as <-. right. now apply Hsub.
  - injection Hh as <-. now left.
  - injection Hh as <-. now left.
  - injection Hh as <-. now left.
  - injection Hh as <-. unfold QuizRunner.timer.
    destruct mode; try (now left).
    destruct (Timer.effect _); [| now left].
    right. eexists. split; [reflexivity |]. right. now repeat split.
Qed.

Lemma run_timeUp_reports (questions : list Quiz.Question) (mode : QuizMode)
  (actions : list QuizRunner.Action) (s : QuizRunner.State) :
  QuizRunner.run questions mode actions QuizRunner.initialState = Some s ->
  Forall (fun c => QuizRunner.when c = QuizRunner.Directly ->
                   QuizRunner.reportedTime c = MAX_TIME_SECONDS)
    (QuizRunner.completions s)
  /\ (QuizRunner.mounted s = false ->
      exists c rest,
        QuizRunner.completions s = c :: rest
        /\ QuizRunner.when c = QuizRunner.Directly
        /\ QuizRunner.reportedTime c = MAX_TIME_SECONDS
        /\ QuizRunner.reportedAnswers c = QuizRunner.answers s
        /\ QuizRunner.reportedBookmarks c = QuizRunner.bookmarks s).
Proof.
  revert actions s.
  apply (quiz_run_ind questions mode
           (fun _ s =>
              Forall (fun c => QuizRunner.when c = QuizRunner.Directly ->
                               QuizRunner.reportedTime c = MAX_TIME_SECONDS)
                (QuizRunner.completions s)
              /\ (QuizRunner.mounted s = false ->
                  exists c rest,
                    QuizRunner.completions s = c :: rest
                    /\ QuizRunner.when c = QuizRunner.Directly
                    /\ QuizRunner.reportedTime c = MAX_TIME_SECONDS
                    /\ QuizRunner.reportedAnswers c = QuizRunner.answers s
                    /\ QuizRunner.reportedBookmarks c
                       = QuizRunner.bookmarks s))).
  - split; [constructor | discriminate].
  - intros l s1 a s _ [Hall _] Hm Hh.
    unfold QuizRunner.mounted in *.
    destruct (handle_completion_shape questions mode a s1 s Hh)
      as [E | (c & E & [[ms Hafter] | (Hd & Ht & Ha & Hb)])]; rewrite E.
    + split; [exact Hall | congruence].
    + split.
      * constructor; [congruence | exact Hall].
      * simpl. rewrite Hafter, Hm. discriminate.
    + split.
      * constructor; [intros _; exact Ht | exact Hall].
      * intros _. exists c, (QuizRunner.completions s1). now repeat split.
Qed.

(** X13. In timed mode, after any sequence of handler calls from the first
    render: the timer has run at most [MAX_TIME_SECONDS + 1] times; the time
    left is the whole time less one second per run and never negative; the
    run after the last second ends the quiz by a direct call of
    [onComplete] that reports the whole time with the answers and bookmarks
    on screen, and no other call is direct; every completion reports a time
    between 0 and the whole time; and a submission reports the number of
    seconds that the timer has counted. *)
Theorem timed_quiz_counts_the_seconds (questions : list Quiz.Question)
  (actions : list QuizRunner.Action) (s : QuizRunner.State) :
  QuizRunner.run questions TIMED actions QuizRunner.initialState = Some s ->
  0 <= timerRuns actions <= MAX_TIME_SECONDS + 1
  /\ QuizRunner.secondsLeft s
     = MAX_TIME_SECONDS - Z.min (timerRuns actions) MAX_TIME_SECONDS
  /\ (QuizRunner.mounted s = false <->
      timerRuns actions = MAX_TIME_SECONDS + 1)
  /\ Forall (fun c => 0 <= QuizRunner.reportedTime c <= MAX_TIME_SECONDS)
       (QuizRunner.completions s)
  /\ (QuizRunner.mounted s = true ->
      QuizRunner.completions (QuizRunner.handleSubmit TIMED s)
      = QuizRunner.mkCompletion (QuizRunner.After 800)
          (QuizRunner.answers s) (timerRuns actions) (QuizRunner.bookmarks s)
        :: QuizRunner.completions s)
  /\ Forall (fun c => QuizRunner.when c = QuizRunner.Directly ->
                      QuizRunner.reportedTime c = MAX_TIME_SECONDS)
       (QuizRunner.completions s)
  /\ (QuizRunner.mounted s = false ->
      exists c rest,
        QuizRunner.completions s = c :: rest
        /\ QuizRunner.when c = QuizRunner.Directly
        /\ QuizRunner.reportedTime c = MAX_TIME_SECONDS
        /\ QuizRunner.reportedAnswers c = QuizRunner.answers s
        /\ QuizRunner.reportedBookmarks c = QuizRunner.bookmarks s).
Proof.
  intros Hrun.
  assert (H : Forall (fun c => 0 <= QuizRunner.reportedTime c
                               <= MAX_TIME_SECONDS)
                (QuizRunner.completions s)
              /\ (if QuizRunner.mounted s
                  then QuizRunner.secondsLeft s
                       = MAX_TIME_SECONDS - timerRuns actions
                       /\ timerRuns actions <= MAX_TIME_SECONDS
                  else QuizRunner.secondsLeft s = 0
                       /\ timerRuns actions = MAX_TIME_SECONDS + 1)).
  { revert actions s Hrun.
    apply (quiz_run_ind questions TIMED
             (fun l s =>
                Forall (fun c => 0 <= QuizRunner.reportedTime c
                                 <= MAX_TIME_SECONDS)
                  (QuizRunner.completions s)
                /\ (if QuizRunner.mounted s
                    then QuizRunner.secondsLeft s
                         = MAX_TIME_SECONDS - timerRuns l
                         /\ timerRuns l <= MAX_TIME_SECONDS
                    else QuizRunner.secondsLeft s = 0
                         /\ timerRuns l = MAX_TIME_SECONDS + 1))).
    - simpl. split; [constructor | split; [lia | vm_compute; discriminate]].
    - intros l s1 a s _ [Hall Hif] Hm Hh. rewrite Hm in Hif.
      destruct Hif as [Hsec Hle]. rewrite timerRuns_app.
      pose proof (timerRuns_nonneg l) as Hpos.
      assert (Hsub : forall s2,
                 QuizRunner.secondsLeft s2 = QuizRunner.secondsLeft s1 ->
                 QuizRunner.completions s2 = QuizRunner.completions s1 ->
                 Forall (fun c => 0 <= QuizRunner.reportedTime c
                                  <= MAX_TIME_SECONDS)
                   (QuizRunner.completions (QuizRunner.handleSubmit TIMED s2))
                 /\ QuizRunner.mounted (QuizRunner.handleSubmit TIMED s2)
                    = true
                 /\ QuizRunner.secondsLeft (QuizRunner.handleSubmit TIMED s2)
                    = QuizRunner.secondsLeft s1).
      { intros s2 E1 E2. unfold QuizRunner.handleSubmit, QuizRunner.mounted.
        simpl. rewrite E1, E2. split; [| split; [exact Hm | reflexivity]].
        constructor; [simpl; lia | exact Hall]. }
      assert (Hkeep : forall s2,
                 QuizRunner.secondsLeft s2 = QuizRunner.secondsLeft s1 ->
                 QuizRunner.completions s2 = QuizRunner.completions s1 ->
                 Forall (fun c => 0 <= QuizRunner.reportedTime c
                                  <= MAX_TIME_SECONDS)
                   (QuizRunner.completions s2)
                 /\ (if QuizRunner.mounted s2
                     then QuizRunner.secondsLeft s2
                          = MAX_TIME_SECONDS - (timerRuns l + 0)
                          /\ timerRuns l + 0 <= MAX_TIME_SECONDS
                     else QuizRunner.secondsLeft s2 = 0
                          /\ timerRuns l + 0 = MAX_TIME_SECONDS + 1)).
      { intros s2 E1 E2. unfold QuizRunner.mounted. rewrite E1, E2.
        fold (QuizRunner.mounted s1). rewrite Hm.
        split; [exact Hall | split; lia]. }
      assert (Hkeep' : forall s2,
                 QuizRunner.secondsLeft s2 = QuizRunner.secondsLeft s1 ->
                 QuizRunner.completions s2 = QuizRunner.completions s1 ->
                 let s3 := QuizRunner.handleSubmit TIMED s2 in
                 Forall (fun c => 0 <= QuizRunner.reportedTime c
                                  <= MAX_TIME_SECONDS)
                   (QuizRunner.completions s3)
                 /\ (if QuizRunner.mounted s3
                     then QuizRunner.secondsLeft s3
                          = MAX_TIME_SECONDS - (timerRuns l + 0)
                          /\ timerRuns l + 0 <= MAX_TIME_SECONDS
                     else QuizRunner.secondsLeft s3 = 0
                          /\ timerRuns l + 0 = MAX_TIME_SECONDS + 1)).
      { intros s2 E1 E2 s3. destruct (Hsub s2 E1 E2) as (H1 & H2 & H3).
        subst s3. rewrite H2, H3. split; [exact H1 | split; lia]. }
      destruct a; simpl in Hh; cbn [timerRuns].
      + unfold QuizRunner.handleOptionSelect in Hh.
        destruct (QuizRunner.isSubmitting s1);
          [injection Hh as <-; now apply Hkeep |].
        destruct (_ && _); injection Hh as <-; now apply Hkeep.
      + injection Hh as <-. now apply Hkeep.
      + injection Hh as <-. unfold QuizRunner.handleNext.
        destruct (QuizRunner.isSubmitting s1); [now apply Hkeep |].
        destruct (_ <? _); now apply Hkeep.
      + injection Hh as <-. unfold QuizRunner.handleSkip.
        destruct (QuizRunner.isSubmitting s1); [now apply Hkeep |].
        destruct (negb _); destruct (_ <? _); now apply Hkeep.
      + injection Hh as <-. unfold QuizRunner.handlePrev.
        destruct (QuizRunner.isSubmitting s1); [now apply Hkeep |].
        destruct (_ >? _); now apply Hkeep.
      + injection Hh as <-. unfold QuizRunner.handleFinishClick.
        destruct (_ && _); [now apply Hkeep | now apply Hkeep'].
      + injection Hh as <-. now apply Hkeep'.
      + injection Hh as <-. now apply Hkeep.
      + injection Hh as <-. now apply Hkeep.
      + injection Hh as <-. now apply Hkeep.
      + injection Hh as <-. unfold QuizRunner.timer, Timer.effect.
        destruct (_ <=? _) eqn:E.
        * apply Z.leb_le in E. unfold QuizRunner.handleTimeUp.
          unfold QuizRunner.mounted. simpl.
          split; [constructor; [simpl; vm_compute; split; discriminate
                               | exact Hall] |].
          split; lia.
        * apply Z.leb_gt in E. unfold QuizRunner.mounted. simpl.
          fold (QuizRunner.mounted s1). rewrite Hm.
          split; [exact Hall | split; lia]. }
  destruct (run_timeUp_reports questions TIMED actions s Hrun)
    as [Hdirect Hended].
  destruct H as [Hall Hif]. pose proof (timerRuns_nonneg actions) as Hpos.
  destruct (QuizRunner.mounted s) eqn:Hm; destruct Hif as [Hsec Hcount].
  - split; [lia |]. split; [lia |].
    split; [split; [discriminate | lia] |].
    split; [exact Hall |].
    split; [| split; [exact Hdirect | discriminate]].
    intros _. unfold QuizRunner.handleSubmit. simpl.
    rewrite Hsec. do 2 f_equal. lia.
  - split; [lia |]. split; [lia |].
    split; [split; [intros _; exact Hcount | reflexivity] |].
    split; [exact Hall |].
    split; [discriminate | split; [exact Hdirect | exact Hended]].
Qed.

Lemma handle_reportsAnswers (questions : list Quiz.Question) (mode : QuizMode)
  (a : QuizRunner.Action) (s s' : QuizRunner.State) :
  QuizRunner.mounted s = true ->
  reportsAnswers s ->
  QuizRunner.handle questions mode a s = Some s' ->
  reportsAnswers s'.
Proof.
  intros Hm [Hall Hpending] Hh. unfold reportsAnswers.
  assert (Hnone : QuizRunner.isSubmitting s = false ->
                  QuizRunner.completions s = []).
  { intros Hs. destruct (QuizRunner.completions s) as [| c rest] eqn:E;
      [reflexivity |].
    destruct Hpending as [H | H]; [discriminate | congruence | congruence]. }
  assert (Hsame : forall s2,
             QuizRunner.answers s2 = QuizRunner.answers s ->
             QuizRunner.completions s2 = QuizRunner.completions s ->
             QuizRunner.isSubmitting s2 = QuizRunner.isSubmitting s ->
             Forall (fun c => QuizRunner.reportedAnswers c
                              = QuizRunner.answers s2)
               (QuizRunner.completions s2)
             /\ (QuizRunner.completions s2 <> [] ->
                 QuizRunner.isSubmitting s2 = true
                 \/ QuizRunner.mounted s2 = false)).
  { intros s2 E1 E2 E3. unfold QuizRunner.mounted. rewrite E1, E2, E3.
    split; [exact Hall | exact Hpending]. }
  assert (Hsubmit : forall s2,
             QuizRunner.answers s2 = QuizRunner.answers s ->
             QuizRunner.completions s2 = QuizRunner.completions s ->
             let s3 := QuizRunner.handleSubmit mode s2 in
             Forall (fun c => QuizRunner.reportedAnswers c
                              = QuizRunner.answers s3)
               (QuizRunner.completions s3)
             /\ (QuizRunner.completions s3 <> [] ->
                 QuizRunner.isSubmitting s3 = true
                 \/ QuizRunner.mounted s3 = false)).
  { intros s2 E1 E2. simpl. rewrite E1, E2.
    split; [constructor; [reflexivity | exact Hall] | intros _; now left]. }
  assert (Hfresh : forall s2,
             QuizRunner.completions s2 = [] ->
             Forall (fun c => QuizRunner.reportedAnswers c
                              = QuizRunner.answers s2)
               (QuizRunner.completions s2)
             /\ (QuizRunner.completions s2 <> [] ->
                 QuizRunner.isSubmitting s2 = true
                 \/ QuizRunner.mounted s2 = false)).
  { intros s2 E. rewrite E. split; [constructor | intros H; now elim H]. }
  destruct a; simpl in Hh.
  - unfold QuizRunner.handleOptionSelect in Hh.
    destruct (QuizRunner.isSubmitting s) eqn:Hs;
      [injection Hh as <-; now apply Hsame |].
    destruct (_ && _); [injection Hh as <-; now apply Hsame |].
    specialize (Hnone eq_refl).
    destruct mode; try (injection Hh as <-; now apply Hfresh).
    destruct (QuizRunner.currentQuestion questions s); [| discriminate].
    destruct (negb _); injection Hh as <-; [| now apply Hfresh].
    simpl. rewrite Hnone.
    split; [repeat constructor | intros _; now left].
  - injection Hh as <-. now apply Hsame.
  - injection Hh as <-. unfold QuizRunner.handleNext.
    destruct (QuizRunner.isSubmitting s) eqn:Hs; [now apply Hsame |].
    destruct (_ <? _); [now apply Hsame |].
    destruct mode; first [now apply Hsame | now apply Hsubmit].
  - injection Hh as <-. unfold QuizRunner.handleSkip.
    destruct (QuizRunner.isSubmitting s) eqn:Hs; [now apply Hsame |].
    specialize (Hnone eq_refl).
    destruct (negb _); destruct (_ <? _); now apply Hfresh.
  - injection Hh as <-. unfold QuizRunner.handlePrev.
    destruct (QuizRunner.isSubmitting s) eqn:Hs; [now apply Hsame |].
    destruct (_ >? _); now apply Hsame.
  - injection Hh as <-. unfold QuizRunner.handleFinishClick.
    destruct (_ && _); [now apply Hsame | now apply Hsubmit].
  - injection Hh as <-. now apply Hsubmit.
  - injection Hh as <-. now apply Hsame.
  - injection Hh as <-. now apply Hsame.
  - injection Hh as <-. now apply Hsame.
  - injection Hh as <-. unfold QuizRunner.timer.
    destruct mode; try (now apply Hsame).
    destruct (Timer.effect _); [| now apply Hsame].
    unfold QuizRunner.handleTimeUp. simpl.
    split; [constructor; [reflexivity | exact Hall] | intros _; now right].
Qed.

(** After submission no handler changes the answers or the cursor. *)
Lemma handle_submitting (questions : list Quiz.Question) (mode : QuizMode)
  (a : QuizRunner.Action) (s s' : QuizRunner.State) :
  QuizRunner.isSubmitting s = true ->
  QuizRunner.handle questions mode a s = Some s' ->
  QuizRunner.answers s' = QuizRunner.answers s
  /\ QuizRunner.currentQuestionIndex s' = QuizRunner.currentQuestionIndex s
  /\ QuizRunner.isSubmitting s' = true.
Proof.
  intros Hs Hh.
  destruct a; simpl in Hh;
    unfold QuizRunner.handleOptionSelect, QuizRunner.handleNext,
      QuizRunner.handleSkip, QuizRunner.handlePrev in Hh;
    rewrite ?Hs in Hh; injection Hh as <-; try (now repeat split).
  - unfold QuizRunner.handleFinishClick. destruct (_ && _); now repeat split.
  - unfold QuizRunner.timer, QuizRunner.handleTimeUp.
    destruct mode; try (now repeat split).
    destruct (Timer.effect _); now repeat split.
Qed.

Lemma run_submitting (questions : list Quiz.Question) (mode : QuizMode)
  (more : list QuizRunner.Action) :
  forall s s',
    QuizRunner.isSubmitting s = true ->
    QuizRunner.run questions mode more s = Some s' ->
    QuizRunner.answers s' = QuizRunner.answers s
    /\ QuizRunner.currentQuestionIndex s' = QuizRunner.currentQuestionIndex s
    /\ QuizRunner.isSubmitting s' = true.
Proof.
  induction more as [| a rest IH]; simpl; intros s s' Hs Hrun.
  - injection Hrun as <-. now repeat split.
  - destruct (QuizRunner.mounted s); [| discriminate].
    destruct (QuizRunner.handle questions mode a s) as [s1 |] eqn:Hh;
      [| discriminate].
    destruct (handle_submitting questions mode a s s1 Hs Hh)
      as (E1 & E2 & E3).
    destruct (IH s1 s' E3 Hrun) as (G1 & G2 & G3).
    repeat split; congruence.
Qed.

(** X14. After any sequence of handler calls from the first render, every call
    of [onComplete] made or scheduled reports the answers that the runner
    holds; and once the runner is submitting, no handler changes the answers
    or the cursor, so a scheduled completion still reports the answers on
    screen when it fires. *)
Theorem completions_report_the_answers (questions : list Quiz.Question)
  (mode : QuizMode) (actions : list QuizRunner.Action)
  (s : QuizRunner.State) :
  QuizRunner.run questions mode actions QuizRunner.initialState = Some s ->
  Forall (fun c => QuizRunner.reportedAnswers c = QuizRunner.answers s)
    (QuizRunner.completions s)
  /\ (QuizRunner.completions s <> [] ->
      QuizRunner.isSubmitting s = true \/ QuizRunner.mounted s = false)
  /\ (QuizRunner.isSubmitting s = true ->
      forall more s',
        QuizRunner.run questions mode more s = Some s' ->
        QuizRunner.answers s' = QuizRunner.answers s
        /\ QuizRunner.currentQuestionIndex s'
           = QuizRunner.currentQuestionIndex s
        /\ QuizRunner.isSubmitting s' = true).
Proof.
  intros Hrun.
  assert (Hrep : reportsAnswers s).
  { revert actions s Hrun.
    apply (quiz_run_ind questions mode (fun _ s => reportsAnswers s)).
    - split; [constructor | intros H; now elim H].
    - intros l s1 a s _ Hrep Hm Hh.
      now apply (handle_reportsAnswers questions mode a s1 s). }
  destruct Hrep as [Hall Hpending].
  split; [exact Hall | split; [exact Hpending |]].
  intros Hs more s' Hrun'.
  now apply (run_submitting questions mode more s s').
Qed.

(** X15. In the practice and streak modes an answer, once given, stays: no
    sequence of actions that the user interface allows changes or removes
    it. *)
Theorem practice_answers_are_final (questions : list Quiz.Question)
  (mode : QuizMode) (actions : list QuizRunner.Action)
  (s0 : QuizRunner.State) (k v : Z) :
  QuizRunner.isPracticeOrStreak mode = true ->
  Quiz.get (QuizRunner.answers s0) k = Some v ->
  QuizRunner.allowed questions mode actions s0 = true ->
  exists s,
    QuizRunner.run questions mode actions s0 = Some s
    /\ Quiz.get (QuizRunner.answers s) k = Some v.
Proof.
  intros Hmode H0 Hall.
  destruct (quiz_allowed_run questions mode actions s0 Hall) as [s Hrun].
  exists s. split; [exact Hrun |].
  revert actions s Hall Hrun.
  apply (quiz_allowed_ind questions mode
           (fun _ s => Quiz.get (QuizRunner.answers s) k = Some v));
    [exact H0 |].
  intros l s1 a s _ Hget _ Hen Hh.
  destruct a; simpl in Hh.
  - unfold QuizRunner.handleOptionSelect in Hh.
    destruct (QuizRunner.isSubmitting s1); [now injection Hh as <- |].
    rewrite Hmode in Hh. simpl andb in Hh.
    destruct (QuizRunner.isAnswered s1) eqn:Hans;
      [now injection Hh as <- |].
    assert (Hne : k <> QuizRunner.currentQuestionIndex s1).
    { intros ->. unfold QuizRunner.isAnswered in Hans.
      now rewrite Hget in Hans. }
    assert (Hset : Quiz.get (Quiz.set (QuizRunner.answers s1)
                               (QuizRunner.currentQuestionIndex s1)
                               optionIndex) k = Some v)
      by (now rewrite get_set_other).
    destruct mode; try (now injection Hh as <-).
    destruct (QuizRunner.currentQuestion questions s1); [| discriminate].
    destruct (negb _); now injection Hh as <-.
  - now injection Hh as <-.
  - injection Hh as <-. unfold QuizRunner.handleNext.
    destruct (QuizRunner.isSubmitting s1); [exact Hget |].
    destruct (_ <? _); [exact Hget |]. now destruct mode.
  - exfalso. simpl in Hen. now destruct mode.
  - injection Hh as <-. unfold QuizRunner.handlePrev.
    destruct (QuizRunner.isSubmitting s1); [exact Hget |].
    now destruct (_ >? _).
  - injection Hh as <-. unfold QuizRunner.handleFinishClick.
    now destruct (_ && _).
  - now injection Hh as <-.
  - now injection Hh as <-.
  - now injection Hh as <-.
  - now injection Hh as <-.
  - injection Hh as <-. unfold QuizRunner.timer, QuizRunner.handleTimeUp.
    destruct mode; try exact Hget. now destruct (Timer.effect _).
Qed.

(** * The results *)

Section ResultsFacts.

Variable questions : list Quiz.Question.
Variable userAnswers : Quiz.UserAnswers.
Variable mode : QuizMode.

(** The three outcomes of a question against the answers. *)
Let answeredRight (q : Quiz.Question) : bool :=
  match Quiz.get userAnswers (Quiz.id q - 1) with
  | Some a => a =? Quiz.correctIndex q
  | None => false
  end.
Let answeredWrong (q : Quiz.Question) : bool :=
  match Quiz.get userAnswers (Quiz.id q - 1) with
  | Some a => negb (a =? Quiz.correctIndex q)
  | None => false
  end.
Let unanswered (q : Quiz.Question) : bool :=
  match Quiz.get userAnswers (Quiz.id q - 1) with
  | Some _ => false
  | None => true
  end.

Lemma fold_classify (l : list Quiz.Question) :
  forall t,
    fold_left (ResultsView.classify userAnswers) l t
    = ResultsView.mkTally
        (ResultsView.correctCount t + number_of answeredRight l)
        (ResultsView.incorrectQuestions t ++ filter answeredWrong l)
        (ResultsView.skippedQuestions t ++ filter unanswered l).
Proof.
  induction l as [| q rest IH]; intros t; simpl.
  - rewrite Z.add_0_r, !app_nil_r. now destruct t.
  - rewrite IH. unfold ResultsView.classify, answeredRight, answeredWrong,
      unanswered.
    destruct (Quiz.get userAnswers (Quiz.id q - 1)) as [a |]; simpl.
    + destruct (a =? Quiz.correctIndex q); simpl;
        rewrite <- ?app_assoc; simpl; f_equal; lia.
    + rewrite <- ?app_assoc; simpl; f_equal; lia.
Qed.

Lemma number_of_filters (l : list Quiz.Question) :
  number_of answeredRight l + len (filter answeredWrong l)
  + len (filter unanswered l) = len l
  /\ 0 <= number_of answeredRight l.
Proof.
  unfold len. induction l as [| q rest IH]; simpl; [split; reflexivity |].
  destruct IH as [IH1 IH2].
  unfold answeredRight, answeredWrong, unanswered in *.
  destruct (Quiz.get userAnswers (Quiz.id q - 1)) as [a |];
    [destruct (a =? Quiz.correctIndex q) |];
    simpl; rewrite ?Nat2Z.inj_succ; split; lia.
Qed.

Lemma tally_filters :
  let considered := ResultsView.effectiveQuestions questions userAnswers mode in
  ResultsView.tally questions userAnswers mode
  = ResultsView.mkTally (number_of answeredRight considered)
      (filter answeredWrong considered) (filter unanswered considered).
Proof.
  intros considered. unfold ResultsView.tally. fold considered.
  now rewrite fold_classify.
Qed.

Lemma tally_bounds :
  0 <= ResultsView.correctCount (ResultsView.tally questions userAnswers mode)
  <= len (ResultsView.effectiveQuestions questions userAnswers mode).
Proof.
  rewrite tally_filters. simpl.
  destruct (number_of_filters
              (ResultsView.effectiveQuestions questions userAnswers mode))
    as [Hsum Hpos].
  unfold len in *. lia.
Qed.

(** X17. The results sort every question they consider into exactly one of three
    groups: counted correct when its answer (looked up under its identifier
    less one) is its correct option, listed incorrect when it has another
    answer, listed skipped when it has none; the lists keep the order of the
    questions, and the three sizes add up to the number of questions
    considered. *)
Theorem results_partition_the_questions :
  let t := ResultsView.tally questions userAnswers mode in
  let considered := ResultsView.effectiveQuestions questions userAnswers mode in
  ResultsView.correctCount t
  = number_of
      (fun q => match Quiz.get userAnswers (Quiz.id q - 1) with
                | Some a => a =? Quiz.correctIndex q
                | None => false
                end) considered
  /\ ResultsView.incorrectQuestions t
     = filter
         (fun q => match Quiz.get userAnswers (Quiz.id q - 1) with
                   | Some a => negb (a =? Quiz.correctIndex q)
                   | None => false
                   end) considered
  /\ ResultsView.skippedQuestions t
     = filter
         (fun q => match Quiz.get userAnswers (Quiz.id q - 1) with
                   | Some _ => false
                   | None => true
                   end) considered
  /\ ResultsView.correctCount t + len (ResultsView.incorrectQuestions t)
     + len (ResultsView.skippedQuestions t) = len considered
  /\ 0 <= ResultsView.correctCount t <= len considered.
Proof.
  intros t considered. subst t. rewrite tally_filters. fold considered.
  simpl.
  destruct (number_of_filters considered) as [Hsum Hpos].
  repeat split; try assumption.
  unfold len in *. lia.
Qed.

(** X18. The pass mark is 19 correct answers.  Outside streak mode the result is
    a pass exactly when the correct answers are at least 75 percent of 25
    questions, whatever the number of questions asked, so a quiz of fewer
    than 19 questions cannot be passed; in streak mode it is a pass exactly
    when more than 10 answers are correct. *)
Theorem results_pass_mark :
  let t := ResultsView.tally questions userAnswers mode in
  PASS_MARK_COUNT = 19
  /\ (mode <> STREAK ->
      (ResultsView.hasPassed questions userAnswers mode = true <->
       PASS_MARK_PERCENTAGE * TOTAL_QUESTIONS
       <= 100 * ResultsView.correctCount t)
      /\ (len questions < 19 ->
          ResultsView.hasPassed questions userAnswers mode = false))
  /\ (mode = STREAK ->
      (ResultsView.hasPassed questions userAnswers mode = true <->
       11 <= ResultsView.correctCount t)).
Proof.
  intros t. split; [reflexivity | split].
  - intros Hmode.
    assert (E : ResultsView.hasPassed questions userAnswers mode
                = (ResultsView.correctCount t >=? 19))
      by (unfold ResultsView.hasPassed; now destruct mode).
    rewrite E, Z.geb_leb. split.
    + rewrite Z.leb_le. unfold PASS_MARK_PERCENTAGE, TOTAL_QUESTIONS. lia.
    + intros Hfew. apply Z.leb_gt.
      pose proof tally_bounds as H.
      assert (Hc : ResultsView.effectiveQuestions questions userAnswers mode
                   = questions) by (now destruct mode).
      rewrite Hc in H. fold t in H. lia.
  - intros ->. unfold ResultsView.hasPassed. fold t.
    rewrite Z.gtb_ltb, Z.ltb_lt. lia.
Qed.

End ResultsFacts.

(** * Questions from the service *)

Lemma withIds_nth (rawData : list Quiz.Question) :
  forall index i q,
    nth_error (Quiz.withIds index rawData) i = Some q ->
    Quiz.id q = index + Z.of_nat i + 1
    /\ exists r, nth_error rawData i = Some r
                 /\ Quiz.correctIndex q = Quiz.correctIndex r
                 /\ Quiz.options q = Quiz.options r
                 /\ Quiz.text q = Quiz.text r.
Proof.
  induction rawData as [| r rest IH]; intros index [| i] q H; simpl in H;
    try discriminate.
  - injection H as <-. simpl. split; [lia |]. exists r. now repeat split.
  - destruct (IH (index + 1) i q H) as [Hid Hr].
    split; [rewrite Hid; lia | exact Hr].
Qed.

Lemma withIds_length (rawData : list Quiz.Question) :
  forall index, List.length (Quiz.withIds index rawData) = List.length rawData.
Proof.
  induction rawData as [| r rest IH]; intros index; simpl;
    [reflexivity | now rewrite IH].
Qed.

Lemma array_get_nth {A : Type} (a : list A) (i : nat) :
  array_get a (Z.of_nat i) = nth_error a i.
Proof.
  unfold array_get.
  assert (E : (Z.of_nat i <? 0) = false) by (apply Z.ltb_ge; lia).
  now rewrite E, Nat2Z.id.
Qed.

(** X19. The questions of the service carry the identifiers 1, 2, ... in order,
    whatever identifiers the parsed records had, so the results, which look
    an answer up under the identifier less one, read for each question the
    answer recorded at its position: outside streak mode a question is
    listed skipped exactly when its position has no answer, and listed
    incorrect exactly when its position has an answer other than its correct
    option. *)
Theorem results_read_answers_by_position (rawData : list Quiz.Question)
  (userAnswers : Quiz.UserAnswers) (mode : QuizMode) (i : nat)
  (q : Quiz.Question) :
  mode <> STREAK ->
  nth_error (Quiz.generateQuizQuestions rawData) i = Some q ->
  let t := ResultsView.tally (Quiz.generateQuizQuestions rawData)
             userAnswers mode in
  Quiz.id q = Z.of_nat i + 1
  /\ (In q (ResultsView.skippedQuestions t) <->
      Quiz.get userAnswers (Z.of_nat i) = None)
  /\ (In q (ResultsView.incorrectQuestions t) <->
      exists a, Quiz.get userAnswers (Z.of_nat i) = Some a
                /\ a <> Quiz.correctIndex q).
Proof.
  intros Hmode Hq t.
  destruct (withIds_nth rawData 0 i q Hq) as [Hid _].
  assert (Hid' : Quiz.id q - 1 = Z.of_nat i) by lia.
  split; [lia |].
  subst t. rewrite tally_filters.
  assert (Hc : ResultsView.effectiveQuestions
                 (Quiz.generateQuizQuestions rawData) userAnswers mode
               = Quiz.generateQuizQuestions rawData) by (now destruct mode).
  rewrite Hc. simpl. rewrite !filter_In, Hid'.
  pose proof (nth_error_In _ _ Hq) as Hin.
  destruct (Quiz.get userAnswers (Z.of_nat i)) as [a |]; split.
  - split; [intros [_ H]; discriminate | discriminate].
  - split.
    + intros [_ H]. exists a. split; [reflexivity |].
      apply negb_true_iff, Z.eqb_neq in H. exact H.
    + intros (a' & [= <-] & Hne). split; [exact Hin |].
      now apply negb_true_iff, Z.eqb_neq.
  - split; [reflexivity | now split].
  - split; [intros [_ H]; discriminate | intros (a & H & _); discriminate].
Qed.

(** * A streak, from the first question to the results *)

Lemma ascending_fills (l : list Z) (n : Z) :
  0 <= n ->
  StronglySorted Z.lt l ->
  Forall (fun k => 0 <= k < n) l ->
  (forall k, 0 <= k < n -> In k l) ->
  len l = n.
Proof.
  intros Hn Hsorted Hrange Hall.
  destruct (ascending_in_interval l 0 n Hsorted Hrange) as [Hle _].
  assert (Hincl : incl (map Z.of_nat (seq 0 (Z.to_nat n))) l).
  { intros k Hk. apply in_map_iff in Hk. destruct Hk as (m & <- & Hm).
    apply in_seq in Hm. apply Hall. lia. }
  assert (Hnd : NoDup (map Z.of_nat (seq 0 (Z.to_nat n)))).
  { clear. generalize 0%nat.
    induction (Z.to_nat n) as [| m IH]; intros k; simpl;
      constructor; [| apply IH].
    intros Hin. apply in_map_iff in Hin. destruct Hin as (j & E & Hj).
    apply in_seq in Hj. lia. }
  pose proof (NoDup_incl_length Hnd Hincl) as Hlen.
  rewrite length_map, length_seq in Hlen. unfold len in *. lia.
Qed.

Lemma firstn_succ_nth {A : Type} (l : list A) :
  forall n x, nth_error l n = Some x -> firstn (S n) l = firstn n l ++ [x].
Proof.
  induction l as [| y rest IH]; intros [| n] x H; simpl in H;
    try discriminate.
  - now injection H as ->.
  - simpl. f_equal. now apply IH.
Qed.

Lemma Forall_firstn_nth {A : Type} (P : A -> Prop) (l : list A) :
  forall n,
    (forall j x, (j < n)%nat -> nth_error l j = Some x -> P x) ->
    Forall P (firstn n l).
Proof.
  induction l as [| y rest IH]; intros [| n] H; simpl; try constructor.
  - apply (H 0%nat y); [lia | reflexivity].
  - apply IH. intros j x Hj Hx. apply (H (S j) x); [lia | exact Hx].
Qed.

Lemma number_of_all {A : Type} (p : A -> bool) (l : list A) :
  Forall (fun x => p x = true) l -> number_of p l = len l.
Proof.
  unfold len. induction 1 as [| x rest Hx _ IH]; [reflexivity |].
  cbn [number_of List.length]. rewrite Hx, IH, Nat2Z.inj_succ. lia.
Qed.

Lemma number_of_app {A : Type} (p : A -> bool) (l1 l2 : list A) :
  number_of p (l1 ++ l2) = number_of p l1 + number_of p l2.
Proof.
  induction l1 as [| x rest IH]; simpl; [reflexivity | rewrite IH; lia].
Qed.

Lemma handle_streakInvariant (questions : list Quiz.Question)
  (a : QuizRunner.Action) (s s' : QuizRunner.State) :
  quizInvariant questions s ->
  streakInvariant questions s ->
  QuizRunner.enabled questions STREAK a s = true ->
  QuizRunner.handle questions STREAK a s = Some s' ->
  streakInvariant questions s'.
Proof.
  intros (Hidx & _) (Hkeys & Hbefore & Hcursor) Hen Hh.
  assert (Hsame : forall s2,
             QuizRunner.answers s2 = QuizRunner.answers s ->
             QuizRunner.currentQuestionIndex s2
             = QuizRunner.currentQuestionIndex s ->
             (QuizRunner.isSubmitting s2 = false ->
              QuizRunner.isSubmitting s = false) ->
             streakInvariant questions s2).
  { intros s2 E1 E2 E3. unfold streakInvariant. rewrite E1, E2.
    split; [exact Hkeys | split; [exact Hbefore |]].
    intros Hs. now apply Hcursor, E3. }
  destruct a; simpl in Hh.
  - (* an answer *)
    unfold QuizRunner.handleOptionSelect in Hh.
    destruct (QuizRunner.isSubmitting s) eqn:Hs;
      [injection Hh as <-; (apply Hsame; [reflexivity | reflexivity | simpl; intros; congruence]) |].
    simpl andb in Hh.
    destruct (QuizRunner.isAnswered s) eqn:Hans;
      [injection Hh as <-; (apply Hsame; [reflexivity | reflexivity | simpl; intros; congruence]) |].
    assert (Hnone : Quiz.get (QuizRunner.answers s)
                      (QuizRunner.currentQuestionIndex s) = None).
    { unfold QuizRunner.isAnswered in Hans.
      now destruct (Quiz.get _ _). }
    destruct (QuizRunner.currentQuestion questions s) as [q |] eqn:Hq;
      [| discriminate].
    assert (Hk' : forall k v,
               Quiz.get (Quiz.set (QuizRunner.answers s)
                           (QuizRunner.currentQuestionIndex s) optionIndex) k
               = Some v ->
               0 <= k <= QuizRunner.currentQuestionIndex s).
    { intros k v H.
      destruct (Z.eq_dec k (QuizRunner.currentQuestionIndex s)) as [-> | Hne];
        [lia |].
      rewrite get_set_other in H by exact Hne. eapply Hkeys, H. }
    assert (Hb' : forall k,
               0 <= k < QuizRunner.currentQuestionIndex s ->
               exists q0,
                 array_get questions k = Some q0
                 /\ Quiz.get (Quiz.set (QuizRunner.answers s)
                                (QuizRunner.currentQuestionIndex s)
                                optionIndex) k
                    = Some (Quiz.correctIndex q0)).
    { intros k Hk. rewrite get_set_other by lia. now apply Hbefore. }
    destruct (negb (optionIndex =? Quiz.correctIndex q)) eqn:Hwrong;
      injection Hh as <-; unfold streakInvariant; simpl.
    + split; [exact Hk' | split; [exact Hb' | discriminate]].
    + split; [exact Hk' | split; [exact Hb' |]].
      intros _ v q0 Hv Hq0. rewrite get_set_same in Hv. injection Hv as <-.
      unfold QuizRunner.currentQuestion in Hq. rewrite Hq in Hq0.
      injection Hq0 as <-.
      apply negb_false_iff, Z.eqb_eq in Hwrong. exact Hwrong.
  - injection Hh as <-. (apply Hsame; [reflexivity | reflexivity | simpl; intros; congruence]).
  - (* next *)
    simpl in Hen. apply andb_true_iff in Hen. destruct Hen as [Hlt Hok].
    apply Z.ltb_lt in Hlt. apply negb_true_iff, orb_false_iff in Hok.
    destruct Hok as [Hs Hans]. apply negb_false_iff in Hans.
    injection Hh as <-. unfold QuizRunner.handleNext.
    rewrite Hs. assert (E : (QuizRunner.currentQuestionIndex s
                             <? len questions - 1) = true)
      by (now apply Z.ltb_lt).
    rewrite E. unfold streakInvariant. simpl.
    unfold QuizRunner.isAnswered in Hans.
    destruct (Quiz.get (QuizRunner.answers s)
                (QuizRunner.currentQuestionIndex s)) as [v |] eqn:Hv;
      [| discriminate].
    assert (Hq : exists q, array_get questions
                             (QuizRunner.currentQuestionIndex s) = Some q).
    { unfold array_get.
      assert (E0 : (QuizRunner.currentQuestionIndex s <? 0) = false)
        by (apply Z.ltb_ge; lia).
      rewrite E0.
      destruct (nth_error questions
                  (Z.to_nat (QuizRunner.currentQuestionIndex s)))
        as [q |] eqn:Hn; [now exists q |].
      apply nth_error_None in Hn. unfold len in *. lia. }
    destruct Hq as [q Hq].
    split; [| split].
    + intros k v' H. pose proof (Hkeys k v' H). lia.
    + intros k Hk.
      destruct (Z.eq_dec k (QuizRunner.currentQuestionIndex s)) as [-> | Hne].
      * exists q. split; [exact Hq |]. rewrite Hv. f_equal.
        now apply (Hcursor Hs v q).
      * apply Hbefore. lia.
    + intros _ v' q' Hv'. pose proof (Hkeys _ _ Hv'). lia.
  - simpl in Hen. discriminate.
  - simpl in Hen. discriminate.
  - injection Hh as <-. unfold QuizRunner.handleFinishClick. simpl andb.
    (apply Hsame; [reflexivity | reflexivity | simpl; intros; congruence]).
  - injection Hh as <-. (apply Hsame; [reflexivity | reflexivity | simpl; intros; congruence]).
  - injection Hh as <-. (apply Hsame; [reflexivity | reflexivity | simpl; intros; congruence]).
  - injection Hh as <-. (apply Hsame; [reflexivity | reflexivity | simpl; intros; congruence]).
  - injection Hh as <-. (apply Hsame; [reflexivity | reflexivity | simpl; intros; congruence]).
  - injection Hh as <-. (apply Hsame; [reflexivity | reflexivity | simpl; intros; congruence]).
Qed.

Lemma run_streakInvariant (questions : list Quiz.Question)
  (actions : list QuizRunner.Action) (s : QuizRunner.State) :
  questions <> [] ->
  QuizRunner.allowed questions STREAK actions QuizRunner.initialState = true ->
  QuizRunner.run questions STREAK actions QuizRunner.initialState = Some s ->
  quizInvariant questions s /\ streakInvariant questions s.
Proof.
  intros Hne Hall Hrun.
  split; [now apply (run_quizInvariant questions STREAK actions) |].
  revert actions s Hall Hrun.
  apply (quiz_allowed_ind questions STREAK
           (fun _ s => streakInvariant questions s)).
  - unfold streakInvariant. simpl.
    split; [discriminate | split; [intros k Hk; lia | discriminate]].
  - intros l s1 a s Hrun1 Hinv _ Hen Hh.
    apply (handle_streakInvariant questions a s1 s); try assumption.
    now apply (run_quizInvariant questions STREAK l).
Qed.

Section RightPrefix.

Variable userAnswers : Quiz.UserAnswers.

Let answeredRight (q : Quiz.Question) : bool :=
  match Quiz.get userAnswers (Quiz.id q - 1) with
  | Some a => a =? Quiz.correctIndex q
  | None => false
  end.
Let answeredWrong (q : Quiz.Question) : bool :=
  match Quiz.get userAnswers (Quiz.id q - 1) with
  | Some a => negb (a =? Quiz.correctIndex q)
  | None => false
  end.
Let unanswered (q : Quiz.Question) : bool :=
  match Quiz.get userAnswers (Quiz.id q - 1) with
  | Some _ => false
  | None => true
  end.

(** A list of questions that starts with rightly answered ones. *)
Lemma tally_right_prefix (prefix rest : list Quiz.Question) :
  Forall (fun q => Quiz.get userAnswers (Quiz.id q - 1)
                   = Some (Quiz.correctIndex q)) prefix ->
  number_of answeredRight (prefix ++ rest)
  = len prefix + number_of answeredRight rest
  /\ filter answeredWrong (prefix ++ rest) = filter answeredWrong rest
  /\ filter unanswered (prefix ++ rest) = filter unanswered rest.
Proof.
  intros Hall. rewrite number_of_app, !filter_app.
  assert (H1 : number_of answeredRight prefix = len prefix).
  { apply number_of_all. eapply Forall_impl; [| exact Hall].
    intros q Hq. unfold answeredRight. now rewrite Hq, Z.eqb_refl. }
  assert (H2 : filter answeredWrong prefix = []).
  { apply filter_none. intros q Hin.
    pose proof (proj1 (Forall_forall _ _) Hall q Hin) as Hq.
    unfold answeredWrong. simpl in Hq. now rewrite Hq, Z.eqb_refl. }
  assert (H3 : filter unanswered prefix = []).
  { apply filter_none. intros q Hin.
    pose proof (proj1 (Forall_forall _ _) Hall q Hin) as Hq.
    unfold unanswered. simpl in Hq. now rewrite Hq. }
  now rewrite H1, H2, H3.
Qed.

End RightPrefix.

Lemma streak_answered_count (questions : list Quiz.Question)
  (s : QuizRunner.State) :
  quizInvariant questions s ->
  streakInvariant questions s ->
  len (Quiz.keys (QuizRunner.answers s))
  = QuizRunner.currentQuestionIndex s
    + (if QuizRunner.isAnswered s then 1 else 0).
Proof.
  intros (Hidx & (Hsorted & _) & _) (Hkeys & Hbefore & _).
  unfold QuizRunner.isAnswered.
  destruct (Quiz.get (QuizRunner.answers s)
              (QuizRunner.currentQuestionIndex s)) as [v |] eqn:Hv;
    apply ascending_fills; try assumption; try lia.
  - apply Forall_forall. intros k Hk. apply get_Some_key in Hk.
    destruct Hk as [v' Hk]. pose proof (Hkeys k v' Hk). lia.
  - intros k Hk. apply get_Some_key.
    destruct (Z.eq_dec k (QuizRunner.currentQuestionIndex s)) as [-> | Hne];
      [now exists v |].
    destruct (Hbefore k) as (q & _ & Hq); [lia | eexists; exact Hq].
  - apply Forall_forall. intros k Hk. apply get_Some_key in Hk.
    destruct Hk as [v' Hk]. pose proof (Hkeys k v' Hk).
    assert (k <> QuizRunner.currentQuestionIndex s) by congruence. lia.
  - intros k Hk. apply get_Some_key.
    destruct (Hbefore k) as (q & _ & Hq); [lia | eexists; exact Hq].
Qed.

(** X20. A streak on the questions of the service, played through the user
    interface: at any moment the results computed from the runner's answers
    list no skipped question; the number of correct answers is the cursor
    when the question at the cursor has no answer or a wrong one, and one
    more when it has the right one; the incorrect list is empty unless the
    question at the cursor has a wrong answer, which is then the only entry,
    and the runner is then submitting. *)
Theorem streak_results (rawData : list Quiz.Question)
  (actions : list QuizRunner.Action) (s : QuizRunner.State) :
  rawData <> [] ->
  QuizRunner.allowed (Quiz.generateQuizQuestions rawData) STREAK actions
    QuizRunner.initialState = true ->
  QuizRunner.run (Quiz.generateQuizQuestions rawData) STREAK actions
    QuizRunner.initialState = Some s ->
  let questions := Quiz.generateQuizQuestions rawData in
  let t := ResultsView.tally questions (QuizRunner.answers s) STREAK in
  let i := QuizRunner.currentQuestionIndex s in
  ResultsView.skippedQuestions t = []
  /\ (Quiz.get (QuizRunner.answers s) i = None ->
      ResultsView.correctCount t = i
      /\ ResultsView.incorrectQuestions t = [])
  /\ (forall v, Quiz.get (QuizRunner.answers s) i = Some v ->
        exists q,
          nth_error questions (Z.to_nat i) = Some q
          /\ (v = Quiz.correctIndex q ->
              ResultsView.correctCount t = i + 1
              /\ ResultsView.incorrectQuestions t = [])
          /\ (v <> Quiz.correctIndex q ->
              ResultsView.correctCount t = i
              /\ ResultsView.incorrectQuestions t = [q]
              /\ QuizRunner.isSubmitting s = true)).
Proof.
  intros Hne Hall Hrun questions t i.
  assert (Hqne : questions <> []).
  { intros E. apply Hne. apply length_zero_iff_nil.
    rewrite <- (withIds_length rawData 0). fold (Quiz.generateQuizQuestions rawData).
    fold questions. now rewrite E. }
  destruct (run_streakInvariant questions actions s Hqne Hall Hrun)
    as [Hinv Hstreak].
  pose proof (streak_answered_count questions s Hinv Hstreak) as Hcount.
  destruct Hinv as (Hidx & _). destruct Hstreak as (Hkeys & Hbefore & Hcursor).
  fold i in Hidx, Hcount, Hbefore, Hcursor.
  (* the questions before the cursor are rightly answered *)
  assert (Hprefix : Forall
                      (fun q => Quiz.get (QuizRunner.answers s) (Quiz.id q - 1)
                                = Some (Quiz.correctIndex q))
                      (firstn (Z.to_nat i) questions)).
  { apply Forall_firstn_nth. intros j x Hj Hx.
    destruct (withIds_nth rawData 0 j x Hx) as [Hid _].
    replace (Quiz.id x - 1) with (Z.of_nat j) by lia.
    destruct (Hbefore (Z.of_nat j)) as (q0 & Hq0 & Hget); [lia |].
    rewrite array_get_nth, Hx in Hq0. now injection Hq0 as <-. }
  assert (Hlen : len (firstn (Z.to_nat i) questions) = i).
  { unfold len in *. rewrite length_firstn. lia. }
  subst t. rewrite tally_filters. cbv zeta.
  unfold ResultsView.effectiveQuestions, ResultsView.questionsAnsweredCount.
  rewrite Hcount. unfold QuizRunner.isAnswered. fold i. simpl.
  destruct (Quiz.get (QuizRunner.answers s) i) as [v |] eqn:Hv.
  - (* the question at the cursor has an answer *)
    destruct (nth_error questions (Z.to_nat i)) as [q |] eqn:Hq;
      [| apply nth_error_None in Hq; unfold len in Hidx; lia].
    replace (Z.to_nat (i + 1)) with (S (Z.to_nat i)) by lia.
    rewrite (firstn_succ_nth _ _ _ Hq).
    destruct (tally_right_prefix (QuizRunner.answers s)
                (firstn (Z.to_nat i) questions) [q] Hprefix)
      as (E1 & E2 & E3).
    rewrite E1, E2, E3, Hlen. clear E1 E2 E3.
    destruct (withIds_nth rawData 0 (Z.to_nat i) q Hq) as [Hid _].
    assert (Hid' : Quiz.id q - 1 = i) by lia.
    simpl. rewrite Hid', Hv.
    split; [reflexivity | split; [discriminate |]].
    intros v' [= <-]. exists q. split; [reflexivity |].
    destruct (Z.eqb_spec v (Quiz.correctIndex q)) as [E | E]; simpl; split.
    + intros _. split; [lia | reflexivity].
    + intros H. contradiction.
    + intros H. contradiction.
    + intros _. split; [lia | split; [reflexivity |]].
      destruct (QuizRunner.isSubmitting s) eqn:Hs; [reflexivity |].
      exfalso. apply E. apply (Hcursor eq_refl v q eq_refl).
      unfold questions. now rewrite <- (Z2Nat.id i), array_get_nth by lia.
  - (* it has none *)
    rewrite Z.add_0_r.
    destruct (tally_right_prefix (QuizRunner.answers s)
                (firstn (Z.to_nat i) questions) [] Hprefix)
      as (E1 & E2 & E3).
    rewrite app_nil_r in E1, E2, E3. rewrite E1, E2, E3, Hlen. simpl.
    split; [reflexivity | split; [| discriminate]].
    intros _. split; [lia | reflexivity].
Qed.

(** * The dashboard and the queue *)

(** X10. At one clock reading the number of due cards on the dashboard is the
    length of the queue of a session started then; so the start button,
    disabled at zero due cards, starts only sessions with a card, and the
    review view then shows the first card of the queue. *)
Theorem due_count_is_queue_length (now : Z) (s : State) :
  dueCards (stats (constClock now) s)
  = len (reviewQueue (startReview (constClock now) s))
  /\ (view s = Dashboard ->
      0 < dueCards (stats (constClock now) s) ->
      view (startReview (constClock now) s) = Review 0 false
      /\ exists c, currentCard (startReview (constClock now) s) = Some c).
Proof.
  assert (E : dueCards (stats (constClock now) s)
              = len (reviewQueue (startReview (constClock now) s))).
  { unfold stats, len. simpl dueCards. rewrite due_constClock.
    f_equal. symmetry.
    apply Permutation_length, startReview_queue_permutation. }
  split; [exact E |].
  intros Hd Hpos. rewrite E in Hpos. unfold len in Hpos.
  split; [apply startReview_view; [exact Hd | lia] |].
  unfold currentCard.
  change (currentCardIndex (startReview (constClock now) s)) with 0%nat.
  destruct (reviewQueue (startReview (constClock now) s)) as [| c rest];
    [simpl in Hpos; lia | now exists c].
Qed.

(** * The clock face of the timer *)

Lemma formatTime_checked :
  forallb
    (fun n =>
       String.eqb (Timer.formatTime (Z.of_nat n))
         (String (digit (Z.of_nat n / 60 / 10))
            (String (digit ((Z.of_nat n / 60) mod 10))
               (String ":"
                  (String (digit (Z.of_nat n mod 60 / 10))
                     (String (digit (Z.of_nat n mod 60 mod 10))
                        EmptyString))))))
    (seq 0 2701) = true.
Proof. vm_compute. reflexivity. Qed.

(** X22. For every time from 0 to the whole time of an exam, the timer prints
    two digits of minutes, a colon and two digits of seconds. *)
Theorem timer_prints_minutes_and_seconds (totalSeconds : Z) :
  0 <= totalSeconds <= MAX_TIME_SECONDS ->
  Timer.formatTime totalSeconds
  = String (digit (totalSeconds / 60 / 10))
      (String (digit ((totalSeconds / 60) mod 10))
         (String ":"
            (String (digit (totalSeconds mod 60 / 10))
               (String (digit (totalSeconds mod 60 mod 10))
                  EmptyString)))).
Proof.
  intros H.
  pose proof (proj1 (forallb_forall _ _) formatTime_checked
                (Z.to_nat totalSeconds)) as Hn.
  cbv beta in Hn. unfold MAX_TIME_SECONDS in H.
  rewrite Z2Nat.id in Hn by lia.
  apply String.eqb_eq, Hn, in_seq. lia.
Qed.

(** * Skipping and bookmarks *)

(** X16. Unless the runner is submitting, a skip leaves the question at the
    cursor without an answer and bookmarked, keeps the answers and the
    bookmarks of the other questions, and moves the cursor on by one unless
    it is on the last question. *)
Theorem skip_clears_and_flags (questions : list Quiz.Question)
  (s : QuizRunner.State) :
  QuizRunner.isSubmitting s = false ->
  let i := QuizRunner.currentQuestionIndex s in
  let s' := QuizRunner.handleSkip questions s in
  Quiz.get (QuizRunner.answers s') i = None
  /\ Quiz.has (QuizRunner.bookmarks s') i = true
  /\ (forall k, k <> i ->
        Quiz.get (QuizRunner.answers s') k = Quiz.get (QuizRunner.answers s) k
        /\ Quiz.has (QuizRunner.bookmarks s') k
           = Quiz.has (QuizRunner.bookmarks s) k)
  /\ QuizRunner.currentQuestionIndex s'
     = (if i <? len questions - 1 then i + 1 else i)
  /\ QuizRunner.completions s' = QuizRunner.completions s.
Proof.
  intros Hs i s'. subst s'. unfold QuizRunner.handleSkip. rewrite Hs.
  fold i.
  assert (Hadd : Quiz.has (Quiz.add (QuizRunner.bookmarks s) i) i = true
                 /\ forall k, k <> i ->
                      Quiz.has (Quiz.add (QuizRunner.bookmarks s) i) k
                      = Quiz.has (QuizRunner.bookmarks s) k).
  { unfold Quiz.add. destruct (Quiz.has (QuizRunner.bookmarks s) i) eqn:Hh;
      [now split |].
    unfold Quiz.has in *. split.
    - rewrite existsb_app. simpl. now rewrite Z.eqb_refl, orb_true_r.
    - intros k Hk. rewrite existsb_app. simpl.
      apply Z.eqb_neq in Hk. now rewrite Hk, !orb_false_r. }
  destruct Hadd as [Hadd1 Hadd2].
  destruct (Quiz.has (QuizRunner.bookmarks s) i) eqn:Hh;
    destruct (i <? len questions - 1); simpl;
    (split; [apply get_delete_same |]);
    (split; [assumption |]);
    (split; [| split; reflexivity]);
    intros k Hk; (split; [now apply get_delete_other |]);
    try reflexivity; now apply Hadd2.
Qed.

Lemma filterBookmarked_ext (b1 b2 : list Z) (l : list Quiz.Question) :
  forall index,
    (forall k, index <= k -> Quiz.has b1 k = Quiz.has b2 k) ->
    ResultsView.filterBookmarked b1 index l
    = ResultsView.filterBookmarked b2 index l.
Proof.
  induction l as [| q rest IH]; intros index H; simpl; [reflexivity |].
  rewrite (H index) by lia. rewrite (IH (index + 1)); [reflexivity |].
  intros k Hk. apply H. lia.
Qed.

Lemma remove_length (b : list Z) (k : Z) :
  NoDup b -> In k b -> len (Quiz.remove b k) = len b - 1.
Proof.
  unfold len, Quiz.remove.
  induction b as [| x rest IH]; intros Hnd Hin; [contradiction |].
  inversion Hnd as [| ? ? Hnotin Hrest]; subst.
  cbn [filter]. destruct (Z.eqb_spec x k) as [E | E]; cbn [negb].
  - subst x. rewrite (filter_ext_in _ (fun _ => true)).
    + rewrite filter_true. cbn [List.length]. lia.
    + intros y Hy. apply negb_true_iff, Z.eqb_neq. congruence.
  - destruct Hin as [Hx | Hin]; [contradiction |].
    cbn [List.length]. rewrite !Nat2Z.inj_succ, (IH Hrest Hin). lia.
Qed.

Lemma filterBookmarked_length (l : list Quiz.Question) :
  forall b index,
    NoDup b ->
    Forall (fun k => index <= k < index + len l) b ->
    len (ResultsView.filterBookmarked b index l) = len b.
Proof.
  induction l as [| q rest IH]; intros b index Hnd Hrange.
  - destruct b as [| x b]; [reflexivity |].
    inversion Hrange as [| ? ? Hx _]; subst. unfold len in Hx. simpl in Hx. lia.
  - cbn [ResultsView.filterBookmarked].
    assert (Hlen : len (q :: rest) = len rest + 1)
      by (unfold len; cbn [List.length]; lia).
    destruct (Quiz.has b index) eqn:Hhas.
    + apply has_In in Hhas.
      rewrite (filterBookmarked_ext b (Quiz.remove b index)).
      * change (len (q :: ResultsView.filterBookmarked
                            (Quiz.remove b index) (index + 1) rest))
          with (Z.of_nat (S (List.length
                                (ResultsView.filterBookmarked
                                   (Quiz.remove b index) (index + 1) rest)))).
        rewrite Nat2Z.inj_succ. fold (len (ResultsView.filterBookmarked
                                            (Quiz.remove b index)
                                            (index + 1) rest)).
        rewrite IH.
        -- rewrite remove_length by assumption. lia.
        -- unfold Quiz.remove. now apply NoDup_filter.
        -- apply Forall_forall. intros k Hk. apply remove_In in Hk.
           pose proof (proj1 (Forall_forall _ _) Hrange k (proj1 Hk)).
           simpl in *. lia.
      * intros k Hk.
        destruct (Quiz.has b k) eqn:E1, (Quiz.has (Quiz.remove b index) k) eqn:E2;
          try reflexivity; exfalso.
        -- apply has_In in E1.
           assert (In k (Quiz.remove b index)) by (apply remove_In; split; [assumption | lia]).
           apply has_In in H. congruence.
        -- apply has_In, remove_In in E2. destruct E2 as [E2 _].
           apply has_In in E2. congruence.
    + apply IH; [exact Hnd |].
      apply Forall_forall. intros k Hk.
      pose proof (proj1 (Forall_forall _ _) Hrange k Hk) as Hr. simpl in Hr.
      assert (k <> index).
      { intros ->. apply has_In in Hk. congruence. }
      lia.
Qed.

(** X21. Outside streak mode, the bookmarks that the runner reports after any
    sequence of handler calls are all shown by the results: the Bookmarked
    tab lists as many questions as there are bookmarks. *)
Theorem bookmarked_tab_shows_every_bookmark (questions : list Quiz.Question)
  (mode : QuizMode) (actions : list QuizRunner.Action)
  (s : QuizRunner.State) :
  questions <> [] ->
  mode <> STREAK ->
  QuizRunner.run questions mode actions QuizRunner.initialState = Some s ->
  NoDup (QuizRunner.bookmarks s)
  /\ Forall (fun k => 0 <= k < len questions) (QuizRunner.bookmarks s)
  /\ len (ResultsView.displayedQuestions questions (QuizRunner.answers s)
            mode (QuizRunner.bookmarks s) ResultsView.bookmarked)
     = len (QuizRunner.bookmarks s).
Proof.
  intros Hne Hmode Hrun.
  destruct (run_quizInvariant questions mode actions s Hne Hrun)
    as (_ & _ & Hnd & Hrange & _).
  split; [exact Hnd | split; [exact Hrange |]].
  unfold ResultsView.displayedQuestions.
  assert (Hc : ResultsView.effectiveQuestions questions
                 (QuizRunner.answers s) mode = questions)
    by (now destruct mode).
  rewrite Hc. apply filterBookmarked_length; [exact Hnd |].
  eapply Forall_impl; [| exact Hrange]. intros k Hk. simpl in *. lia.
Qed.

(** * The further properties at sample inputs *)

Lemma sampleDeck_unique : uniqueIds (cards sampleDeck).
Proof. exact seed_deck_unique. Qed.

Lemma outcome_rewrites_by_id_witness :
  let s := startReview (constClock 5) sampleDeck in
  currentCard s = nth_error (seed (constClock 0)) 0
  /\ exists s', handleReviewResult (constClock 10) false s = Some s'.
Proof.
  split; [reflexivity |].
  destruct (outcome_rewrites_by_id (constClock 10) false
              (startReview (constClock 5) sampleDeck) _ eq_refl)
    as (s' & Hs' & _).
  exists s'. exact Hs'.
Defined.

Lemma sample_session_reachable :
  reachable (startReview (constClock 5) (mount (constClock 0) (reload initialState))).
Proof. apply reach_startReview, reach_mount, reach_initial. Qed.

Lemma review_view_never_throws_witness :
  let s := startReview (constClock 5)
             (mount (constClock 0) (reload initialState)) in
  reachable s
  /\ view s = Review 0 false
  /\ exists cur s',
       currentCard s = Some cur
       /\ handleReviewResult (constClock 10) true s = Some s'.
Proof.
  split; [exact sample_session_reachable | split; [reflexivity |]].
  destruct (review_view_never_throws (constClock 10) true _ 0 false
              sample_session_reachable eq_refl)
    as (cur & s' & Hc & _ & Hs').
  exists cur, s'. split; [exact Hc | exact Hs'].
Defined.

Lemma sample_mount_reachable :
  reachable (mount (constClock 0) (reload initialState)).
Proof. apply reach_mount, reach_initial. Qed.

Lemma reload_restores_deck_witness :
  let s := mount (constClock 0) (reload initialState) in
  reachable s
  /\ stored s <> []
  /\ cards (mount (constClock 9) (reload s)) = cards s.
Proof.
  assert (Hne : stored (mount (constClock 0) (reload initialState)) <> [])
    by discriminate.
  split; [exact sample_mount_reachable | split; [exact Hne |]].
  destruct (reload_restores_deck (constClock 9) _
              sample_mount_reachable Hne) as (_ & Hcards & _).
  exact Hcards.
Defined.

Lemma scheduler_monotone_witness :
  2 <= 5
  /\ snd (scheduler (constClock 0) 2 true)
     <= snd (scheduler (constClock 0) 5 true).
Proof.
  assert (H : 2 <= 5) by lia.
  split; [exact H |].
  exact (proj2 (scheduler_monotone (constClock 0) 2 5 H)).
Defined.

Lemma good_button_shows_interval_witness :
  let s := startReview (constClock 5) sampleDeck in
  currentCard s = nth_error (seed (constClock 0)) 0
  /\ exists s', handleReviewResult (constClock 10) true s = Some s'.
Proof.
  split; [reflexivity |].
  destruct (good_button_shows_interval (constClock 10)
              (startReview (constClock 5) sampleDeck) _ eq_refl)
    as (s' & Hs' & _).
  exists s'. exact Hs'.
Defined.

Lemma sample_outcomes_from :
  outcomesFrom 5
    ([Reveal; Outcome (constClock 10) true; Reveal]
     ++ [Outcome (constClock 20) false]).
Proof. repeat constructor; unfold constClock; lia. Qed.

Lemma finished_session_leaves_nothing_due_witness :
  view sampleDeck = Dashboard
  /\ noQuit [Reveal; Outcome (constClock 10) true; Reveal] = true
  /\ S (outcomes [Reveal; Outcome (constClock 10) true; Reveal])
     = List.length (reviewQueue (startReview (constClock 5) sampleDeck))
  /\ exists s',
       run ([Reveal; Outcome (constClock 10) true; Reveal]
            ++ [Outcome (constClock 20) false])
         (startReview (constClock 5) sampleDeck) = Some s'
       /\ dueCards (stats (constClock 5) s') = 0.
Proof.
  assert (Hn : S (outcomes [Reveal; Outcome (constClock 10) true; Reveal])
               = List.length
                   (reviewQueue (startReview (constClock 5) sampleDeck)))
    by (vm_compute; reflexivity).
  split; [reflexivity | split; [reflexivity | split; [exact Hn |]]].
  destruct (finished_session_leaves_nothing_due 5 sampleDeck
              [Reveal; Outcome (constClock 10) true; Reveal]
              (constClock 20) false eq_refl eq_refl Hn sample_outcomes_from)
    as (s' & Hrun & _ & _ & Hdue & _).
  exists s'. split; [exact Hrun | exact Hdue].
Defined.

Lemma sample_ids_fresh :
  forall newCardsData,
    Some sampleCardData = Some newCardsData ->
    NoDup (map sampleRand (seq 0 (List.length newCardsData)))
    /\ forall k, (k < List.length newCardsData)%nat ->
                 ~ In (sampleRand k) (map id (cards sampleDeck)).
Proof.
  intros newCardsData [= <-]. split.
  - simpl. repeat constructor; simpl; intuition discriminate.
  - intros [| [| k]] Hk; simpl in *; try lia; intuition discriminate.
Qed.

Lemma handleGenerate_keeps_ids_unique_witness :
  uniqueIds (cards sampleDeck)
  /\ uniqueIds
       (cards (handleGenerate (fun t => t) (constClock 3) sampleRand
                 (Some sampleCardData) sampleDeck)).
Proof.
  split; [exact sampleDeck_unique |].
  exact (handleGenerate_keeps_ids_unique (fun t => t) (constClock 3)
           sampleRand (Some sampleCardData) sampleDeck
           sampleDeck_unique sample_ids_fresh).
Defined.

Lemma sample_topic_typed : (fun t : string => t) (topicInput sampleDeck) <> EmptyString.
Proof. discriminate. Qed.

Lemma sample_clock_before : forall k : nat, constClock 3 k <= 5.
Proof. intros k. unfold constClock. lia. Qed.

Lemma generated_cards_are_due_witness :
  (fun t : string => t) (topicInput sampleDeck) <> EmptyString
  /\ List.length
       (cards (handleGenerate (fun t => t) (constClock 3) sampleRand
                 (Some sampleCardData) sampleDeck))
     = (List.length (cards sampleDeck) + List.length sampleCardData)%nat.
Proof.
  split; [exact sample_topic_typed |].
  exact (proj1 (generated_cards_are_due (fun t => t) (constClock 3)
                  sampleRand sampleCardData 5 sampleDeck
                  sample_topic_typed sample_clock_before)).
Defined.

Lemma sampleQuestions_nonempty : sampleQuestions <> [].
Proof. discriminate. Qed.

Lemma sampleRawData_nonempty : sampleRawData <> [].
Proof. discriminate. Qed.

Lemma quiz_cursor_on_a_question_witness :
  sampleQuestions <> []
  /\ exists s,
       QuizRunner.run sampleQuestions PRACTICE
         [QuizRunner.SelectOption 1; QuizRunner.Next]
         QuizRunner.initialState = Some s
       /\ quizInvariant sampleQuestions s.
Proof.
  split; [exact sampleQuestions_nonempty |].
  destruct (QuizRunner.run sampleQuestions PRACTICE
              [QuizRunner.SelectOption 1; QuizRunner.Next]
              QuizRunner.initialState) as [s |] eqn:Hrun;
    [| vm_compute in Hrun; discriminate Hrun].
  exists s. split; [reflexivity |].
  exact (proj1 (quiz_cursor_on_a_question sampleQuestions PRACTICE _ s
                  sampleQuestions_nonempty Hrun)).
Defined.

Lemma finish_asks_when_unanswered_witness :
  sampleQuestions <> []
  /\ QuizRunner.isExamMode UNTIMED = true
  /\ exists s,
       QuizRunner.run sampleQuestions UNTIMED [QuizRunner.SelectOption 1]
         QuizRunner.initialState = Some s
       /\ ((exists k, 0 <= k < len sampleQuestions
                      /\ Quiz.get (QuizRunner.answers s) k = None) ->
           QuizRunner.showUnansweredConfirm
             (QuizRunner.handleFinishClick sampleQuestions UNTIMED s) = true).
Proof.
  split; [exact sampleQuestions_nonempty | split; [reflexivity |]].
  destruct (QuizRunner.run sampleQuestions UNTIMED
              [QuizRunner.SelectOption 1] QuizRunner.initialState)
    as [s |] eqn:Hrun; [| vm_compute in Hrun; discriminate Hrun].
  exists s. split; [reflexivity |].
  intros Hk.
  exact (proj1 (proj1 (finish_asks_when_unanswered sampleQuestions UNTIMED
                         _ s sampleQuestions_nonempty eq_refl Hrun) Hk)).
Defined.

Lemma timed_quiz_counts_the_seconds_witness :
  exists s,
    QuizRunner.run sampleQuestions TIMED
      [QuizRunner.TimerRuns; QuizRunner.TimerRuns; QuizRunner.SelectOption 0]
      QuizRunner.initialState = Some s
    /\ QuizRunner.secondsLeft s = MAX_TIME_SECONDS - 2.
Proof.
  destruct (QuizRunner.run sampleQuestions TIMED
              [QuizRunner.TimerRuns; QuizRunner.TimerRuns;
               QuizRunner.SelectOption 0] QuizRunner.initialState)
    as [s |] eqn:Hrun; [| vm_compute in Hrun; discriminate Hrun].
  exists s. split; [reflexivity |].
  exact (proj1 (proj2 (timed_quiz_counts_the_seconds sampleQuestions _ s
                         Hrun))).
Defined.

Lemma completions_report_the_answers_witness :
  exists s,
    QuizRunner.run sampleQuestions UNTIMED
      [QuizRunner.SelectOption 1; QuizRunner.FinishClick;
       QuizRunner.SubmitAnyway]
      QuizRunner.initialState = Some s
    /\ Forall (fun c => QuizRunner.reportedAnswers c = QuizRunner.answers s)
         (QuizRunner.completions s).
Proof.
  destruct (QuizRunner.run sampleQuestions UNTIMED
              [QuizRunner.SelectOption 1; QuizRunner.FinishClick;
               QuizRunner.SubmitAnyway] QuizRunner.initialState)
    as [s |] eqn:Hrun; [| vm_compute in Hrun; discriminate Hrun].
  exists s. split; [reflexivity |].
  exact (proj1 (completions_report_the_answers sampleQuestions UNTIMED _ s
                  Hrun)).
Defined.

Lemma practice_answers_are_final_witness :
  let s0 := QuizRunner.setAnswers [(0, 1)] QuizRunner.initialState in
  QuizRunner.isPracticeOrStreak PRACTICE = true
  /\ Quiz.get (QuizRunner.answers s0) 0 = Some 1
  /\ QuizRunner.allowed sampleQuestions PRACTICE
       [QuizRunner.Next; QuizRunner.SelectOption 2]
       s0 = true
  /\ exists s,
       QuizRunner.run sampleQuestions PRACTICE
         [QuizRunner.Next; QuizRunner.SelectOption 2] s0 = Some s
       /\ Quiz.get (QuizRunner.answers s) 0 = Some 1.
Proof.
  assert (Hall : QuizRunner.allowed sampleQuestions PRACTICE
                   [QuizRunner.Next; QuizRunner.SelectOption 2]
                   (QuizRunner.setAnswers [(0, 1)] QuizRunner.initialState)
                 = true) by (vm_compute; reflexivity).
  split; [reflexivity | split; [reflexivity | split; [exact Hall |]]].
  exact (practice_answers_are_final sampleQuestions PRACTICE _
           (QuizRunner.setAnswers [(0, 1)] QuizRunner.initialState) 0 1
           eq_refl eq_refl Hall).
Defined.

Lemma results_read_answers_by_position_witness :
  UNTIMED <> STREAK
  /\ exists q,
       nth_error (Quiz.generateQuizQuestions sampleRawData) 2 = Some q
       /\ Quiz.id q = 3.
Proof.
  assert (Hmode : UNTIMED <> STREAK) by discriminate.
  split; [exact Hmode |].
  destruct (nth_error (Quiz.generateQuizQuestions sampleRawData) 2)
    as [q |] eqn:Hq; [| vm_compute in Hq; discriminate Hq].
  exists q. split; [reflexivity |].
  exact (proj1 (results_read_answers_by_position sampleRawData [(0, 1)]
                  UNTIMED 2 q Hmode Hq)).
Defined.

Lemma streak_results_witness :
  sampleRawData <> []
  /\ QuizRunner.allowed (Quiz.generateQuizQuestions sampleRawData) STREAK
       [QuizRunner.SelectOption 1; QuizRunner.Next; QuizRunner.SelectOption 0]
       QuizRunner.initialState = true
  /\ exists s,
       QuizRunner.run (Quiz.generateQuizQuestions sampleRawData) STREAK
         [QuizRunner.SelectOption 1; QuizRunner.Next;
          QuizRunner.SelectOption 0]
         QuizRunner.initialState = Some s
       /\ ResultsView.skippedQuestions
            (ResultsView.tally (Quiz.generateQuizQuestions sampleRawData)
               (QuizRunner.answers s) STREAK) = [].
Proof.
  assert (Hall : QuizRunner.allowed (Quiz.generateQuizQuestions sampleRawData)
                   STREAK
                   [QuizRunner.SelectOption 1; QuizRunner.Next;
                    QuizRunner.SelectOption 0]
                   QuizRunner.initialState = true)
    by (vm_compute; reflexivity).
  split; [exact sampleRawData_nonempty | split; [exact Hall |]].
  destruct (QuizRunner.run (Quiz.generateQuizQuestions sampleRawData) STREAK
              [QuizRunner.SelectOption 1; QuizRunner.Next;
               QuizRunner.SelectOption 0] QuizRunner.initialState)
    as [s |] eqn:Hrun; [| vm_compute in Hrun; discriminate Hrun].
  exists s. split; [reflexivity |].
  exact (proj1 (streak_results sampleRawData _ s sampleRawData_nonempty
                  Hall Hrun)).
Defined.

Lemma timer_prints_minutes_and_seconds_witness :
  0 <= 125 <= MAX_TIME_SECONDS
  /\ Timer.formatTime 125 = "02:05"%string.
Proof.
  assert (H : 0 <= 125 <= MAX_TIME_SECONDS)
    by (unfold MAX_TIME_SECONDS; lia).
  split; [exact H |].
  exact (timer_prints_minutes_and_seconds 125 H).
Defined.

Lemma skip_clears_and_flags_witness :
  QuizRunner.isSubmitting QuizRunner.initialState = false
  /\ Quiz.has
       (QuizRunner.bookmarks
          (QuizRunner.handleSkip sampleQuestions QuizRunner.initialState))
       0 = true.
Proof.
  split; [reflexivity |].
  exact (proj1 (proj2 (skip_clears_and_flags sampleQuestions
                         QuizRunner.initialState eq_refl))).
Defined.

Lemma bookmarked_tab_shows_every_bookmark_witness :
  sampleQuestions <> []
  /\ UNTIMED <> STREAK
  /\ exists s,
       QuizRunner.run sampleQuestions UNTIMED
         [QuizRunner.ToggleBookmark; QuizRunner.Skip; QuizRunner.Skip]
         QuizRunner.initialState = Some s
       /\ len (ResultsView.displayedQuestions sampleQuestions
                 (QuizRunner.answers s) UNTIMED (QuizRunner.bookmarks s)
                 ResultsView.bookmarked)
          = len (QuizRunner.bookmarks s).
Proof.
  assert (Hmode : UNTIMED <> STREAK) by discriminate.
  split; [exact sampleQuestions_nonempty | split; [exact Hmode |]].
  destruct (QuizRunner.run sampleQuestions UNTIMED
              [QuizRunner.ToggleBookmark; QuizRunner.Skip; QuizRunner.Skip]
              QuizRunner.initialState)
    as [s |] eqn:Hrun; [| vm_compute in Hrun; discriminate Hrun].
  exists s. split; [reflexivity |].
  exact (proj2 (proj2 (bookmarked_tab_shows_every_bookmark sampleQuestions
                         UNTIMED _ s sampleQuestions_nonempty Hmode Hrun))).
Defined.
